(** * OceanInsightUVVIS: the spectrum file reader, the unit label builder
      and the chained JSON encoder

    A shallow embedding of
      - [uvvis/uvvis_spectrum.py]  (class [UVVisSpectrum]),
      - [utilities/pintutils/unitmanager.py]  (function [unitmanager]),
      - [utilities/jsonutils/multiplejsonencoders.py]
        (class [MultipleJsonEncoders]),
    followed by the properties of the specification stated over it.

    A Python [str] is a [string] whose characters are code points 0..255;
    a [dict] is a [gmap]; an exception that leaves a method is a [Raise]
    outcome next to the instance as the method left it. *)

From Stdlib Require Import ZArith Ascii String List Bool Lia.
From Stdlib Require Import Numbers.DecimalString.
From stdpp Require Import base option gmap strings list fin_maps.

Local Open Scope string_scope.
Local Open Scope Z_scope.

(** ** Python string primitives *)

Module PyStr.

(** [str.isspace] on one character, for code points below 256. *)
Definition isspace (c : ascii) : bool :=
  let n := N_of_ascii c in
  ((9 <=? n)%N && (n <=? 13)%N) || ((28 <=? n)%N && (n <=? 32)%N)
  || (n =? 133)%N || (n =? 160)%N.

Definition is_empty (s : string) : bool :=
  match s with EmptyString => true | String _ _ => false end.

(** [s.rstrip()]: trailing whitespace removed. *)
Fixpoint rstrip (s : string) : string :=
  match s with
  | EmptyString => EmptyString
  | String c s' =>
      let r := rstrip s' in
      if is_empty r && isspace c then EmptyString else String c r
  end.

(** [s.lower()] on one character: A-Z, and the Latin-1 capitals
    0xC0-0xDE other than the multiplication sign 0xD7. *)
Definition lower_char (c : ascii) : ascii :=
  let n := N_of_ascii c in
  if ((65 <=? n)%N && (n <=? 90)%N)
     || ((192 <=? n)%N && (n <=? 222)%N && negb (n =? 215)%N)
  then ascii_of_N (n + 32) else c.

Fixpoint lower (s : string) : string :=
  match s with
  | EmptyString => EmptyString
  | String c s' => String (lower_char c) (lower s')
  end.

(** [s.split(sep)] for a non-empty separator: the text is cut at every
    occurrence of [sep], found from left to right, an occurrence never
    overlapping the one before it.  [split_from sep skip s] reads [s]
    with [skip] characters of a separator still to pass over, and gives
    the part being read and the parts after it. *)
Fixpoint split_from (sep : string) (skip : nat) (s : string)
  : string * list string :=
  match s with
  | EmptyString => (EmptyString, [])
  | String c s' =>
      match skip with
      | S k => split_from sep k s'
      | O =>
          if String.prefix sep s then
            let '(p, ps) := split_from sep (String.length sep - 1) s' in
            (EmptyString, p :: ps)
          else
            let '(p, ps) := split_from sep O s' in (String c p, ps)
      end
  end.

Definition split (sep s : string) : list string :=
  let '(p, ps) := split_from sep O s in p :: ps.

(** [s.split()] with no separator: the maximal runs of characters that
    are not whitespace. *)
Fixpoint split_ws_from (s : string) : string * list string :=
  match s with
  | EmptyString => (EmptyString, [])
  | String c s' =>
      let '(p, ps) := split_ws_from s' in
      if isspace c
      then (EmptyString, if is_empty p then ps else p :: ps)
      else (String c p, ps)
  end.

Definition split_ws (s : string) : list string :=
  let '(p, ps) := split_ws_from s in if is_empty p then ps else p :: ps.

(** [sep.join(parts)]. *)
Fixpoint join (sep : string) (parts : list string) : string :=
  match parts with
  | [] => EmptyString
  | [p] => p
  | p :: ps => p +:+ sep +:+ join sep ps
  end.

(** [sub in s]: [sub] occurs somewhere in [s]. *)
Fixpoint contains (sub s : string) : bool :=
  String.prefix sub s ||
  match s with
  | EmptyString => false
  | String _ s' => contains sub s'
  end.

(** [c.isprintable()], for code points below 256. *)
Definition isprintable (c : ascii) : bool :=
  let n := N_of_ascii c in
  ((32 <=? n)%N && (n <=? 126)%N)
  || ((161 <=? n)%N && (n <=? 255)%N && negb (n =? 173)%N).

Definition hex_digit (n : N) : ascii :=
  if (n <? 10)%N then ascii_of_N (48 + n) else ascii_of_N (87 + n).

(** [repr(s)] writes a character as itself when it is printable, and
    otherwise as an escape; the quote in use and the backslash get a
    backslash before them. *)
Definition repr_char (quote c : ascii) : string :=
  if Ascii.eqb c quote || Ascii.eqb c "092" then String "092" (String c "")
  else if Ascii.eqb c "009" then String "092" "t"
  else if Ascii.eqb c "010" then String "092" "n"
  else if Ascii.eqb c "013" then String "092" "r"
  else if isprintable c then String c ""
  else
    let n := N_of_ascii c in
    String "092"
      (String "x"
         (String (hex_digit (n / 16)) (String (hex_digit (n mod 16)) ""))).

Fixpoint has_char (q : ascii) (s : string) : bool :=
  match s with
  | EmptyString => false
  | String c s' => Ascii.eqb c q || has_char q s'
  end.

Fixpoint repr_body (quote : ascii) (s : string) : string :=
  match s with
  | EmptyString => EmptyString
  | String c s' => repr_char quote c +:+ repr_body quote s'
  end.

(** [repr(s)] for a [str]: in single quotes, or in double quotes when
    the text holds a single quote and no double quote. *)
Definition repr (s : string) : string :=
  let quote : ascii :=
    if has_char "039" s && negb (has_char "034" s)
    then "034"%char else "039"%char in
  String quote (repr_body quote s +:+ String quote "").

End PyStr.

(** ** Paths *)

Module PyPath.

Fixpoint lstrip_sep (s : string) : string :=
  match s with
  | String "/" s' => lstrip_sep s'
  | _ => s
  end.

(** The root of a POSIX path and the text after it: two leading
    slashes are kept, one or more than two are one. *)
Definition splitroot (part : string) : string * string :=
  let rel := lstrip_sep part in
  match (String.length part - String.length rel)%nat with
  | 0%nat => ("", part)
  | 2%nat => ("//", rel)
  | _ => ("/", rel)
  end.

(** [str(Path(name))]: the components between slashes, without the
    empty ones and the single dots, after the root; [.] when nothing
    is left. *)
Definition str (name : string) : string :=
  let '(root, rel) := splitroot name in
  let parts :=
    List.filter (fun x => negb (PyStr.is_empty x) && negb (String.eqb x "."))
      (PyStr.split "/" rel) in
  let text := root +:+ PyStr.join "/" parts in
  if PyStr.is_empty text then "." else text.

End PyPath.

(** ** Numbers, dates and times of the Python runtime *)

Module PyNum.

Definition digit_of (c : ascii) : option Z :=
  let n := N_of_ascii c in
  if (48 <=? n)%N && (n <=? 57)%N then Some (Z.of_N n - 48) else None.

(** The digit part of an integer literal: decimal digits, where single
    underscores may stand between two digits. *)
Fixpoint digits (acc : Z) (after_digit : bool) (s : string) : option Z :=
  match s with
  | EmptyString => if after_digit then Some acc else None
  | String c s' =>
      match digit_of c with
      | Some d => digits (10 * acc + d) true s'
      | None =>
          if Ascii.eqb c "_" && after_digit then digits acc false s' else None
      end
  end.

(** The whitespace that [int] passes over at both ends of its
    argument: the blank, the controls 0x09-0x0D and the Latin-1 spaces
    0x85 and 0xA0.  The separators 0x1C-0x1F, which [str.isspace]
    accepts, are not among them. *)
Definition int_space (c : ascii) : bool :=
  let n := N_of_ascii c in
  ((9 <=? n)%N && (n <=? 13)%N) || (n =? 32)%N
  || (n =? 133)%N || (n =? 160)%N.

Fixpoint int_rstrip (s : string) : string :=
  match s with
  | EmptyString => EmptyString
  | String c s' =>
      let r := int_rstrip s' in
      if PyStr.is_empty r && int_space c then EmptyString else String c r
  end.

Fixpoint int_lstrip (s : string) : string :=
  match s with
  | EmptyString => EmptyString
  | String c s' => if int_space c then int_lstrip s' else s
  end.

(** The number of decimal digits of a literal, underscores apart, and
    the most that [int] converts
    ([sys.int_info.default_max_str_digits]). *)
Fixpoint count_digits (s : string) : Z :=
  match s with
  | EmptyString => 0
  | String c s' =>
      match digit_of c with Some _ => 1 | None => 0 end + count_digits s'
  end.

Definition max_str_digits : Z := 4300.

Definition literal (s : string) : option Z :=
  if count_digits s <=? max_str_digits then digits 0 false s else None.

(** [int(s)] in base ten; [None] stands for [ValueError]. *)
Definition int (s : string) : option Z :=
  match int_rstrip (int_lstrip s) with
  | String "-" r => Z.opp <$> literal r
  | String "+" r => literal r
  | t => literal t
  end.

(** [str(n)] for an [int]. *)
Definition str_of_int (z : Z) : string := NilZero.string_of_int (Z.to_int z).

Fixpoint zeros (n : nat) : string :=
  match n with O => EmptyString | S k => String "0" (zeros k) end.

(** ["%0<w>d" % n] for a number that is not negative. *)
Definition zfill (w : nat) (n : Z) : string :=
  let s := str_of_int n in
  zeros (w - String.length s) +:+ s.

(** Month abbreviations of the C locale, as [strptime] knows them. *)
Definition month_abbr : list string :=
  ["jan"; "feb"; "mar"; "apr"; "may"; "jun";
   "jul"; "aug"; "sep"; "oct"; "nov"; "dec"].

Fixpoint index_of (s : string) (l : list string) (i : Z) : option Z :=
  match l with
  | [] => None
  | x :: l' => if String.eqb s x then Some i else index_of s l' (i + 1)
  end.

(** [datetime.strptime(s, "%b").month]: the abbreviation is matched
    whole, letter case ignored. *)
Definition strptime_b (s : string) : option Z :=
  index_of (PyStr.lower s) month_abbr 1.

Definition is_leap (y : Z) : bool :=
  (y mod 4 =? 0) && (negb (y mod 100 =? 0) || (y mod 400 =? 0)).

Definition days_in_month (y m : Z) : Z :=
  match m with
  | 2 => if is_leap y then 29 else 28
  | 4 | 6 | 9 | 11 => 30
  | _ => 31
  end.

Record date := Date { year : Z; month : Z; day : Z }.
Record time := Time { hour : Z; minute : Z; second : Z; microsecond : Z }.

Inductive date_error := DateOverflow | DateValue.

Definition fits_c_int (n : Z) : bool := (- 2147483648 <=? n) && (n <=? 2147483647).

(** [date(year, month, day)]: the arguments are C ints, the year lies
    in 1..9999 and the day exists in that month. *)
Definition mk_date (y m d : Z) : date + date_error :=
  if negb (fits_c_int y && fits_c_int m && fits_c_int d) then inr DateOverflow
  else if (1 <=? y) && (y <=? 9999) && (1 <=? m) && (m <=? 12)
          && (1 <=? d) && (d <=? days_in_month y m)
  then inl (Date y m d) else inr DateValue.

(** The UTC offset, in seconds, as [isoformat] prints it. *)
Definition format_offset (off : Z) : string :=
  let sign := if off <? 0 then "-" else "+" in
  let a := Z.abs off in
  let hh := a / 3600 in
  let mm := (a mod 3600) / 60 in
  let ss := a mod 60 in
  sign +:+ zfill 2 hh +:+ ":" +:+ zfill 2 mm
  +:+ (if ss =? 0 then "" else ":" +:+ zfill 2 ss).

(** [datetime.combine(d, t, tz).isoformat()] for a zone whose offset
    is [off] seconds. *)
Definition isoformat (d : date) (t : time) (off : Z) : string :=
  zfill 4 (year d) +:+ "-" +:+ zfill 2 (month d) +:+ "-" +:+ zfill 2 (day d)
  +:+ "T" +:+ zfill 2 (hour t) +:+ ":" +:+ zfill 2 (minute t)
  +:+ ":" +:+ zfill 2 (second t)
  +:+ (if microsecond t =? 0 then "" else "." +:+ zfill 6 (microsecond t))
  +:+ format_offset off.

End PyNum.

(** ** What the reader takes from outside the repository

    Floating-point numbers, [datetime.time.fromisoformat] (whose grammar
    changes between Python versions) and the time-zone database of [pytz]
    are not part of the repository.  The embedding takes them as an
    interface over the type of the floats; every property below holds
    for each implementation of it. *)
Class Runtime (float : Type) := {
  (** [float(s)]; [None] stands for [ValueError]. *)
  py_float : string -> option float;
  (** [bool(x)] for a float: false exactly for zero. *)
  float_truth : float -> bool;
  (** [str(x)] for a float. *)
  float_str : float -> string;
  (** [time.fromisoformat(s)]; [None] stands for [ValueError]. *)
  time_fromisoformat : string -> option PyNum.time;
  (** [pytz.timezone(name)], seen through the UTC offset in seconds that
      the zone object reports when it is attached with [datetime.combine];
      [None] stands for [UnknownTimeZoneError]. *)
  pytz_timezone : string -> option Z;
}.

(** A small implementation of the interface, to run the reader on
    concrete files: a float is kept as its literal, only plain decimal
    literals are read, the time has the form HH:MM:SS and two zones are
    known. *)
Module Sample.

Fixpoint all_digits (s : string) : bool :=
  match s with
  | EmptyString => true
  | String c s' => bool_decide (is_Some (PyNum.digit_of c)) && all_digits s'
  end.

Definition unsigned_decimal (s : string) : bool :=
  match PyStr.split "." s with
  | [a] => negb (PyStr.is_empty a) && all_digits a
  | [a; b] => negb (PyStr.is_empty a && PyStr.is_empty b)
              && all_digits a && all_digits b
  | _ => false
  end.

Definition decimal_literal (s : string) : option string :=
  let t := PyNum.int_rstrip (PyNum.int_lstrip s) in
  let body := match t with
              | String "-" r => r
              | String "+" r => r
              | _ => t
              end in
  if unsigned_decimal body then Some t else None.

Fixpoint has_nonzero_digit (s : string) : bool :=
  match s with
  | EmptyString => false
  | String c s' =>
      match PyNum.digit_of c with
      | Some d => negb (d =? 0) || has_nonzero_digit s'
      | None => has_nonzero_digit s'
      end
  end.

Definition two_digits (s : string) (bound : Z) : option Z :=
  if (String.length s =? 2)%nat && all_digits s then
    match PyNum.digits 0 false s with
    | Some n => if n <? bound then Some n else None
    | None => None
    end
  else None.

Definition hh_mm_ss (s : string) : option PyNum.time :=
  match PyStr.split ":" s with
  | [h; m; sec] =>
      h' ← two_digits h 24; m' ← two_digits m 60; s' ← two_digits sec 60;
      Some (PyNum.Time h' m' s' 0)
  | _ => None
  end.

Definition zone (name : string) : option Z :=
  if String.eqb name "GMT" || String.eqb name "UTC" then Some 0 else None.

#[global] Instance runtime : Runtime string := {|
  py_float := decimal_literal;
  float_truth := has_nonzero_digit;
  float_str := fun s => s;
  time_fromisoformat := hh_mm_ss;
  pytz_timezone := zone;
|}.

End Sample.

(** ** Units, numbers and the unit label builder *)

(** A [pint] unit, seen through the one observation the code makes of
    it: its abbreviated rendering [f"{unit:~}"]. *)
Record Unit := { abbreviated : string }.

Definition ureg_dimensionless : Unit := {| abbreviated := "" |}.
Definition ureg_nm : Unit := {| abbreviated := "nm" |}.
Definition ureg_sec : Unit := {| abbreviated := "s" |}.

Section Model.
Context {float : Type} `{!Runtime float}.

(** A Python number: an [int] or a [float]. *)
Inductive number := NInt (z : Z) | NFloat (x : float).

(** [bool(value)]. *)
Definition truth (v : number) : bool :=
  match v with
  | NInt z => negb (z =? 0)
  | NFloat x => float_truth x
  end.

(** [f"{value}"]. *)
Definition format_number (v : number) : string :=
  match v with
  | NInt z => PyNum.str_of_int z
  | NFloat x => float_str x
  end.

(** A value of the dict that [unitmanager] returns. *)
Inductive label_entry := LStr (s : string) | LNum (n : number).

(** [unitmanager(label, unit=None, value=None)]. *)
Definition unitmanager (label : string) (unit : option Unit)
    (value : option number) : gmap string label_entry :=
  let unit := match unit with
              | None => ureg_dimensionless
              | Some u => u
              end in
  let output : gmap string label_entry := ∅ in
  let output := <["name" := LStr label]> output in
  let output := <["unit" := LStr (abbreviated unit)]> output in
  let output :=
    if String.eqb (abbreviated unit) ""
    then <["label" := LStr label]> output
    else <["label" := LStr (label +:+ " (" +:+ abbreviated unit +:+ ")")]> output in
  match value with
  | Some v =>
      (* [if value:] *)
      if truth v then
        let output := <["value" := LNum v]> output in
        if String.eqb (abbreviated unit) ""
        then <["quantity" := LStr (format_number v)]> output
        else <["quantity" := LStr (format_number v +:+ " " +:+ abbreviated unit)]> output
      else output
  | None => output
  end.

(** ** The spectrum object *)

Inductive exn :=
| TypeError
| KeyError (key : string)
| IndexError
| ValueError
| OverflowError
| UnknownTimeZoneError (name : string)
| FileNotFoundError (path : string)
| PermissionError (path : string)
| Exception (msg : string).

(** [pandas.DataFrame]: the column labels and the rows. *)
Record DataFrame := { columns : list string; rows : list (float * float) }.

Definition empty_frame : DataFrame := {| columns := []; rows := [] |}.

(** A value stored in the metadata dict. *)
Inductive mvalue :=
| MStr (s : string)
| MInt (z : Z)
| MBool (b : bool)
| MFloat (x : float)
| MQuantity (magnitude : float) (unit : Unit)
| MDict (d : gmap string string)
| MLabel (d : gmap string label_entry).

Record UVVisSpectrum := {
  _filename : option string;
  _metadata : gmap string mvalue;
  _header : gmap string string;
  _data : DataFrame;
}.

(** How a call ends: with a value, or with an exception on its way to
    the caller. *)
Inductive outcome (A : Type) :=
| Return (a : A)
| Raise (e : exn).
Global Arguments Return {A} a.
Global Arguments Raise {A} e.

(** A method body: it reads and updates the instance, and keeps the
    updates made before an exception. *)
Definition M (A : Type) : Type := UVVisSpectrum -> outcome A * UVVisSpectrum.

Definition ret {A} (a : A) : M A := fun self => (Return a, self).
Definition raise {A} (e : exn) : M A := fun self => (Raise e, self).
Definition bind {A B} (m : M A) (k : A -> M B) : M B :=
  fun self =>
    match m self with
    | (Return a, self') => k a self'
    | (Raise e, self') => (Raise e, self')
    end.

Definition get : M UVVisSpectrum := fun self => (Return self, self).

Global Instance M_ret : MRet M := @ret.
Global Instance M_bind : MBind M := fun A B k m => bind m k.

Definition modify (f : UVVisSpectrum -> UVVisSpectrum) : M unit :=
  fun self => (Return tt, f self).

(** [self._filename = v] and the like. *)
Definition set_filename (v : option string) : M unit :=
  modify (fun s => {| _filename := v; _metadata := _metadata s;
                      _header := _header s; _data := _data s |}).
Definition set_metadata (v : gmap string mvalue) : M unit :=
  modify (fun s => {| _filename := _filename s; _metadata := v;
                      _header := _header s; _data := _data s |}).
Definition set_header (v : gmap string string) : M unit :=
  modify (fun s => {| _filename := _filename s; _metadata := _metadata s;
                      _header := v; _data := _data s |}).
Definition set_data (v : DataFrame) : M unit :=
  modify (fun s => {| _filename := _filename s; _metadata := _metadata s;
                      _header := _header s; _data := v |}).

(** [self._header[k] = v] and [self._metadata[k] = v]. *)
Definition header_setitem (k v : string) : M unit :=
  self ← get; set_header (<[k := v]> (_header self)).
Definition metadata_setitem (k : string) (v : mvalue) : M unit :=
  self ← get; set_metadata (<[k := v]> (_metadata self)).

(** A library call that fails with the exception [e]. *)
Definition orelse {A} (o : option A) (e : exn) : M A :=
  match o with
  | Some a => ret a
  | None => raise e
  end.

(** *** [_date_to_isoformat] *)

(** [date_parts[i]]. *)
Definition item {A} (l : list A) (i : nat) : M A := orelse (l !! i) IndexError.

Definition _date_to_isoformat : M (option string) :=
  self ← get;
  match _header self !! "Date" with
  | Some v =>
      let date_parts := PyStr.split_ws v in
      p5 ← item date_parts 5;
      year ← orelse (PyNum.int p5) ValueError;
      p1 ← item date_parts 1;
      month ← orelse (PyNum.strptime_b p1) ValueError;
      p2 ← item date_parts 2;
      day ← orelse (PyNum.int p2) ValueError;
      thedate ← match PyNum.mk_date year month day with
                | inl d => ret d
                | inr PyNum.DateOverflow => raise OverflowError
                | inr PyNum.DateValue => raise ValueError
                end;
      p3 ← item date_parts 3;
      thetime ← orelse (time_fromisoformat p3) ValueError;
      p4 ← item date_parts 4;
      thetimezone ← orelse (pytz_timezone p4) (UnknownTimeZoneError p4);
      ret (Some (PyNum.isoformat thedate thetime thetimezone))
  | None => ret None
  end.

(** *** [_extract_metadata] *)

(** [if key in self._header: ...] *)
Definition if_in_header (key : string) (body : string -> M unit) : M unit :=
  self ← get;
  match _header self !! key with
  | Some v => body v
  | None => ret tt
  end.

Definition is_false_text (v : string) : bool := String.eqb (PyStr.lower v) "false".

Definition _extract_metadata : M unit :=
  self ← get;
  metadata_setitem "vendor_header" (MDict (_header self));;
  metadata_setitem "technique" (MStr "UV-vis spectroscopy");;
  metadata_setitem "technique-iri" (MStr "http://purl.obolibrary.org/obo/CHMO_0000292");;
  (let instrument : gmap string string := <["vendor" := "Ocean Insight"]> ∅ in
   metadata_setitem "instrument"
     (MDict match _header self !! "Spectrometer" with
            | Some v => <["spectrometer" := v]> instrument
            | None => instrument
            end));;
  if_in_header "Trigger mode" (fun v =>
    n ← orelse (PyNum.int v) ValueError;
    metadata_setitem "Trigger mode" (MInt n));;
  if_in_header "Scans to average" (fun v =>
    n ← orelse (PyNum.int v) ValueError;
    metadata_setitem "scans" (MInt n));;
  if_in_header "Integration Time (sec)" (fun v =>
    x ← orelse (py_float v) ValueError;
    metadata_setitem "dwell-time" (MQuantity x ureg_sec));;
  if_in_header "Nonlinearity correction enabled" (fun v =>
    metadata_setitem "Nonlinearity correction enabled"
      (MBool (negb (is_false_text v))));;
  if_in_header "Boxcar width" (fun v =>
    n ← orelse (PyNum.int v) ValueError;
    metadata_setitem "Boxcar width" (MInt n));;
  if_in_header "Storing dark spectrum" (fun v =>
    metadata_setitem "Storing dark spectrum" (MBool (negb (is_false_text v))));;
  (let x_label :=
     match _header self !! "XAxis mode" with
     | Some v =>
         if String.eqb (PyStr.lower v) "wavelengths"
         then unitmanager "wavelength" (Some ureg_nm) None
         else unitmanager v (Some ureg_dimensionless) None
     | None => unitmanager "x" (Some ureg_dimensionless) None
     end in
   metadata_setitem "abscissa" (MLabel x_label));;
  metadata_setitem "ordinate"
    (MLabel (unitmanager "absorbance" (Some ureg_dimensionless) None));;
  if_in_header "Number of Pixels in Spectrum" (fun v =>
    n ← orelse (PyNum.int v) ValueError;
    metadata_setitem "number-of-data-points" (MInt n));;
  if_in_header "Date" (fun _ =>
    d ← _date_to_isoformat;
    match d with
    | Some iso => metadata_setitem "acquisition-date" (MStr iso)
    | None => ret tt
    end).

(** *** [read] *)

Definition begin_marker : string := ">>>>>Begin Spectral Data<<<<<".

(** The local variables of [read] that the loop over the lines updates. *)
Record locals := {
  x_values : list float;
  y_values : list float;
  first_line : bool;
  data_block : bool;
}.

Definition initial_locals : locals :=
  {| x_values := []; y_values := []; first_line := true; data_block := false |}.

(** The body of [for line in f:], for one line. *)
Definition read_line (loc : locals) (line : string) : M locals :=
  let line := PyStr.rstrip line in
  if first_line loc then
    header_setitem "Description" line;;
    ret {| x_values := x_values loc; y_values := y_values loc;
           first_line := false; data_block := data_block loc |}
  else if String.eqb line "" then
    ret loc
  else if String.eqb line begin_marker then
    ret {| x_values := x_values loc; y_values := y_values loc;
           first_line := first_line loc; data_block := true |}
  else if data_block loc then
    match PyStr.split (String "009" "") line with
    | [x; y] =>
        x' ← orelse (py_float x) ValueError;
        y' ← orelse (py_float y) ValueError;
        ret {| x_values := x_values loc ++ [x']; y_values := y_values loc ++ [y'];
               first_line := first_line loc; data_block := data_block loc |}
    | _ => raise ValueError
    end
  else
    let parts := PyStr.split ": " line in
    (* [if len(parts) != 2: raise ...], then [parts[0]] and [parts[1]] *)
    match parts with
    | [k; v] => header_setitem k v;; ret loc
    | _ => raise (Exception "Something wrong here")
    end.

Fixpoint read_lines (loc : locals) (lines : list string) : M locals :=
  match lines with
  | [] => ret loc
  | line :: rest => loc' ← read_line loc line; read_lines loc' rest
  end.

(** What [Path(name).open()] finds: no such file, a file that may not
    be read, or the lines that iterating over the file yields. *)
Inductive file :=
| Missing
| Unreadable
| Lines (lines : list string).

Definition filesystem := string -> file.

Definition open (fs : filesystem) (path : string) : M (list string) :=
  match fs path with
  | Missing => raise (FileNotFoundError path)
  | Unreadable => raise (PermissionError path)
  | Lines ls => ret ls
  end.

(** [self._metadata[k]['label']] *)
Definition axis_label (k : string) : M string :=
  self ← get;
  match _metadata self !! k with
  | Some (MLabel d) =>
      match d !! "label" with
      | Some (LStr s) => ret s
      | _ => raise (KeyError "label")
      end
  | Some _ => raise TypeError
  | None => raise (KeyError k)
  end.

(** The [try] block of [read], after the loop over the lines. *)
Definition read_epilogue (loc : locals) : M unit :=
  _extract_metadata;;
  x_label ← axis_label "abscissa";
  y_label ← axis_label "ordinate";
  set_data {| columns := [x_label; y_label];
              rows := zip (x_values loc) (y_values loc) |};;
  x0 ← orelse (head (x_values loc)) IndexError;
  metadata_setitem "lowest-observed-wavelength" (MFloat x0);;
  xn ← orelse (last (x_values loc)) IndexError;
  metadata_setitem "highest-observed-wavelength" (MFloat xn).

(** The [try] block of [read]. *)
Definition read_body (fs : filesystem) (filename : option string) : M unit :=
  (* [if filename:] *)
  match filename with
  | Some (String _ _) => set_filename filename
  | _ => ret tt
  end;;
  self ← get;
  path ← orelse (_filename self) TypeError;
  set_metadata ∅;;
  set_header ∅;;
  set_data empty_frame;;
  lines ← open fs path;
  loc ← read_lines initial_locals lines;
  read_epilogue loc.

(** [str(err)] for the [FileNotFoundError] of [Path(name).open()]: the
    error carries the text of the path, and is printed with its
    [repr]. *)
Definition file_not_found_text (name : string) : string :=
  "[Errno 2] No such file or directory: " +:+ PyStr.repr (PyPath.str name).

(** [read]: the call ends with a value or an exception, leaves the
    instance, and may have printed lines. *)
Definition read (fs : filesystem) (filename : option string)
    (self : UVVisSpectrum) : outcome unit * UVVisSpectrum * list string :=
  match read_body fs filename self with
  | (Raise (FileNotFoundError p), self') =>
      (* [except FileNotFoundError as err: print(err)] *)
      (Return tt, self', [file_not_found_text p])
  | (r, self') => (r, self', [])
  end.

(** [UVVisSpectrum(filename)]. *)
Definition __init__ (fs : filesystem) (filename : option string)
  : outcome unit * UVVisSpectrum * list string :=
  read fs filename
    {| _filename := filename; _metadata := ∅; _header := ∅;
       _data := empty_frame |}.

End Model.

(** ** The chained JSON encoder *)

Module MultipleJsonEncoders.
Section Encoders.
(** The objects handed to [default], the JSON-representable values, the
  arguments [json.dumps] builds its encoder with, and the exceptions
  other than [TypeError]. *)
Variables obj json kwargs other : Type.
(** [obj.__class__.__name__] *)
Variable class_name : obj -> string.
(** No positional and no keyword arguments. *)
Variable no_args : kwargs.

(** How building an encoder with the stored arguments and calling its
  [default] on the object ends. *)
Inductive result :=
| Encoded (j : json)
| RaiseTypeError (msg : string)
| RaiseOther (e : other).

(** An encoder class: instantiated with the arguments, then asked for
  [default(obj)]. *)
Definition encoder := kwargs -> obj -> result.

Record t := { encoders : list encoder; args : kwargs }.

Definition __init__ (encs : list encoder) : t :=
{| encoders := encs; args := no_args |}.

(** The loop of [default] over [self.encoders]. *)
Fixpoint try_each (encs : list encoder) (a : kwargs) (o : obj) : result :=
match encs with
| [] =>
    RaiseTypeError
      ("Object of type " +:+ class_name o +:+ " is not JSON serializable")
| enc :: rest =>
    match enc a o with
    | RaiseTypeError _ => try_each rest a o
    | r => r
    end
end.

Definition default (self : t) (o : obj) : result :=
try_each (encoders self) (args self) o.

(** [__call__]: the arguments are remembered; the encoder handed back
  to [json.dumps] has [self.default] as its [default]. *)
Definition __call__ (self : t) (a : kwargs) : t :=
{| encoders := encoders self; args := a |}.

(** The encoder declines the object: it raises [TypeError]. *)
Definition declines (a : kwargs) (o : obj) (enc : encoder) : Prop :=
exists msg, enc a o = RaiseTypeError msg.

End Encoders.

Arguments Encoded {json other} j.
Arguments RaiseTypeError {json other} msg.
Arguments RaiseOther {json other} e.
Arguments encoders {obj json kwargs other} _.
Arguments args {obj json kwargs other} _.
Arguments __init__ {obj json kwargs other} no_args encs.
Arguments try_each {obj json kwargs other} class_name encs a o.
Arguments default {obj json kwargs other} class_name self o.
Arguments __call__ {obj json kwargs other} self a.
Arguments declines {obj json kwargs other} a o enc.

End MultipleJsonEncoders.

(** The two encoder classes that [metadata_as_json] chains, and a third
    one to show that the order of the chain matters. *)
Module EncoderSample.
Import MultipleJsonEncoders.

(** The objects that reach [default]: a [pint] quantity, a date-time,
    or something else (here a set). *)
Inductive value :=
| Quantity (magnitude : Z) (unit : string)
| Datetime (iso : string)
| SetOf (items : list Z).

Definition class_name (v : value) : string :=
  match v with
  | Quantity _ _ => "Quantity"
  | Datetime _ => "datetime"
  | SetOf _ => "set"
  end.

(** [json.JSONEncoder.default]: the base class declines every object. *)
Definition base_default (v : value) : result string Empty_set :=
  RaiseTypeError
    ("Object of type " +:+ class_name v +:+ " is not JSON serializable").

(** Modelled from the spec: [JsonPintEncoder]
    ([utilities/pintutils/jsonpintencoder.py] is not among the sources):
    a physical quantity becomes the text of its magnitude and unit;
    every other object is left to the base class. *)
Definition JsonPintEncoder : encoder value string unit Empty_set :=
  fun _ v =>
    match v with
    | Quantity m u => Encoded (PyNum.str_of_int m +:+ " " +:+ u)
    | _ => base_default v
    end.

(** Modelled from the spec: [JsonDatetimeEncoder]
    ([utilities/datetimeutils/jsondatetimeencoder.py] is not among the
    sources): a date-time becomes its ISO-8601 text; every other object
    is left to the base class. *)
Definition JsonDatetimeEncoder : encoder value string unit Empty_set :=
  fun _ v =>
    match v with
    | Datetime iso => Encoded iso
    | _ => base_default v
    end.

(** A second encoder that accepts quantities, keeping the magnitude
    only. *)
Definition JsonMagnitudeEncoder : encoder value string unit Empty_set :=
  fun _ v =>
    match v with
    | Quantity m _ => Encoded (PyNum.str_of_int m)
    | _ => base_default v
    end.

(** [MultipleJsonEncoders(JsonPintEncoder, JsonDatetimeEncoder)], as
    [json.dumps] calls it. *)
Definition chain : t value string unit Empty_set :=
  __call__ (__init__ tt [JsonPintEncoder; JsonDatetimeEncoder]) tt.

(** Encoders whose exceptions may be other than [TypeError]: one that
    fails with a [KeyError], and one that accepts everything. *)
Definition JsonFailingEncoder : encoder value string unit string :=
  fun _ _ => RaiseOther "KeyError".

Definition JsonReprEncoder : encoder value string unit string :=
  fun _ v => Encoded (class_name v).

Definition JsonDecliningEncoder : encoder value string unit string :=
  fun _ v =>
    RaiseTypeError
      ("Object of type " +:+ class_name v +:+ " is not JSON serializable").

End EncoderSample.

(** ** Definitions that follow the words of the specification *)

Module Spec.

(** [drop n s]: [s] without its first [n] characters. *)
Fixpoint drop (n : nat) (s : string) : string :=
  match n, s with
  | S k, String _ s' => drop k s'
  | _, _ => s
  end.

(** "Split into exactly two parts on the first occurrence of the
    separator": the text before the first occurrence and the text
    after it, when there is an occurrence. *)
Fixpoint split_first (sep s : string) : option (string * string) :=
  if String.prefix sep s then Some (EmptyString, drop (String.length sep) s)
  else match s with
       | EmptyString => None
       | String c s' =>
           match split_first sep s' with
           | Some (k, v) => Some (String c k, v)
           | None => None
           end
       end.

(** "Case-insensitively equal", letter by letter: the two texts have
    the same length and hold at each position the same character, or
    the capital and the small form of one letter.  Below code point
    256 the letters with two forms are A-Z and the Latin-1 capitals
    0xC0-0xDE (the multiplication sign 0xD7 is no letter); the small
    form lies 32 above the capital. *)
Definition small_form_of (capital small : ascii) : bool :=
  let c := nat_of_ascii capital in
  (((65 <=? c) && (c <=? 90))
   || ((192 <=? c) && (c <=? 222) && negb (c =? 215)))%nat
  && (nat_of_ascii small =? c + 32)%nat.

Definition same_letter (a b : ascii) : bool :=
  Ascii.eqb a b || small_form_of a b || small_form_of b a.

Fixpoint eq_nocase (a b : string) : bool :=
  match a, b with
  | EmptyString, EmptyString => true
  | String x a', String y b' => same_letter x y && eq_nocase a' b'
  | _, _ => false
  end.

Definition is_marker (line : string) : bool :=
  String.eqb (PyStr.rstrip line) ">>>>>Begin Spectral Data<<<<<".

Definition is_blank (line : string) : bool :=
  String.eqb (PyStr.rstrip line) "".

(** "The lines between the marker and EOF", the first line of the file
    being the description whatever it holds. *)
Fixpoint after_marker (lines : list string) : list string :=
  match lines with
  | [] => []
  | l :: rest => if is_marker l then rest else after_marker rest
  end.

Definition lines_after_marker (lines : list string) : list string :=
  after_marker (tail lines).

(** A line of the data block that holds a sample: neither blank nor a
    repetition of the marker. *)
Definition is_sample (line : string) : bool :=
  negb (is_blank line) && negb (is_marker line).

(** A text of whitespace only, and the last character of a text. *)
Fixpoint all_space (s : string) : bool :=
  match s with
  | EmptyString => true
  | String c s' => PyStr.isspace c && all_space s'
  end.

Fixpoint last_char (s : string) : option ascii :=
  match s with
  | EmptyString => None
  | String c EmptyString => Some c
  | String _ s' => last_char s'
  end.

End Spec.

(** ** Vocabulary for the properties of method bodies *)

Section Vocabulary.
Context {float : Type} `{!Runtime float}.
Local Abbreviation UVVisSpectrum := (@UVVisSpectrum float).
Local Abbreviation locals := (@locals float).
Local Abbreviation M := (@M float).
Local Abbreviation mvalue := (@mvalue float).
Implicit Types (s self : UVVisSpectrum) (loc : locals).

(** The instance a fresh object starts from, and the one [read] resets
    to before it opens the file. *)
Definition blank_instance (filename : option string) : UVVisSpectrum :=
  {| _filename := filename; _metadata := ∅; _header := ∅;
     _data := empty_frame |}.

(** [m] leaves every instance in a state related to the one it started
    from, and never ends with [FileNotFoundError]. *)
Definition respects {A} (R : UVVisSpectrum -> UVVisSpectrum -> Prop)
    (m : M A) : Prop :=
  forall s r s', m s = (r, s') ->
    R s s' /\ forall p, r <> Raise (FileNotFoundError p).

(** Only the header may change. *)
Definition only_header (s s' : UVVisSpectrum) : Prop :=
  _filename s' = _filename s /\ _metadata s' = _metadata s
  /\ _data s' = _data s.

(** Only the metadata may change. *)
Definition only_metadata (s s' : UVVisSpectrum) : Prop :=
  _filename s' = _filename s /\ _header s' = _header s
  /\ _data s' = _data s.

(** Only the metadata may change, and not its entry [k]. *)
Definition keeps_entry (k : string) (s s' : UVVisSpectrum) : Prop :=
  only_metadata s s' /\ _metadata s' !! k = _metadata s !! k.

(** The locals of [read] once the first line is behind. *)
Definition in_header (loc : locals) : Prop :=
  first_line loc = false /\ data_block loc = false.

(** How [_date_to_isoformat] ends for a header whose [Date] entry is
    [v]. *)
Definition date_outcome (v : string) : outcome (option string) :=
  fst (_date_to_isoformat
         {| _filename := None; _metadata := ∅;
            _header := {["Date" := v]}; _data := empty_frame |}).

(** The header entries that the metadata extraction converts are
    convertible: the integers and the float parse, and the date
    conversion returns. *)
Definition fields_parse (h : gmap string string) : Prop :=
  (forall v, h !! "Trigger mode" = Some v -> is_Some (PyNum.int v))
  /\ (forall v, h !! "Scans to average" = Some v -> is_Some (PyNum.int v))
  /\ (forall v, h !! "Integration Time (sec)" = Some v -> is_Some (py_float v))
  /\ (forall v, h !! "Boxcar width" = Some v -> is_Some (PyNum.int v))
  /\ (forall v, h !! "Number of Pixels in Spectrum" = Some v ->
         is_Some (PyNum.int v))
  /\ (forall v, h !! "Date" = Some v -> exists d, date_outcome v = Return d).

(** From an instance whose header is [h], [m] returns, and the header
    is still [h]. *)
Definition returns_with {A} (h : gmap string string) (m : M A) : Prop :=
  forall s, _header s = h ->
    exists a s', m s = (Return a, s') /\ _header s' = h.

(** The instance holds nothing of a file: header, metadata and data
    are empty. *)
Definition fully_discarded (s : UVVisSpectrum) : Prop :=
  _header s = ∅ /\ _metadata s = ∅ /\ _data s = empty_frame.

(** The sample a line of the data block holds: two tab-separated tokens
    that [float] reads. *)
Definition parse_sample (line : string) : option (float * float) :=
  match PyStr.split (String "009" "") (PyStr.rstrip line) with
  | [x; y] =>
      match py_float x, py_float y with
      | Some x', Some y' => Some (x', y')
      | _, _ => None
      end
  | _ => None
  end.

(** The structural errors of the loop over the lines. *)
Definition structural (e : exn) : Prop :=
  e = Exception "Something wrong here" \/ e = ValueError.

(** The keys under which [_extract_metadata] and [read] store. *)
Definition metadata_keys : list string :=
  [ "vendor_header"; "technique"; "technique-iri"; "instrument";
    "Trigger mode"; "scans"; "dwell-time";
    "Nonlinearity correction enabled"; "Boxcar width";
    "Storing dark spectrum"; "abscissa"; "ordinate";
    "number-of-data-points"; "acquisition-date";
    "lowest-observed-wavelength"; "highest-observed-wavelength" ].

(** Only the metadata may change, and only under the keys [K]. *)
Definition only_entries (K : list string) (s s' : UVVisSpectrum) : Prop :=
  only_metadata s s'
  /\ forall k, k ∉ K -> _metadata s' !! k = _metadata s !! k.

End Vocabulary.

(** ** Sample files *)

Module Files.

Definition nl : string := String "010" "".
Definition tab : string := String "009" "".

(** A spectrum file with two samples and a blank line between them. *)
Definition before_blank : list string :=
  [ "Data from sample 7" +:+ nl;
    nl;
    "Spectrometer: USB4000" +:+ nl;
    "Date: Thu Feb 27 15:05:24 GMT 2020" +:+ nl;
    "Trigger mode: 0" +:+ nl;
    "XAxis mode: Wavelengths" +:+ nl;
    ">>>>>Begin Spectral Data<<<<<" +:+ nl;
    "200.1" +:+ tab +:+ "0.023" +:+ nl ].

Definition after_blank : list string :=
  [ "850.0" +:+ tab +:+ "0.011" +:+ nl ].

Definition spectrum : list string := before_blank ++ nl :: after_blank.

(** The same file without the blank line. *)
Definition spectrum_dense : list string := before_blank ++ after_blank.

(** A header and no data block. *)
Definition no_marker : list string :=
  [ "Data from sample 8" +:+ nl; nl; "Spectrometer: USB4000" +:+ nl ].

(** A header line without the separator. *)
Definition bad_header : list string :=
  [ "Data from sample 9" +:+ nl; "garbage" +:+ nl ].

(** A header line whose value holds the separator. *)
Definition note_line : string := "Note: ratio: 2" +:+ nl.

Definition disk (path : string) : file :=
  if String.eqb path "spectrum.txt" then Lines spectrum
  else if String.eqb path "dense.txt" then Lines spectrum_dense
  else if String.eqb path "no_marker.txt" then Lines no_marker
  else if String.eqb path "bad_header.txt" then Lines bad_header
  else Missing.

(** The disk after the blank line was taken out of the spectrum file. *)
Definition disk_dense (path : string) : file :=
  if String.eqb path "spectrum.txt" then Lines spectrum_dense
  else disk path.

(** The locals of [read] while it is in the header, and in the data
    block. *)
Definition header_locals : @locals string :=
  {| x_values := []; y_values := []; first_line := false; data_block := false |}.
Definition block_locals : @locals string :=
  {| x_values := []; y_values := []; first_line := false; data_block := true |}.

Definition fresh : @UVVisSpectrum string :=
  {| _filename := None; _metadata := ∅; _header := ∅;
     _data := @empty_frame string |}.

(** Reading the spectrum file into a fresh object, and the object
    after it. *)
Definition spectrum_run := read disk (Some "spectrum.txt") fresh.
Definition loaded : @UVVisSpectrum string := spectrum_run.1.2.

(** Reading the file without a marker into a fresh object. *)
Definition no_marker_run := read disk (Some "no_marker.txt") fresh.

(** Reading the file with the bad header line into the loaded object,
    and the instance in which the loop over its lines stops. *)
Definition reread_run := read disk (Some "bad_header.txt") loaded.
Definition stopped : @UVVisSpectrum string :=
  {| _filename := Some "bad_header.txt"; _metadata := ∅;
     _header := {["Description" := "Data from sample 9"]};
     _data := @empty_frame string |}.

(** An object whose header has the date of the sample file, and one
    whose date has another first word and words after the year. *)
Definition dated : @UVVisSpectrum string :=
  {| _filename := None; _metadata := ∅;
     _header := {["Date" := "Thu Feb 27 15:05:24 GMT 2020"]};
     _data := @empty_frame string |}.
Definition odd_dated : @UVVisSpectrum string :=
  {| _filename := None; _metadata := ∅;
     _header := {["Date" := "Someday Feb 27 15:05:24 GMT 2020 and more"]};
     _data := @empty_frame string |}.

(** An object whose header names the x axis, and its metadata. *)
Definition with_axis : @UVVisSpectrum string :=
  {| _filename := None; _metadata := ∅;
     _header := {["XAxis mode" := "Wavelengths"]};
     _data := @empty_frame string |}.
Definition with_axis_extracted : @UVVisSpectrum string :=
  (_extract_metadata with_axis).2.

(** An object whose header names another x axis, and the metadata of
    it and of an object with an empty header. *)
Definition with_pixels : @UVVisSpectrum string :=
  {| _filename := None; _metadata := ∅;
     _header := {["XAxis mode" := "Pixels"]};
     _data := @empty_frame string |}.
Definition with_pixels_extracted : @UVVisSpectrum string :=
  (_extract_metadata with_pixels).2.
Definition fresh_extracted : @UVVisSpectrum string :=
  (_extract_metadata fresh).2.

(** A spectrum file that has every header entry the metadata extraction
    looks at, and a disk that holds it. *)
Definition full : list string :=
  [ "Data from sample 10" +:+ nl;
    nl;
    "Date: Thu Feb 27 15:05:24 GMT 2020" +:+ nl;
    "Spectrometer: USB4000" +:+ nl;
    "Trigger mode: 0" +:+ nl;
    "Integration Time (sec): 0.5" +:+ nl;
    "Scans to average: 10" +:+ nl;
    "Nonlinearity correction enabled: FALSE" +:+ nl;
    "Boxcar width: 3" +:+ nl;
    "Storing dark spectrum: no" +:+ nl;
    "XAxis mode: Wavelengths" +:+ nl;
    "Number of Pixels in Spectrum: 2" +:+ nl;
    ">>>>>Begin Spectral Data<<<<<" +:+ nl;
    "850.0" +:+ tab +:+ "0.011" +:+ nl;
    "200.1" +:+ tab +:+ "0.023" +:+ nl ].

Definition disk_full (path : string) : file :=
  if String.eqb path "full.txt" then Lines full else disk path.

Definition full_run := read disk_full (Some "full.txt") fresh.
Definition full_loaded : @UVVisSpectrum string := full_run.1.2.

(** An object that remembers the name of the spectrum file. *)
Definition named : @UVVisSpectrum string :=
  {| _filename := Some "spectrum.txt"; _metadata := ∅; _header := ∅;
     _data := @empty_frame string |}.

(** A spectrum file whose trigger mode is no integer. *)
Definition bad_field : list string :=
  [ "Data from sample 11" +:+ nl;
    "Trigger mode: fast" +:+ nl;
    ">>>>>Begin Spectral Data<<<<<" +:+ nl;
    "200.1" +:+ tab +:+ "0.023" +:+ nl ].

Definition disk_bad_field (path : string) : file :=
  if String.eqb path "bad_field.txt" then Lines bad_field else disk path.

Definition bad_field_run := read disk_bad_field (Some "bad_field.txt") fresh.

(** The loop over the lines of that file, and the locals it ends
    with. *)
Definition bad_field_loop :=
  read_lines (@initial_locals string) bad_field
    (blank_instance (Some "bad_field.txt")).
Definition bad_field_locals : @locals string :=
  {| x_values := ["200.1"]; y_values := ["0.023"];
     first_line := false; data_block := true |}.

(** A spectrum file whose x axis counts pixels, one that does not
    name its x axis, and a disk that holds them. *)
Definition by_pixel : list string :=
  [ "Data from sample 12" +:+ nl;
    "XAxis mode: Pixels" +:+ nl;
    ">>>>>Begin Spectral Data<<<<<" +:+ nl;
    "0" +:+ tab +:+ "0.5" +:+ nl;
    "1" +:+ tab +:+ "0.7" +:+ nl ].
Definition plain : list string :=
  [ "Data from sample 13" +:+ nl;
    ">>>>>Begin Spectral Data<<<<<" +:+ nl;
    "1" +:+ tab +:+ "2" +:+ nl ].

Definition disk_axes (path : string) : file :=
  if String.eqb path "by_pixel.txt" then Lines by_pixel
  else if String.eqb path "plain.txt" then Lines plain
  else disk path.

Definition by_pixel_loaded : @UVVisSpectrum string :=
  (read disk_axes (Some "by_pixel.txt") fresh).1.2.
Definition plain_loaded : @UVVisSpectrum string :=
  (read disk_axes (Some "plain.txt") fresh).1.2.

(** A data block with a header-like line in it. *)
Definition mixed_block : list string :=
  [ "200.1" +:+ tab +:+ "0.023" +:+ nl; "Boxcar width: 3" +:+ nl ].

End Files.

(** * Properties *)

(** ** Facts about the string primitives *)

Module PyStrFacts.
Import PyStr.

Lemma app_cons c a b : String c a +:+ b = String c (a +:+ b).
Proof. reflexivity. Qed.

Lemma app_assoc a b c : (a +:+ b) +:+ c = a +:+ (b +:+ c).
Proof.
  induction a as [|x a IH]; [reflexivity|].
  rewrite !app_cons. now rewrite IH.
Qed.

Lemma app_length a b :
  String.length (a +:+ b) = (String.length a + String.length b)%nat.
Proof.
  induction a as [|x a IH]; [reflexivity|].
  rewrite app_cons. simpl. now rewrite IH.
Qed.

Lemma prefix_cons x s1 y s2 :
  String.prefix (String x s1) (String y s2) =
    if ascii_dec x y then String.prefix s1 s2 else false.
Proof. reflexivity. Qed.

Lemma prefix_app sep r : String.prefix sep (sep +:+ r) = true.
Proof.
  induction sep as [|x sep IH]; [now destruct r|].
  rewrite app_cons. simpl. destruct (ascii_dec x x); [exact IH|congruence].
Qed.

Lemma prefix_inv sep s :
  String.prefix sep s = true -> exists r, s = sep +:+ r.
Proof.
  revert s. induction sep as [|x sep IH]; intros s Hp.
  - now exists s.
  - destruct s as [|y s]; [discriminate|]. simpl in Hp.
    destruct (ascii_dec x y) as [->|]; [|discriminate].
    destruct (IH _ Hp) as [r ->]. now exists r.
Qed.

Lemma prefix_app_l sep s t :
  String.prefix sep s = true -> String.prefix sep (s +:+ t) = true.
Proof.
  intros [r ->]%prefix_inv. rewrite app_assoc. apply prefix_app.
Qed.

Lemma split_from_skip sep a r :
  split_from sep (String.length a) (a +:+ r) = split_from sep O r.
Proof.
  induction a as [|x a IH]; [reflexivity|].
  rewrite app_cons. simpl. exact IH.
Qed.

Lemma split_nil sep : split sep "" = [""].
Proof. reflexivity. Qed.

(** At an occurrence of the separator a part ends, and the reading
    goes on behind the separator. *)
Lemma split_sep sep r :
  sep <> "" -> split sep (sep +:+ r) = "" :: split sep r.
Proof.
  intros Hne. destruct sep as [|x sep]; [congruence|].
  unfold split. rewrite app_cons.
  cbn [split_from]. rewrite <- app_cons, prefix_app.
  cbn [String.length]. rewrite Nat.sub_succ, Nat.sub_0_r.
  rewrite split_from_skip. now destruct (split_from _ O r).
Qed.

(** Elsewhere the character joins the part being read. *)
Lemma split_cons sep c s :
  String.prefix sep (String c s) = false ->
  split sep (String c s) =
    match split sep s with
    | p :: ps => String c p :: ps
    | [] => []
    end.
Proof.
  intros Hp. unfold split. cbn [split_from]. rewrite Hp.
  now destruct (split_from sep O s).
Qed.

Lemma split_not_nil sep s : split sep s <> [].
Proof. unfold split. now destruct (split_from sep O s). Qed.

Lemma contains_cons sub c s :
  contains sub (String c s) = String.prefix sub (String c s) || contains sub s.
Proof. reflexivity. Qed.

(** A text without the separator is one part. *)
Lemma split_no_occurrence sep s :
  contains sep s = false -> split sep s = [s].
Proof.
  induction s as [|c s IH]; intros Hc.
  - reflexivity.
  - rewrite contains_cons in Hc. apply orb_false_iff in Hc as [Hp Hc].
    rewrite (split_cons _ _ _ Hp), (IH Hc). reflexivity.
Qed.

(** A text with the separator is at least two parts. *)
Lemma split_occurrence sep s :
  sep <> "" -> contains sep s = true -> (2 <= length (split sep s))%nat.
Proof.
  intros Hne. induction s as [|c s IH]; intros Hc.
  - destruct sep; [congruence|discriminate].
  - destruct (String.prefix sep (String c s)) eqn:Hp.
    + apply prefix_inv in Hp as [r ->]. rewrite (split_sep _ _ Hne).
      pose proof (split_not_nil sep r). destruct (split sep r); [congruence|].
      simpl. lia.
    + rewrite contains_cons, Hp in Hc. simpl in Hc.
      rewrite (split_cons _ _ _ Hp). specialize (IH Hc).
      destruct (split sep s); simpl in *; lia.
Qed.

Lemma split_one_part sep s :
  sep <> "" -> length (split sep s) = 1%nat <-> contains sep s = false.
Proof.
  intros Hne. split.
  - intros Hl. destruct (contains sep s) eqn:Hc; [|reflexivity].
    pose proof (split_occurrence _ _ Hne Hc). lia.
  - intros Hc. now rewrite (split_no_occurrence _ _ Hc).
Qed.

(** The parts, joined by the separator, give the text back. *)
Lemma join_cons_head sep c p ps :
  join sep (String c p :: ps) = String c (join sep (p :: ps)).
Proof. destruct ps; reflexivity. Qed.

Lemma join_split sep s : sep <> "" -> join sep (split sep s) = s.
Proof.
  intros Hne. remember (String.length s) as n eqn:Hn.
  revert s Hn. induction n as [n IH] using lt_wf_ind. intros s Hn.
  destruct s as [|c s]; [reflexivity|].
  destruct (String.prefix sep (String c s)) eqn:Hp.
  - apply prefix_inv in Hp as [r Hr]. rewrite Hr, (split_sep _ _ Hne).
    pose proof (split_not_nil sep r) as Hnn.
    assert (Hlen : (String.length r < n)%nat).
    { rewrite Hn, Hr, app_length. destruct sep; [congruence|simpl; lia]. }
    specialize (IH _ Hlen r eq_refl).
    destruct (split sep r) as [|p ps]; [congruence|].
    change (join sep ("" :: p :: ps)) with ("" +:+ sep +:+ join sep (p :: ps)).
    now rewrite IH.
  - rewrite (split_cons _ _ _ Hp).
    assert (Hlen : (String.length s < n)%nat) by (rewrite Hn; simpl; lia).
    specialize (IH _ Hlen s eq_refl).
    pose proof (split_not_nil sep s) as Hnn.
    destruct (split sep s) as [|p ps]; [congruence|].
    now rewrite join_cons_head, IH.
Qed.

(** For the separator of the header lines: around an occurrence, the
    parts are those of the text before it and those of the text after
    it. *)
Lemma split_colon_app a b :
  split ": " (a +:+ ": " +:+ b) = (split ": " a ++ split ": " b)%list.
Proof.
  remember (String.length a) as n eqn:Hn.
  revert a Hn. induction n as [n IH] using lt_wf_ind. intros a Hn.
  destruct a as [|c a].
  - change ("" +:+ ": " +:+ b) with (": " +:+ b).
    now rewrite split_sep.
  - destruct (String.prefix ": " (String c a)) eqn:Hp.
    + apply prefix_inv in Hp as [r Hr]. rewrite Hr, app_assoc.
      rewrite !split_sep by discriminate.
      assert (Hlen : (String.length r < n)%nat).
      { rewrite Hn, Hr, app_length. simpl. lia. }
      now rewrite (IH _ Hlen r eq_refl).
    + assert (Hp' : String.prefix ": " (String c a +:+ ": " +:+ b) = false).
      { rewrite app_cons. rewrite prefix_cons in Hp |- *.
        destruct (ascii_dec ":" c); [|reflexivity].
        destruct a as [|d a]; [reflexivity|].
        rewrite app_cons. rewrite prefix_cons in Hp |- *.
        destruct (ascii_dec " " d); [now destruct a|reflexivity]. }
      rewrite app_cons in Hp' |- *.
      rewrite (split_cons _ _ _ Hp'), (split_cons _ _ _ Hp).
      assert (Hlen : (String.length a < n)%nat) by (rewrite Hn; simpl; lia).
      rewrite (IH _ Hlen a eq_refl).
      pose proof (split_not_nil ": " a) as Hnn.
      now destruct (split ": " a).
Qed.

(** Comparing the lower-case forms is comparing letter by letter with
    the case of the letters ignored: checked on every pair of
    characters. *)
Lemma lower_char_pairs :
  forallb (fun m =>
    forallb (fun n =>
      Bool.eqb
        (Ascii.eqb (lower_char (ascii_of_nat m)) (lower_char (ascii_of_nat n)))
        (Spec.same_letter (ascii_of_nat m) (ascii_of_nat n)))
      (seq 0 256))
    (seq 0 256) = true.
Proof. vm_compute. reflexivity. Qed.

Lemma lower_char_same_letter a b :
  Ascii.eqb (lower_char a) (lower_char b) = Spec.same_letter a b.
Proof.
  pose proof lower_char_pairs as Hall.
  rewrite forallb_forall in Hall.
  assert (Hin : forall c, In (nat_of_ascii c) (seq 0 256)).
  { intros c. apply in_seq. pose proof (nat_ascii_bounded c). lia. }
  specialize (Hall _ (Hin a)). rewrite forallb_forall in Hall.
  specialize (Hall _ (Hin b)). rewrite !ascii_nat_embedding in Hall.
  now apply Bool.eqb_prop in Hall.
Qed.

Lemma lower_eq_nocase a : forall b,
  String.eqb (lower a) (lower b) = Spec.eq_nocase a b.
Proof.
  induction a as [|x a IH]; intros [|y b]; try reflexivity.
  cbn [lower String.eqb Spec.eq_nocase].
  now rewrite lower_char_same_letter, IH.
Qed.

End PyStrFacts.

(** ** Facts about method bodies *)

Section MethodFacts.
Context {float : Type} `{!Runtime float}.
Local Abbreviation UVVisSpectrum := (@UVVisSpectrum float).
Local Abbreviation locals := (@locals float).
Local Abbreviation M := (@M float).
Local Abbreviation mvalue := (@mvalue float).
Implicit Types (s self : UVVisSpectrum) (loc : locals).

Lemma bind_run {A B} (m : M A) (k : A -> M B) s :
  (m ≫= k) s =
    match m s with
    | (Return a, s') => k a s'
    | (Raise e, s') => (Raise e, s')
    end.
Proof. reflexivity. Qed.

Lemma bind_Return_inv {A B} (m : M A) (k : A -> M B) s b s2 :
  (m ≫= k) s = (Return b, s2) ->
  exists a s1, m s = (Return a, s1) /\ k a s1 = (Return b, s2).
Proof.
  rewrite bind_run. destruct (m s) as [[a|e] s1]; [eauto|discriminate].
Qed.

Lemma respects_run {A} R (m : M A) s r s' :
  respects R m -> m s = (r, s') -> R s s'.
Proof. intros Hm Hr. now destruct (Hm _ _ _ Hr). Qed.

Section Respects.
Context (R : relation UVVisSpectrum) `{!PreOrder R}.

Lemma respects_ret {A} (a : A) : respects R (mret a).
Proof. intros s r s' [= <- <-]. split; [reflexivity|discriminate]. Qed.

Lemma respects_get : respects R get.
Proof. intros s r s' [= <- <-]. split; [reflexivity|discriminate]. Qed.

Lemma respects_raise {A} (e : exn) :
  (forall p, e <> FileNotFoundError p) -> respects R (@raise _ A e).
Proof.
  intros He s r s' [= <- <-]. split; [reflexivity|].
  intros p [= Hp]. exact (He p Hp).
Qed.

Lemma respects_orelse {A} (o : option A) (e : exn) :
  (forall p, e <> FileNotFoundError p) -> respects R (orelse o e).
Proof.
  intros He. destruct o; [apply (respects_ret a)|now apply respects_raise].
Qed.

Lemma respects_bind {A B} (m : M A) (k : A -> M B) :
  respects R m -> (forall a, respects R (k a)) -> respects R (m ≫= k).
Proof.
  intros Hm Hk s r s'. rewrite bind_run.
  destruct (m s) as [[a|e] s1] eqn:Em; destruct (Hm _ _ _ Em) as [HR Hn].
  - intros Ek. destruct (Hk _ _ _ _ Ek) as [HR' Hn'].
    split; [now transitivity s1|exact Hn'].
  - intros [= <- <-]. split; [exact HR|].
    intros p [= ->]. now apply (Hn p).
Qed.

Lemma respects_modify (f : UVVisSpectrum -> UVVisSpectrum) :
  (forall s, R s (f s)) -> respects R (modify f).
Proof. intros Hf s r s' [= <- <-]. split; [apply Hf|discriminate]. Qed.

Lemma respects_if_in_header key (body : string -> M unit) :
  (forall v, respects R (body v)) -> respects R (if_in_header key body).
Proof.
  intros Hb. apply respects_bind; [apply respects_get|].
  intros self. destruct (_header self !! key); [apply Hb|apply (respects_ret tt)].
Qed.
End Respects.

Global Instance only_header_preorder : PreOrder (@only_header float).
Proof.
  split; [intros s; now repeat split|].
  intros s1 s2 s3. unfold only_header. intuition congruence.
Qed.

Global Instance only_metadata_preorder : PreOrder (@only_metadata float).
Proof.
  split; [intros s; now repeat split|].
  intros s1 s2 s3. unfold only_metadata. intuition congruence.
Qed.

Global Instance keeps_entry_preorder k : PreOrder (@keeps_entry float k).
Proof.
  split.
  - intros s. split; reflexivity.
  - intros s1 s2 s3 [Ha Hb] [Hc Hd]. split; [now transitivity s2|congruence].
Qed.

Lemma metadata_setitem_run k (v : mvalue) s :
  metadata_setitem k v s =
    (Return tt,
     {| _filename := _filename s; _metadata := <[k := v]> (_metadata s);
        _header := _header s; _data := _data s |}).
Proof. reflexivity. Qed.

Lemma header_setitem_run k v s :
  header_setitem k v s =
    (Return tt,
     {| _filename := _filename s; _metadata := _metadata s;
        _header := <[k := v]> (_header s); _data := _data s |}).
Proof. reflexivity. Qed.

Lemma respects_metadata_setitem k (v : mvalue) :
  respects only_metadata (metadata_setitem k v).
Proof.
  intros s r s'. rewrite metadata_setitem_run. intros [= <- <-].
  split; [now repeat split|discriminate].
Qed.

Lemma respects_metadata_setitem_other k k' (v : mvalue) :
  k <> k' -> respects (keeps_entry k) (metadata_setitem k' v).
Proof.
  intros Hne s r s'. rewrite metadata_setitem_run. intros [= <- <-].
  split; [|discriminate]. split; [now repeat split|].
  simpl. now apply lookup_insert_ne.
Qed.

End MethodFacts.

(** ** Facts about the loop over the lines *)

Section ReaderFacts.
Context {float : Type} `{!Runtime float}.
Local Abbreviation UVVisSpectrum := (@UVVisSpectrum float).
Local Abbreviation locals := (@locals float).
Local Abbreviation M := (@M float).
Local Abbreviation mvalue := (@mvalue float).
Implicit Types (s self : UVVisSpectrum) (loc : locals).

Lemma read_line_first loc line s :
  first_line loc = true ->
  read_line loc line s =
    (Return {| x_values := x_values loc; y_values := y_values loc;
               first_line := false; data_block := data_block loc |},
     {| _filename := _filename s; _metadata := _metadata s;
        _header := <["Description" := PyStr.rstrip line]> (_header s);
        _data := _data s |}).
Proof. intros Hf. unfold read_line. now rewrite Hf. Qed.

Lemma read_line_blank loc line s :
  first_line loc = false -> Spec.is_blank line = true ->
  read_line loc line s = (Return loc, s).
Proof.
  unfold Spec.is_blank. intros Hf Hb. unfold read_line. now rewrite Hf, Hb.
Qed.

Lemma read_line_marker loc line s :
  first_line loc = false -> Spec.is_marker line = true ->
  read_line loc line s =
    (Return {| x_values := x_values loc; y_values := y_values loc;
               first_line := first_line loc; data_block := true |}, s).
Proof.
  unfold Spec.is_marker. intros Hf Hm. unfold read_line. rewrite Hf.
  apply String.eqb_eq in Hm. now rewrite Hm.
Qed.

Lemma read_line_header loc line s :
  in_header loc -> Spec.is_blank line = false -> Spec.is_marker line = false ->
  read_line loc line s =
    match PyStr.split ": " (PyStr.rstrip line) with
    | [k; v] =>
        (Return loc,
         {| _filename := _filename s; _metadata := _metadata s;
            _header := <[k := v]> (_header s); _data := _data s |})
    | _ => (Raise (Exception "Something wrong here"), s)
    end.
Proof.
  unfold Spec.is_blank, Spec.is_marker. intros [Hf Hd] Hb Hm.
  unfold read_line, begin_marker. rewrite Hf, Hb, Hm, Hd.
  destruct (PyStr.split ": " (PyStr.rstrip line)) as [|k [|v [|]]]; reflexivity.
Qed.

Lemma read_line_data loc line s :
  first_line loc = false -> data_block loc = true ->
  Spec.is_sample line = true ->
  read_line loc line s =
    match PyStr.split (String "009" "") (PyStr.rstrip line) with
    | [x; y] =>
        match py_float x, py_float y with
        | Some x', Some y' =>
            (Return {| x_values := x_values loc ++ [x'];
                       y_values := y_values loc ++ [y'];
                       first_line := first_line loc;
                       data_block := data_block loc |}, s)
        | _, _ => (Raise ValueError, s)
        end
    | _ => (Raise ValueError, s)
    end.
Proof.
  unfold Spec.is_sample, Spec.is_blank, Spec.is_marker.
  intros Hf Hd [Hb Hm]%andb_true_iff.
  apply negb_true_iff in Hb, Hm.
  unfold read_line, begin_marker. rewrite Hf, Hb, Hm, Hd.
  destruct (PyStr.split _ (PyStr.rstrip line)) as [|x [|y [|]]]; try reflexivity.
  destruct (py_float x), (py_float y); reflexivity.
Qed.

(** The cases of a line that is not the first. *)
Lemma line_cases line :
  Spec.is_blank line = true
  \/ (Spec.is_blank line = false /\ Spec.is_marker line = true)
  \/ (Spec.is_blank line = false /\ Spec.is_marker line = false
      /\ Spec.is_sample line = true).
Proof.
  unfold Spec.is_sample.
  destruct (Spec.is_blank line), (Spec.is_marker line); auto.
Qed.

(** A line that raises leaves the instance as it found it, and the
    exception is one of the two structural errors. *)
Lemma read_line_raises loc line s e s' :
  read_line loc line s = (Raise e, s') -> structural e /\ s' = s.
Proof.
  destruct (first_line loc) eqn:Hf.
  { now rewrite read_line_first. }
  destruct (line_cases line) as [Hb|[[Hb Hm]|(Hb & Hm & Hs)]].
  - now rewrite read_line_blank.
  - now rewrite read_line_marker.
  - destruct (data_block loc) eqn:Hd.
    + rewrite read_line_data by assumption.
      destruct (PyStr.split _ _) as [|x [|y [|]]];
        try (intros [= <- <-]; split; [now right|reflexivity]).
      destruct (py_float x), (py_float y);
        intros [= <- <-] || intros [=]; split; solve [now right|reflexivity].
    + rewrite read_line_header by (try split; assumption).
      destruct (PyStr.split _ _) as [|k [|v [|]]];
        intros [= <- <-] || intros [=]; split; solve [now left|reflexivity].
Qed.

Lemma read_line_Return loc line s loc' s' :
  read_line loc line s = (Return loc', s') ->
  first_line loc' = false /\ only_header s s'
  /\ (first_line loc = false -> data_block loc = true -> data_block loc' = true).
Proof.
  destruct (first_line loc) eqn:Hf.
  { rewrite read_line_first by assumption. intros [= <- <-].
    repeat split; discriminate. }
  destruct (line_cases line) as [Hb|[[Hb Hm]|(Hb & Hm & Hs)]].
  - rewrite read_line_blank by assumption. intros [= <- <-].
    repeat split; auto; intros; congruence.
  - rewrite read_line_marker by assumption. intros [= <- <-].
    repeat split; auto; intros; congruence.
  - destruct (data_block loc) eqn:Hd.
    + rewrite read_line_data by assumption.
      destruct (PyStr.split _ _) as [|x [|y [|]]]; try discriminate.
      destruct (py_float x), (py_float y); try discriminate.
      intros [= <- <-]. repeat split; auto; intros; congruence.
    + rewrite read_line_header by (try split; assumption).
      destruct (PyStr.split _ _) as [|k [|v [|]]]; try discriminate.
      intros [= <- <-]. repeat split; auto; intros; congruence.
Qed.

Lemma read_lines_cons loc line rest s :
  read_lines loc (line :: rest) s =
    match read_line loc line s with
    | (Return loc', s') => read_lines loc' rest s'
    | (Raise e, s') => (Raise e, s')
    end.
Proof. reflexivity. Qed.

Lemma read_lines_app loc l1 l2 s :
  read_lines loc (l1 ++ l2) s =
    match read_lines loc l1 s with
    | (Return loc', s') => read_lines loc' l2 s'
    | (Raise e, s') => (Raise e, s')
    end.
Proof.
  revert loc s. induction l1 as [|l l1 IH]; intros loc s; [reflexivity|].
  rewrite <- app_comm_cons, !read_lines_cons.
  destruct (read_line loc l s) as [[loc'|e] s']; [apply IH|reflexivity].
Qed.

Lemma read_lines_first_false loc lines s loc' s' :
  read_lines loc lines s = (Return loc', s') ->
  lines <> [] \/ first_line loc = false -> first_line loc' = false.
Proof.
  revert loc s. induction lines as [|l lines IH]; intros loc s.
  - intros [= <- <-] [Hl|Hf]; [congruence|exact Hf].
  - rewrite read_lines_cons.
    destruct (read_line loc l s) as [[loc1|e] s1] eqn:El; [|discriminate].
    intros Hr _. apply (IH _ _ Hr). right.
    now apply read_line_Return in El.
Qed.

(** The loop changes the header only, and its exceptions are
    structural. *)
Lemma read_lines_outcome loc lines s r s' :
  read_lines loc lines s = (r, s') ->
  only_header s s' /\ forall e, r = Raise e -> structural e.
Proof.
  revert loc s. induction lines as [|l lines IH]; intros loc s.
  - intros [= <- <-]. split; [reflexivity|discriminate].
  - rewrite read_lines_cons.
    destruct (read_line loc l s) as [[loc1|e] s1] eqn:El.
    + intros Hr. destruct (IH _ _ Hr) as [Ho He]. split; [|exact He].
      apply read_line_Return in El as (_ & Ho1 & _).
      now transitivity s1.
    + intros [= <- <-]. apply read_line_raises in El as [Hs ->].
      split; [reflexivity|]. now intros e' [= <-].
Qed.

End ReaderFacts.

(** A method body built from the primitives keeps what each of its steps
    keeps. *)
Ltac respects_step setitem :=
  lazy zeta;
  lazymatch goal with
  | |- respects _ (mbind _ _) => apply respects_bind; [tc_solve| |intros ?]
  | |- respects _ get => apply respects_get; tc_solve
  | |- respects _ (mret _) => apply respects_ret; tc_solve
  | |- respects _ (ret _) => apply respects_ret; tc_solve
  | |- respects _ (raise _) => apply respects_raise; [tc_solve|intros ?; discriminate]
  | |- respects _ (orelse _ _) => apply respects_orelse; [tc_solve|intros ?; discriminate]
  | |- respects _ (item _ _) => apply respects_orelse; [tc_solve|intros ?; discriminate]
  | |- respects _ (if_in_header _ _) => apply respects_if_in_header; [tc_solve|intros ?]
  | |- respects _ (metadata_setitem _ _) => setitem
  | |- respects _ (match ?x with _ => _ end) => destruct x
  | |- respects _ _ => setitem
  end.

Ltac respects_tac setitem := repeat respects_step setitem.

Section MetadataFacts.
Context {float : Type} `{!Runtime float}.
Local Abbreviation UVVisSpectrum := (@UVVisSpectrum float).
Local Abbreviation locals := (@locals float).
Local Abbreviation M := (@M float).
Local Abbreviation mvalue := (@mvalue float).
Implicit Types (s self : UVVisSpectrum) (loc : locals).

(** The date conversion reads the header and changes nothing. *)
Lemma respects_date (R : relation UVVisSpectrum) `{!PreOrder R} :
  respects R _date_to_isoformat.
Proof. unfold _date_to_isoformat. respects_tac fail. Qed.

Lemma respects_extract_metadata : respects only_metadata _extract_metadata.
Proof.
  unfold _extract_metadata.
  respects_tac ltac:(first [apply respects_metadata_setitem
                           |apply respects_date; tc_solve]).
Qed.

End MetadataFacts.

Section ReadFacts.
Context {float : Type} `{!Runtime float}.
Local Abbreviation UVVisSpectrum := (@UVVisSpectrum float).
Local Abbreviation locals := (@locals float).
Local Abbreviation M := (@M float).
Local Abbreviation mvalue := (@mvalue float).
Implicit Types (s self : UVVisSpectrum) (loc : locals).

Lemma blank_not_marker line :
  Spec.is_blank line = true -> Spec.is_marker line = false.
Proof.
  unfold Spec.is_blank, Spec.is_marker. intros Hb.
  apply String.eqb_eq in Hb. now rewrite Hb.
Qed.

(** Each sample line of the data block adds one value to each list;
    no other line adds any. *)
Lemma read_lines_count lines : forall loc s loc' s',
  first_line loc = false ->
  read_lines loc lines s = (Return loc', s') ->
  let data := if data_block loc then lines else Spec.after_marker lines in
  length (x_values loc') =
    (length (x_values loc) + length (List.filter Spec.is_sample data))%nat
  /\ length (y_values loc') =
    (length (y_values loc) + length (List.filter Spec.is_sample data))%nat.
Proof.
  induction lines as [|l lines IH]; intros loc s loc' s' Hf.
  - intros [= <- <-]. destruct (data_block loc); simpl; lia.
  - rewrite read_lines_cons.
    destruct (line_cases l) as [Hb|[[Hb Hm]|(Hb & Hm & Hs)]].
    + rewrite read_line_blank by assumption. intros Hr.
      specialize (IH _ _ _ _ Hf Hr). cbn zeta in *.
      assert (Hs : Spec.is_sample l = false)
        by (unfold Spec.is_sample; now rewrite Hb).
      destruct (data_block loc); cbn [Spec.after_marker List.filter];
        rewrite ?Hs, ?(blank_not_marker _ Hb); exact IH.
    + rewrite read_line_marker by assumption. intros Hr.
      apply IH in Hr; [|exact Hf]. cbn zeta in *.
      cbn [data_block x_values y_values] in Hr.
      assert (Hs : Spec.is_sample l = false)
        by (unfold Spec.is_sample; rewrite Hm; apply andb_false_r).
      destruct (data_block loc); cbn [Spec.after_marker List.filter];
        rewrite ?Hs, ?Hm; exact Hr.
    + destruct (data_block loc) eqn:Hd.
      * rewrite read_line_data by assumption.
        destruct (PyStr.split _ _) as [|x [|y [|]]]; try discriminate.
        destruct (py_float x), (py_float y); try discriminate.
        intros Hr. apply IH in Hr; [|exact Hf]. cbn zeta in *.
        cbn [data_block x_values y_values] in Hr. rewrite Hd in Hr.
        cbn [List.filter]. rewrite Hs. rewrite !length_app in Hr.
        simpl in *. lia.
      * rewrite read_line_header by (try split; assumption).
        destruct (PyStr.split _ _) as [|k [|v [|]]]; try discriminate.
        intros Hr. apply IH in Hr; [|exact Hf]. cbn zeta in *.
        rewrite Hd in Hr. cbn [Spec.after_marker]. now rewrite Hm.
Qed.

Lemma after_marker_none lines :
  Forall (fun l => Spec.is_marker l = false) lines ->
  Spec.after_marker lines = [].
Proof.
  induction 1 as [|l lines Hl _ IH]; [reflexivity|].
  simpl. now rewrite Hl.
Qed.

(** Reading a label leaves the instance alone. *)
Lemma axis_label_run k s r s' :
  axis_label k s = (r, s') ->
  s' = s /\ forall p, r <> Raise (FileNotFoundError p).
Proof.
  unfold axis_label. rewrite bind_run. cbn [get].
  destruct (_metadata s !! k) as [[| | | | | |d]|];
    try (intros [= <- <-]; split; [reflexivity|discriminate]).
  destruct (d !! "label") as [[|]|];
    intros [= <- <-]; split; reflexivity || discriminate.
Qed.

(** What the part of [read] after the loop does to the instance. *)
Lemma read_epilogue_outcome loc s r s' :
  read_epilogue loc s = (r, s') ->
  _filename s' = _filename s /\ _header s' = _header s
  /\ (forall p, r <> Raise (FileNotFoundError p))
  /\ (_data s' = _data s
      \/ exists cols, _data s' =
           {| columns := cols; rows := zip (x_values loc) (y_values loc) |})
  /\ (x_values loc = [] -> r = Raise IndexError \/ _data s' = _data s)
  /\ (r = Return tt ->
      x_values loc <> [] /\
      exists cols, _data s' =
        {| columns := cols; rows := zip (x_values loc) (y_values loc) |}).
Proof.
  unfold read_epilogue. rewrite bind_run.
  destruct (_extract_metadata s) as [[[]|e] s1] eqn:Ex;
    destruct (respects_extract_metadata _ _ _ Ex) as [(Hf & Hh & Hd) Hn].
  2:{ intros [= <- <-]. repeat split; auto; try discriminate;
        try (intros p [= ->]; now apply (Hn p)). }
  rewrite bind_run.
  destruct (axis_label "abscissa" s1) as [[xl|e] s2] eqn:Ea;
    destruct (axis_label_run _ _ _ _ Ea) as [-> Hna].
  2:{ intros [= <- <-]. repeat split; auto; try discriminate;
        try (intros p [= ->]; now apply (Hna p)). }
  rewrite bind_run.
  destruct (axis_label "ordinate" s1) as [[yl|e] s2] eqn:Eo;
    destruct (axis_label_run _ _ _ _ Eo) as [-> Hno].
  2:{ intros [= <- <-]. repeat split; auto; try discriminate;
        try (intros p [= ->]; now apply (Hno p)). }
  rewrite bind_run. cbn [set_data modify].
  rewrite bind_run.
  destruct (x_values loc) as [|x0 xs] eqn:Hx.
  - cbn. intros [= <- <-]. repeat split; auto; try discriminate.
    right. now exists [xl; yl].
  - cbn [head orelse ret]. rewrite bind_run, metadata_setitem_run, bind_run.
    destruct (last (x0 :: xs)) as [xn|] eqn:Hl.
    + cbn [orelse ret]. rewrite metadata_setitem_run.
      intros [= <- <-]. cbn. repeat split; auto; try discriminate.
      * right. now exists [xl; yl].
      * now exists [xl; yl].
    + cbn [orelse raise]. intros [= <- <-]. cbn.
      repeat split; auto; try discriminate.
      right. now exists [xl; yl].
Qed.

(** [read_body] with a file name: the instance is reset, the file is
    opened, the lines are read and the metadata built. *)
Lemma read_body_run fs c p self :
  read_body fs (Some (String c p)) self =
    match fs (String c p) with
    | Missing =>
        (Raise (FileNotFoundError (String c p)),
         blank_instance (Some (String c p)))
    | Unreadable =>
        (Raise (PermissionError (String c p)),
         blank_instance (Some (String c p)))
    | Lines lines =>
        (read_lines initial_locals lines ≫= read_epilogue)
          (blank_instance (Some (String c p)))
    end.
Proof.
  unfold read_body, open, blank_instance, mbind, M_bind, bind. cbn.
  destruct (fs (String c p)); reflexivity.
Qed.

End ReadFacts.

Section StageFacts.
Context {float : Type} `{!Runtime float}.
Local Abbreviation UVVisSpectrum := (@UVVisSpectrum float).
Local Abbreviation locals := (@locals float).
Local Abbreviation M := (@M float).
Local Abbreviation mvalue := (@mvalue float).
Implicit Types (s self : UVVisSpectrum) (loc : locals).

(** [read] on a file that opens: either the loop raises, and that is
    the end, or the loop returns and the rest of the body decides. *)
Lemma read_stages fs c p self lines r self' out :
  fs (String c p) = Lines lines ->
  read fs (Some (String c p)) self = (r, self', out) ->
  out = [] /\
  ((exists e, read_lines initial_locals lines
                (blank_instance (Some (String c p))) = (Raise e, self')
              /\ r = Raise e /\ structural e)
   \/ (exists loc s1,
         read_lines initial_locals lines
           (blank_instance (Some (String c p))) = (Return loc, s1)
         /\ read_epilogue loc s1 = (r, self'))).
Proof.
  intros Hfs. unfold read. rewrite read_body_run, Hfs, bind_run.
  destruct (read_lines initial_locals lines _) as [[loc|e] s1] eqn:El.
  - destruct (read_epilogue loc s1) as [r1 s2] eqn:Ee.
    destruct (read_epilogue_outcome _ _ _ _ Ee) as (_ & _ & Hn & _).
    destruct r1 as [[]|e].
    + intros [= <- <- <-]. split; [reflexivity|]. right. eauto.
    + destruct e; try (intros [= <- <- <-]; split; [reflexivity|]; right; eauto).
      now destruct (Hn path).
  - destruct (read_lines_outcome _ _ _ _ _ El) as [_ Hs].
    specialize (Hs e eq_refl).
    destruct Hs as [-> | ->]; intros [= <- <- <-];
      (split; [reflexivity|]); left; eexists; repeat split; eauto;
      solve [now left|now right].
Qed.

Lemma read_line_header_grows loc line s r s' k :
  read_line loc line s = (r, s') ->
  is_Some (_header s !! k) -> is_Some (_header s' !! k).
Proof.
  destruct (first_line loc) eqn:Hf.
  { rewrite read_line_first by assumption. intros [= <- <-] Hk. cbn.
    apply lookup_insert_is_Some'. now right. }
  destruct (line_cases line) as [Hb|[[Hb Hm]|(Hb & Hm & Hs)]].
  - rewrite read_line_blank by assumption. now intros [= <- <-].
  - rewrite read_line_marker by assumption. now intros [= <- <-].
  - destruct (data_block loc) eqn:Hd.
    + rewrite read_line_data by assumption.
      destruct (PyStr.split _ _) as [|x [|y [|]]];
        try (now intros [= <- <-]).
      destruct (py_float x), (py_float y); now intros [= <- <-].
    + rewrite read_line_header by (try split; assumption).
      destruct (PyStr.split _ _) as [|x [|y [|]]];
        try (now intros [= <- <-]).
      intros [= <- <-] Hk. cbn. apply lookup_insert_is_Some'. now right.
Qed.

Lemma read_lines_header_grows lines : forall loc s r s' k,
  read_lines loc lines s = (r, s') ->
  is_Some (_header s !! k) -> is_Some (_header s' !! k).
Proof.
  induction lines as [|l lines IH]; intros loc s r s' k.
  - now intros [= <- <-].
  - rewrite read_lines_cons.
    destruct (read_line loc l s) as [[loc1|e] s1] eqn:El.
    + intros Hr Hk. eapply IH; [exact Hr|].
      eapply read_line_header_grows; eauto.
    + intros [= <- <-]. eapply read_line_header_grows; eauto.
Qed.

(** The loop that raises has read the lines before the offending one,
    and the offending line left the instance as those lines made it. *)
Lemma read_lines_Raise_inv lines : forall loc s e s',
  read_lines loc lines s = (Raise e, s') ->
  exists (pre : list string) (bad : string) (post : list string) loc1,
    lines = (pre ++ bad :: post)%list
    /\ read_lines loc pre s = (Return loc1, s')
    /\ read_line loc1 bad s' = (Raise e, s').
Proof.
  induction lines as [|l lines IH]; intros loc s e s'; [discriminate|].
  rewrite read_lines_cons.
  destruct (read_line loc l s) as [[loc1|e1] s1] eqn:El.
  - intros Hr. destruct (IH _ _ _ _ Hr) as (pre & bad & post & loc2 & -> & Hp & Hb).
    exists (l :: pre), bad, post, loc2. repeat split; [|exact Hb].
    now rewrite read_lines_cons, El.
  - intros [= <- <-]. pose proof El as El'.
    apply read_line_raises in El' as [_ ->].
    exists [], l, lines, loc. now repeat split.
Qed.

(** From the second line on the header holds a description. *)
Lemma read_lines_description l lines r s s' :
  read_lines initial_locals (l :: lines) s = (r, s') ->
  is_Some (_header s' !! "Description").
Proof.
  rewrite read_lines_cons, read_line_first by reflexivity.
  intros Hr. eapply read_lines_header_grows; [exact Hr|].
  cbn. rewrite lookup_insert_eq. eauto.
Qed.

End StageFacts.

Ltac peel H R :=
  let a := fresh "a" in
  let s1 := fresh "s" in
  let H1 := fresh "Hstep" in
  apply bind_Return_inv in H as (a & s1 & H1 & H);
  cbv beta in H;
  apply (respects_run R) in H1;
  [|respects_tac ltac:(first [apply respects_metadata_setitem
                             |apply respects_metadata_setitem_other; discriminate
                             |apply respects_date; tc_solve])].

Section ExtractFacts.
Context {float : Type} `{!Runtime float}.
Local Abbreviation UVVisSpectrum := (@UVVisSpectrum float).
Local Abbreviation locals := (@locals float).
Local Abbreviation M := (@M float).
Local Abbreviation mvalue := (@mvalue float).
Implicit Types (s self : UVVisSpectrum) (loc : locals).

(** The dict of [unitmanager] always has a label. *)
Lemma unitmanager_label label u :
  unitmanager label (Some u) None !! "label" =
    Some (LStr (if String.eqb (abbreviated u) "" then label
                else label +:+ " (" +:+ abbreviated u +:+ ")")).
Proof.
  unfold unitmanager.
  destruct (String.eqb (abbreviated u) ""); apply lookup_insert_eq.
Qed.

Lemma unitmanager_label_entry label unit value :
  exists l, unitmanager label unit value !! "label" = Some (LStr l).
Proof.
  unfold unitmanager.
  set (u := match unit with Some u => u | None => ureg_dimensionless end).
  destruct value as [v|]; [destruct (truth v)|];
    destruct (String.eqb (abbreviated u) "");
    eexists; rewrite ?(lookup_insert_ne _ "quantity"), ?(lookup_insert_ne _ "value")
      by discriminate; apply lookup_insert_eq.
Qed.

(** The date conversion is a function of the [Date] entry of the
    header, and leaves the instance alone. *)
Lemma date_run s v :
  _header s !! "Date" = Some v ->
  _date_to_isoformat s = (date_outcome v, s).
Proof.
  intros Hd. unfold date_outcome, _date_to_isoformat.
  rewrite !bind_run. cbn [get _header]. rewrite Hd, lookup_singleton_eq.
  unfold item, mbind, M_bind, bind, orelse, ret, raise, mret, M_ret.
  repeat (match goal with
          | |- context [match ?o with Some _ => _ | None => _ end] =>
              destruct o
          | |- context [match ?o with inl _ => _ | inr _ => _ end] =>
              destruct o as [?|[]]
          end; cbn); reflexivity.
Qed.

Lemma date_outcome_Some v d :
  date_outcome v = Return d -> exists iso, d = Some iso.
Proof.
  unfold date_outcome, _date_to_isoformat.
  rewrite !bind_run. cbn [get _header]. rewrite lookup_singleton_eq.
  unfold item, mbind, M_bind, bind, orelse, ret, raise, mret, M_ret.
  repeat (match goal with
          | |- context [match ?o with Some _ => _ | None => _ end] =>
              destruct o
          | |- context [match ?o with inl _ => _ | inr _ => _ end] =>
              destruct o as [?|[]]
          end; cbn); try discriminate.
  intros [= <-]. eauto.
Qed.

(** What a metadata extraction that returns has put into the
    metadata. *)
Lemma extract_Return s s' :
  _extract_metadata s = (Return tt, s') ->
  _header s' = _header s
  /\ _metadata s' !! "abscissa" =
       Some (MLabel
         match _header s !! "XAxis mode" with
         | Some v =>
             if String.eqb (PyStr.lower v) "wavelengths"
             then unitmanager "wavelength" (Some ureg_nm) None
             else unitmanager v (Some ureg_dimensionless) None
         | None => unitmanager "x" (Some ureg_dimensionless) None
         end)
  /\ _metadata s' !! "ordinate" =
       Some (MLabel (unitmanager "absorbance" (Some ureg_dimensionless) None))
  /\ (forall v, _header s !! "Date" = Some v ->
        exists iso, date_outcome v = Return (Some iso)
                    /\ _metadata s' !! "acquisition-date" = Some (MStr iso)).
Proof.
  intros Hx.
  pose proof (respects_run _ _ _ _ _ respects_extract_metadata Hx)
    as (_ & Hh & _).
  split; [exact Hh|].
  unfold _extract_metadata in Hx.
  apply bind_Return_inv in Hx as (self & s0 & [= <- <-] & Hx). cbv beta in Hx.
  do 10 peel Hx (@only_metadata float).
  apply bind_Return_inv in Hx as (u11 & t11 & Ha & Hx). cbv beta zeta in Ha, Hx.
  rewrite metadata_setitem_run in Ha. injection Ha as _ Hs11.
  assert (Hab : _metadata t11 !! "abscissa" = Some (MLabel
         match _header s !! "XAxis mode" with
         | Some v =>
             if String.eqb (PyStr.lower v) "wavelengths"
             then unitmanager "wavelength" (Some ureg_nm) None
             else unitmanager v (Some ureg_dimensionless) None
         | None => unitmanager "x" (Some ureg_dimensionless) None
         end)) by (rewrite <- Hs11; cbn; apply lookup_insert_eq).
  pose proof Hx as Hx'.
  apply (respects_run (@keeps_entry float "abscissa")) in Hx';
    [|respects_tac ltac:(first [apply respects_metadata_setitem_other; discriminate
                               |apply respects_date; tc_solve])].
  destruct Hx' as [_ Hk]. split; [now rewrite Hk|].
  apply bind_Return_inv in Hx as (u12 & t12 & Ho & Hx). cbv beta in Hx.
  rewrite metadata_setitem_run in Ho. injection Ho as _ Hs12.
  assert (Hor : _metadata t12 !! "ordinate" = Some (MLabel
            (unitmanager "absorbance" (Some ureg_dimensionless) None)))
    by (rewrite <- Hs12; cbn; apply lookup_insert_eq).
  pose proof Hx as Hx'.
  apply (respects_run (@keeps_entry float "ordinate")) in Hx';
    [|respects_tac ltac:(first [apply respects_metadata_setitem_other; discriminate
                               |apply respects_date; tc_solve])].
  destruct Hx' as [_ Hk']. split; [now rewrite Hk'|].
  apply bind_Return_inv in Hx as (u13 & t13 & _ & Hx). cbv beta in Hx.
  intros v Hv.
  assert (Hv13 : _header t13 !! "Date" = Some v).
  { pose proof Hx as Hx'.
    apply (respects_run (@only_metadata float)) in Hx';
      [|respects_tac ltac:(first [apply respects_metadata_setitem
                                 |apply respects_date; tc_solve])].
    destruct Hx' as (_ & Hlast & _). now rewrite <- Hlast, Hh. }
  unfold if_in_header in Hx. rewrite bind_run in Hx. cbn [get] in Hx.
  rewrite Hv13, bind_run, (date_run _ _ Hv13) in Hx.
  destruct (date_outcome v) as [d|e] eqn:Ed; [|discriminate].
  destruct (date_outcome_Some _ _ Ed) as [iso ->].
  exists iso. split; [reflexivity|].
  rewrite metadata_setitem_run in Hx. injection Hx as <-. cbn.
  apply lookup_insert_eq.
Qed.

Lemma axis_label_Return k s d l :
  _metadata s !! k = Some (MLabel d) -> d !! "label" = Some (LStr l) ->
  axis_label k s = (Return l, s).
Proof.
  intros Hk Hl. unfold axis_label. rewrite bind_run. cbn [get].
  now rewrite Hk, Hl.
Qed.

Lemma extract_Return_labels s s' :
  _extract_metadata s = (Return tt, s') ->
  exists xl yl, axis_label "abscissa" s' = (Return xl, s')
                /\ axis_label "ordinate" s' = (Return yl, s').
Proof.
  intros Hx. destruct (extract_Return _ _ Hx) as (_ & Hab & Hor & _).
  destruct (unitmanager_label_entry "absorbance" (Some ureg_dimensionless) None)
    as [yl Hyl].
  assert (Hxl : exists xl,
    match _header s !! "XAxis mode" with
    | Some v =>
        if String.eqb (PyStr.lower v) "wavelengths"
        then unitmanager "wavelength" (Some ureg_nm) None
        else unitmanager v (Some ureg_dimensionless) None
    | None => unitmanager "x" (Some ureg_dimensionless) None
    end !! "label" = Some (LStr xl)).
  { destruct (_header s !! "XAxis mode") as [v|];
      [destruct (String.eqb (PyStr.lower v) "wavelengths")|];
      apply unitmanager_label_entry. }
  destruct Hxl as [xl Hxl]. exists xl, yl.
  split; eapply axis_label_Return; eauto.
Qed.

(** With no x value, the part of [read] after the loop raises
    [IndexError] once the metadata are built. *)
Lemma read_epilogue_empty loc s s1 :
  x_values loc = [] -> _extract_metadata s = (Return tt, s1) ->
  exists s2, read_epilogue loc s = (Raise IndexError, s2).
Proof.
  intros Hx Hex.
  destruct (extract_Return_labels _ _ Hex) as (xl & yl & Hxl & Hyl).
  unfold read_epilogue.
  rewrite bind_run, Hex, bind_run, Hxl, bind_run, Hyl, bind_run.
  cbn [set_data modify]. rewrite bind_run, Hx. cbn. eauto.
Qed.

(** *** The extraction returns when the fields parse *)

Lemma returns_bind {A B} h (m : M A) (k : A -> M B) :
  returns_with h m -> (forall a, returns_with h (k a)) ->
  returns_with h (m ≫= k).
Proof.
  intros Hm Hk s Hs. destruct (Hm s Hs) as (a & s1 & Em & Hs1).
  destruct (Hk a s1 Hs1) as (b & s2 & Ek & Hs2).
  exists b, s2. now rewrite bind_run, Em.
Qed.

Lemma returns_metadata_setitem h k (v : mvalue) :
  returns_with h (metadata_setitem k v).
Proof. intros s Hs. rewrite metadata_setitem_run. eauto. Qed.

Lemma returns_ret {A} h (a : A) : returns_with h (mret a : M A).
Proof. intros s Hs. now exists a, s. Qed.

Lemma returns_get h : returns_with h (get : M UVVisSpectrum).
Proof. intros s Hs. now exists s, s. Qed.

Lemma returns_orelse {A} h (o : option A) e :
  is_Some o -> returns_with h (orelse o e : M A).
Proof. intros [a ->]. apply (returns_ret h a). Qed.

Lemma returns_if_in_header h key (body : string -> M unit) :
  (forall v, h !! key = Some v -> returns_with h (body v)) ->
  returns_with h (if_in_header key body).
Proof.
  intros Hb s Hs. unfold if_in_header. rewrite bind_run. cbn [get].
  rewrite Hs. destruct (h !! key) as [v|] eqn:Hk.
  - now apply Hb.
  - now exists tt, s.
Qed.

Lemma extract_returns s :
  fields_parse (_header s) ->
  exists s', _extract_metadata s = (Return tt, s').
Proof.
  intros (Htm & Hsc & Hit & Hbw & Hnp & Hdt).
  assert (Hr : returns_with (_header s) _extract_metadata).
  { unfold _extract_metadata.
    repeat (lazy zeta; lazymatch goal with
            | |- returns_with _ (metadata_setitem _ _) =>
                apply returns_metadata_setitem
            | |- returns_with _ (if_in_header _ _) =>
                apply returns_if_in_header; intros ? ?
            | |- returns_with _ get => apply returns_get
            | |- returns_with _ (orelse _ _) => apply returns_orelse; auto
            | |- returns_with _ (mbind _ _date_to_isoformat) => fail
            | |- returns_with _ (mbind _ _) => apply returns_bind; [|intros ?]
            end).
    intros s0 Hs0.
    match goal with Hv : _ !! "Date" = Some ?v |- _ =>
      destruct (Hdt _ Hv) as [d Hd];
      assert (Hv0 : _header s0 !! "Date" = Some v) by (now rewrite Hs0)
    end.
    rewrite bind_run, (date_run _ _ Hv0), Hd.
    destruct (date_outcome_Some _ _ Hd) as [iso ->].
    rewrite metadata_setitem_run. eauto. }
  destruct (Hr s eq_refl) as ([] & s' & Hx & _). eauto.
Qed.

End ExtractFacts.

(** * The claims of the specification *)

Section Claims.
Context {float : Type} `{!Runtime float}.
Local Abbreviation UVVisSpectrum := (@UVVisSpectrum float).
Local Abbreviation locals := (@locals float).
Local Abbreviation M := (@M float).
Local Abbreviation mvalue := (@mvalue float).
Implicit Types (s self : UVVisSpectrum) (loc : locals).

Lemma read_lines_skip_blank loc pre blank post s :
  Spec.is_blank blank = true ->
  pre <> [] \/ first_line loc = false ->
  read_lines loc (pre ++ blank :: post) s = read_lines loc (pre ++ post) s.
Proof.
  intros Hb Hpre. rewrite !read_lines_app.
  destruct (read_lines loc pre s) as [[loc1|e] s1] eqn:E; [|reflexivity].
  rewrite read_lines_cons, read_line_blank; [reflexivity| |exact Hb].
  eapply read_lines_first_false; eauto.
Qed.

(** C10. A blank line (one that is empty once its trailing whitespace is
    removed) that is not the first line of the file is skipped: inside
    the data block the loop body returns with the lists of x and y
    values as they were and raises nothing; and [read] ends in the same
    way, with the same instance, whether the file holds the blank line
    or not.  Every line after the marker is such a line. *)
Theorem blank_line_in_data_block_is_skipped :
  forall (fs fs' : filesystem) (c : ascii) (p : string)
         (self : UVVisSpectrum) (pre post : list string) (blank : string),
    Spec.is_blank blank = true ->
    pre <> [] ->
    fs (String c p) = Lines (pre ++ blank :: post) ->
    fs' (String c p) = Lines (pre ++ post) ->
    (forall loc s, first_line loc = false -> data_block loc = true ->
       read_line loc blank s = (Return loc, s))
    /\ read fs (Some (String c p)) self = read fs' (Some (String c p)) self.
Proof.
  intros fs fs' c p self pre post blank Hb Hpre Hfs Hfs'. split.
  - intros loc s Hf _. now apply read_line_blank.
  - unfold read. rewrite !read_body_run, Hfs, Hfs', !bind_run.
    rewrite read_lines_skip_blank by auto. reflexivity.
Qed.

(** C1 (as the code has it). A header line - a line after the first,
    before the marker, not blank and not the marker - is cut at every
    occurrence of ": ".  It raises the exception of the malformed header
    line exactly when this does not give two parts.  For a line
    [k ++ ": " ++ v] the parts are those of [k] followed by those of [v]:
    the line stores [k -> v] when neither holds the separator, and it
    raises when the value [v] holds the separator; a line without any
    separator raises too. *)
Theorem header_line_is_split_at_every_separator :
  forall (loc : locals) (line : string) (s : UVVisSpectrum),
    in_header loc ->
    Spec.is_blank line = false ->
    Spec.is_marker line = false ->
    ((exists s', read_line loc line s
                 = (Raise (Exception "Something wrong here"), s'))
     <-> length (PyStr.split ": " (PyStr.rstrip line)) <> 2%nat)
    /\ ((exists e s', read_line loc line s = (Raise e, s'))
        <-> length (PyStr.split ": " (PyStr.rstrip line)) <> 2%nat)
    /\ (forall k v, PyStr.rstrip line = k +:+ ": " +:+ v ->
          PyStr.split ": " (PyStr.rstrip line)
            = (PyStr.split ": " k ++ PyStr.split ": " v)%list
          /\ (PyStr.contains ": " k = false ->
              PyStr.contains ": " v = false ->
              read_line loc line s =
                (Return loc,
                 {| _filename := _filename s; _metadata := _metadata s;
                    _header := <[k := v]> (_header s); _data := _data s |}))
          /\ (PyStr.contains ": " v = true ->
              read_line loc line s
                = (Raise (Exception "Something wrong here"), s)))
    /\ (PyStr.contains ": " (PyStr.rstrip line) = false ->
        read_line loc line s = (Raise (Exception "Something wrong here"), s)).
Proof.
  intros loc line s Hloc Hb Hm.
  pose proof (read_line_header loc line s Hloc Hb Hm) as Hrun.
  assert (Hne : ": " <> "") by discriminate.
  split; [|split; [|split]].
  - rewrite Hrun.
    destruct (PyStr.split ": " (PyStr.rstrip line)) as [|k [|v [|]]];
      simpl; split; try (intros [s' [=]]); try lia; try congruence; eauto.
  - rewrite Hrun.
    destruct (PyStr.split ": " (PyStr.rstrip line)) as [|k [|v [|]]];
      simpl; split; try (intros (e & s' & [=])); try lia; try congruence; eauto.
  - intros k v Hl.
    assert (Hsp : PyStr.split ": " (PyStr.rstrip line)
                  = (PyStr.split ": " k ++ PyStr.split ": " v)%list)
      by (rewrite Hl; apply PyStrFacts.split_colon_app).
    split; [exact Hsp|split].
    + intros Hk Hv. rewrite Hrun, Hsp.
      now rewrite (PyStrFacts.split_no_occurrence _ _ Hk),
                  (PyStrFacts.split_no_occurrence _ _ Hv).
    + intros Hv. rewrite Hrun, Hsp.
      pose proof (PyStrFacts.split_occurrence _ _ Hne Hv) as Hlen.
      pose proof (PyStrFacts.split_not_nil ": " k) as Hk.
      destruct (PyStr.split ": " k) as [|k0 ks]; [congruence|].
      destruct (PyStr.split ": " v) as [|v0 [|v1 vs]]; simpl in Hlen; try lia.
      destruct ks as [|k1 [|k2 ks]]; reflexivity.
  - intros Hc. rewrite Hrun.
    now rewrite (PyStrFacts.split_no_occurrence _ _ Hc).
Qed.

Lemma read_lines_initial_count lines loc s s' :
  read_lines initial_locals lines s = (Return loc, s') ->
  length (x_values loc)
    = length (List.filter Spec.is_sample (Spec.lines_after_marker lines))
  /\ length (y_values loc)
    = length (List.filter Spec.is_sample (Spec.lines_after_marker lines)).
Proof.
  destruct lines as [|l lines].
  - intros [= <- <-]. split; reflexivity.
  - rewrite read_lines_cons, read_line_first by reflexivity.
    intros Hr. apply read_lines_count in Hr; [|reflexivity].
    exact Hr.
Qed.

(** C5 (as the code has it). When [read] returns on a file that opens,
    the x and y sequences of the data frame have the same length, and
    that length is the number of lines after the first marker line
    that are neither blank nor a marker line again; the sequences are
    the values the loop collected. *)
Theorem series_have_one_entry_per_sample_line :
  forall (fs : filesystem) (c : ascii) (p : string)
         (self self' : UVVisSpectrum) (lines : list string)
         (out : list string),
    fs (String c p) = Lines lines ->
    read fs (Some (String c p)) self = (Return tt, self', out) ->
    length (rows (_data self')).*1 = length (rows (_data self')).*2
    /\ length (rows (_data self')).*1
       = length (List.filter Spec.is_sample (Spec.lines_after_marker lines))
    /\ exists loc s1,
         read_lines initial_locals lines (blank_instance (Some (String c p)))
           = (Return loc, s1)
         /\ (rows (_data self')).*1 = x_values loc
         /\ (rows (_data self')).*2 = y_values loc.
Proof.
  intros fs c p self self' lines out Hfs Hr.
  destruct (read_stages _ _ _ _ _ _ _ _ Hfs Hr)
    as [_ [(e & _ & [=] & _)|(loc & s1 & Hl & He)]].
  destruct (read_epilogue_outcome _ _ _ _ He)
    as (_ & _ & _ & _ & _ & Hd).
  destruct (Hd eq_refl) as (_ & cols & Hdata).
  destruct (read_lines_initial_count _ _ _ _ Hl) as [Hx Hy].
  rewrite Hdata. cbn [rows].
  rewrite fst_zip, snd_zip by lia.
  repeat split; try congruence. exists loc, s1. now repeat split.
Qed.

(** C2 (as the code has it). On a file that opens and in which no line
    is the marker, [read] does not return: it raises.  The x and y
    lists of the loop are empty, and so are the rows of the data frame
    the instance is left with.  When the header lines are well formed
    and the metadata can be built, the exception is [IndexError], raised
    where the first x value is taken. *)
Theorem read_without_marker_raises :
  forall (fs : filesystem) (c : ascii) (p : string)
         (self self' : UVVisSpectrum) (lines : list string)
         (r : outcome unit) (out : list string),
    fs (String c p) = Lines lines ->
    Forall (fun l => Spec.is_marker l = false) lines ->
    read fs (Some (String c p)) self = (r, self', out) ->
    (exists e, r = Raise e)
    /\ rows (_data self') = []
    /\ (forall loc s1,
          read_lines initial_locals lines (blank_instance (Some (String c p)))
            = (Return loc, s1) ->
          x_values loc = [] /\ y_values loc = []
          /\ forall s2, _extract_metadata s1 = (Return tt, s2) ->
               r = Raise IndexError).
Proof.
  intros fs c p self self' lines r out Hfs Hno Hr.
  assert (Hcount : List.filter Spec.is_sample (Spec.lines_after_marker lines) = []).
  { unfold Spec.lines_after_marker. rewrite after_marker_none; [reflexivity|].
    destruct Hno; [constructor|assumption]. }
  assert (Hempty : forall loc s1,
    read_lines initial_locals lines (blank_instance (Some (String c p)))
      = (Return loc, s1) -> x_values loc = [] /\ y_values loc = []).
  { intros loc s1 Hl.
    destruct (read_lines_initial_count _ _ _ _ Hl) as [Hx Hy].
    rewrite Hcount in Hx, Hy.
    split; now apply length_zero_iff_nil. }
  destruct (read_stages _ _ _ _ _ _ _ _ Hfs Hr)
    as [_ [(e & Hl & -> & _)|(loc & s1 & Hl & He)]].
  - split; [eauto|]. split; [|intros loc s1 Hl'; congruence].
    destruct (read_lines_outcome _ _ _ _ _ Hl) as [(_ & _ & ->) _].
    reflexivity.
  - destruct (Hempty _ _ Hl) as [Hx Hy].
    destruct (read_lines_outcome _ _ _ _ _ Hl) as [(_ & _ & Hd1) _].
    destruct (read_epilogue_outcome _ _ _ _ He)
      as (_ & _ & _ & Hd & He0 & Hret).
    split; [|split].
    + destruct r as [[]|e]; [|eauto].
      destruct (Hret eq_refl) as [Hne _]. congruence.
    + destruct Hd as [->|[cols ->]]; [now rewrite Hd1|].
      cbn. now rewrite Hx.
    + intros loc' s1' Hl'. rewrite Hl in Hl'. injection Hl' as <- <-.
      repeat split; [exact Hx|exact Hy|].
      intros s2 Hex.
      destruct (read_epilogue_empty _ _ _ Hx Hex) as [s3 He3].
      congruence.
Qed.

(** C3 (as the code has it). When the loop over the lines of a file
    that opens raises - the exception of a malformed header line or the
    [ValueError] of a malformed data line - [read] raises that
    exception and prints nothing.  The instance it leaves does not
    depend on the instance it started from: the file name is the new
    one, the metadata are the empty dict and the data an empty frame,
    and the header is the one that the lines before the offending line
    built, which holds a description. *)
Theorem structural_error_leaves_reset_instance_with_partial_header :
  forall (fs : filesystem) (c : ascii) (p : string)
         (self s1 : UVVisSpectrum) (lines : list string) (e : exn),
    fs (String c p) = Lines lines ->
    read_lines initial_locals lines (blank_instance (Some (String c p)))
      = (Raise e, s1) ->
    structural e
    /\ read fs (Some (String c p)) self = (Raise e, s1, [])
    /\ _filename s1 = Some (String c p)
    /\ _metadata s1 = ∅
    /\ _data s1 = empty_frame
    /\ is_Some (_header s1 !! "Description")
    /\ exists (pre : list string) (bad : string) (post : list string) loc,
         lines = (pre ++ bad :: post)%list
         /\ read_lines initial_locals pre (blank_instance (Some (String c p)))
            = (Return loc, s1)
         /\ read_line loc bad s1 = (Raise e, s1).
Proof.
  intros fs c p self s1 lines e Hfs Hl.
  destruct (read_lines_outcome _ _ _ _ _ Hl) as [(Hf & Hm & Hd) Hs].
  specialize (Hs e eq_refl).
  split; [exact Hs|]. split.
  { unfold read. rewrite read_body_run, Hfs, bind_run, Hl.
    now destruct Hs as [-> | ->]. }
  repeat split; try assumption.
  - destruct lines as [|l lines]; [discriminate|].
    eapply read_lines_description; eauto.
  - apply read_lines_Raise_inv in Hl as (pre & bad & post & loc & ? & ? & ?).
    exists pre, bad, post, loc. now repeat split.
Qed.

(** A file that does not exist: [read] prints the error and returns;
    the instance is the reset one. *)
Lemma read_missing_file fs c p self :
  fs (String c p) = Missing ->
  read fs (Some (String c p)) self =
    (Return tt, blank_instance (Some (String c p)),
     [file_not_found_text (String c p)]).
Proof. intros Hfs. unfold read. now rewrite read_body_run, Hfs. Qed.

(** A file that may not be read: the exception reaches the caller. *)
Lemma read_unreadable_file fs c p self :
  fs (String c p) = Unreadable ->
  read fs (Some (String c p)) self =
    (Raise (PermissionError (String c p)),
     blank_instance (Some (String c p)), []).
Proof. intros Hfs. unfold read. now rewrite read_body_run, Hfs. Qed.

(** C6. When the convertible header entries parse, the metadata
    extraction returns; and whenever it returns, the metadata hold an
    abscissa descriptor whose label is "wavelength (nm)" (unit "nm")
    if the header has an [XAxis mode] that equals "wavelengths" once
    letter case is ignored, the raw [XAxis mode] value (with the empty
    unit) if the header has another value there, and "x" (with the
    empty unit) if the header has no [XAxis mode]. *)
Theorem abscissa_label_follows_xaxis_mode :
  forall (s : UVVisSpectrum),
    (fields_parse (_header s) ->
     exists s', _extract_metadata s = (Return tt, s'))
    /\ forall s', _extract_metadata s = (Return tt, s') ->
         exists d, _metadata s' !! "abscissa" = Some (MLabel d)
           /\ match _header s !! "XAxis mode" with
              | Some v =>
                  if Spec.eq_nocase v "wavelengths"
                  then d !! "label" = Some (LStr "wavelength (nm)")
                       /\ d !! "unit" = Some (LStr "nm")
                  else d !! "label" = Some (LStr v)
                       /\ d !! "unit" = Some (LStr "")
              | None => d !! "label" = Some (LStr "x")
                        /\ d !! "unit" = Some (LStr "")
              end.
Proof.
  intros s. split; [apply extract_returns|].
  intros s' Hx. destruct (extract_Return _ _ Hx) as (_ & Hab & _).
  eexists. split; [exact Hab|].
  destruct (_header s !! "XAxis mode") as [v|]; [|split; reflexivity].
  rewrite <- (PyStrFacts.lower_eq_nocase v "wavelengths").
  change (PyStr.lower "wavelengths") with "wavelengths".
  destruct (String.eqb (PyStr.lower v) "wavelengths"); split; reflexivity.
Qed.

(** C7 (as the code has it). For a header whose [Date] entry is [v]:
    (1) if [v] is "Thu Feb 27 15:05:24 GMT 2020", the time parses as
    15:05:24 and the zone GMT has offset zero, the conversion returns
    "2020-02-27T15:05:24+00:00", and a metadata extraction that returns
    stores it as [acquisition-date];
    (2) [v] is cut at whitespace; when there are at least six tokens,
    the result is made from the second to the sixth (month, day, time,
    zone, year) alone - the first token and the tokens after the sixth
    are not looked at - and it is the ISO-8601 text with the offset of
    the zone; the conversion raises when the year, the month, the day,
    the time or the zone is not recognised or the day does not exist;
    (3) with fewer than six tokens the conversion raises [IndexError]. *)
Theorem date_rule :
  forall (s : UVVisSpectrum) (v : string),
    _header s !! "Date" = Some v ->
    (v = "Thu Feb 27 15:05:24 GMT 2020" ->
     time_fromisoformat "15:05:24" = Some (PyNum.Time 15 5 24 0) ->
     pytz_timezone "GMT" = Some 0 ->
     _date_to_isoformat s = (Return (Some "2020-02-27T15:05:24+00:00"), s)
     /\ forall s', _extract_metadata s = (Return tt, s') ->
          _metadata s' !! "acquisition-date"
            = Some (MStr "2020-02-27T15:05:24+00:00"))
    /\ (forall w mon d t tz y extra,
          PyStr.split_ws v = w :: mon :: d :: t :: tz :: y :: extra ->
          (forall Y Mo D dt T off,
             PyNum.int y = Some Y -> PyNum.strptime_b mon = Some Mo ->
             PyNum.int d = Some D -> PyNum.mk_date Y Mo D = inl dt ->
             time_fromisoformat t = Some T -> pytz_timezone tz = Some off ->
             _date_to_isoformat s
               = (Return (Some (PyNum.isoformat dt T off)), s))
          /\ (PyNum.int y = None \/ PyNum.strptime_b mon = None
              \/ PyNum.int d = None
              \/ (forall Y Mo D, PyNum.int y = Some Y ->
                    PyNum.strptime_b mon = Some Mo -> PyNum.int d = Some D ->
                    exists err, PyNum.mk_date Y Mo D = inr err)
              \/ time_fromisoformat t = None \/ pytz_timezone tz = None ->
              exists e, _date_to_isoformat s = (Raise e, s)))
    /\ ((length (PyStr.split_ws v) < 6)%nat ->
        _date_to_isoformat s = (Raise IndexError, s)).
Proof.
  intros s v Hv.
  assert (Hrun : forall w mon d t tz y extra,
    PyStr.split_ws v = w :: mon :: d :: t :: tz :: y :: extra ->
    _date_to_isoformat s =
      (match PyNum.int y with
       | None => Raise ValueError
       | Some Y =>
       match PyNum.strptime_b mon with
       | None => Raise ValueError
       | Some Mo =>
       match PyNum.int d with
       | None => Raise ValueError
       | Some D =>
       match PyNum.mk_date Y Mo D with
       | inr PyNum.DateOverflow => Raise OverflowError
       | inr PyNum.DateValue => Raise ValueError
       | inl dt =>
       match time_fromisoformat t with
       | None => Raise ValueError
       | Some T =>
       match pytz_timezone tz with
       | None => Raise (UnknownTimeZoneError tz)
       | Some off => Return (Some (PyNum.isoformat dt T off))
       end end end end end end, s)).
  { intros w mon d t tz y extra Hsp. unfold _date_to_isoformat.
    rewrite bind_run. cbn [get]. rewrite Hv, Hsp.
    unfold item, mbind, M_bind, bind, orelse, ret, raise.
    cbn -[PyNum.int PyNum.strptime_b PyNum.mk_date PyNum.isoformat].
    destruct (PyNum.int y); [|reflexivity].
    destruct (PyNum.strptime_b mon); [|reflexivity].
    destruct (PyNum.int d); [|reflexivity].
    destruct (PyNum.mk_date _ _ _) as [?|[]]; try reflexivity.
    destruct (time_fromisoformat t); [|reflexivity].
    destruct (pytz_timezone tz); reflexivity. }
  split; [|split].
  - intros -> Ht Hz.
    assert (Hd : _date_to_isoformat s
                 = (Return (Some "2020-02-27T15:05:24+00:00"), s)).
    { rewrite (Hrun "Thu" "Feb" "27" "15:05:24" "GMT" "2020" [] eq_refl).
      change (PyNum.int "2020") with (Some 2020).
      change (PyNum.strptime_b "Feb") with (Some 2).
      change (PyNum.int "27") with (Some 27).
      change (PyNum.mk_date 2020 2 27)
        with (@inl _ PyNum.date_error (PyNum.Date 2020 2 27)).
      cbv iota beta. now rewrite Ht, Hz. }
    split; [exact Hd|].
    intros s' Hx. destruct (extract_Return _ _ Hx) as (_ & _ & _ & Hdate).
    destruct (Hdate _ Hv) as (iso & Ho & Hm).
    rewrite (date_run _ _ Hv), Ho in Hd. now injection Hd as ->.
  - intros w mon d t tz y extra Hsp. rewrite (Hrun _ _ _ _ _ _ _ Hsp). split.
    + intros Y Mo D dt T off -> -> -> -> -> ->. reflexivity.
    + intros Hbad.
      destruct (PyNum.int y) as [Y|]; [|eauto].
      destruct (PyNum.strptime_b mon) as [Mo|]; [|eauto].
      destruct (PyNum.int d) as [D|]; [|eauto].
      destruct (PyNum.mk_date Y Mo D) as [dt|[]] eqn:Emk; [|eauto|eauto].
      destruct (time_fromisoformat t) as [T|]; [|eauto].
      destruct (pytz_timezone tz) as [off|]; [|eauto].
      destruct Hbad as [?|[?|[?|[Hmk|[?|?]]]]]; try discriminate.
      destruct (Hmk Y Mo D eq_refl eq_refl eq_refl) as [err ?]. congruence.
  - intros Hlen. unfold _date_to_isoformat.
    rewrite bind_run. cbn [get]. rewrite Hv.
    assert (Hnone : PyStr.split_ws v !! 5%nat = None)
      by (apply lookup_ge_None; lia).
    unfold item. rewrite bind_run, Hnone. reflexivity.
Qed.

(** With a value whose truth value is true, the dict has the value and
    the quantity text; without a value it has neither. *)
Lemma unitmanager_with_value label unit v :
  truth v = true ->
  unitmanager label unit (Some v) !! "value" = Some (LNum v)
  /\ unitmanager label unit (Some v) !! "quantity" =
       Some (LStr (let u := match unit with
                            | Some u => abbreviated u
                            | None => ""
                            end in
                   if String.eqb u "" then format_number v
                   else format_number v +:+ " " +:+ u)).
Proof.
  intros Ht. unfold unitmanager. rewrite Ht.
  destruct unit as [u|]; cbn zeta.
  - destruct (String.eqb (abbreviated u) ""); split;
      rewrite ?(lookup_insert_ne _ "quantity") by discriminate;
      apply lookup_insert_eq.
  - cbn. split; rewrite ?(lookup_insert_ne _ "quantity") by discriminate;
      apply lookup_insert_eq.
Qed.

Lemma unitmanager_without_value label unit :
  unitmanager label unit None !! "value" = None
  /\ unitmanager label unit None !! "quantity" = None.
Proof.
  unfold unitmanager.
  destruct (String.eqb _ ""); split;
    now rewrite !lookup_insert_ne, lookup_empty by discriminate.
Qed.

(** C9 (where the code departs from it). Called with the numeric value
    zero, the builder returns a dict with neither a [value] nor a
    [quantity] entry, as if no value had been supplied; the claim
    asks for [value] 0 and the quantity "0 nm". *)
Theorem unitmanager_drops_zero_value :
  unitmanager "wavelength" (Some ureg_nm) (Some (NInt 0)) !! "value" = None
  /\ unitmanager "wavelength" (Some ureg_nm) (Some (NInt 0)) !! "quantity" = None
  /\ unitmanager "wavelength" (Some ureg_nm) (Some (NInt 0))
     = unitmanager "wavelength" (Some ureg_nm) None
  /\ unitmanager "wavelength" (Some ureg_nm) (Some (NInt 280)) !! "quantity"
     = Some (LStr "280 nm").
Proof.
  split; [|split; [|split]].
  - unfold unitmanager. cbn.
    now rewrite !lookup_insert_ne, lookup_empty by discriminate.
  - unfold unitmanager. cbn.
    now rewrite !lookup_insert_ne, lookup_empty by discriminate.
  - reflexivity.
  - unfold unitmanager. cbn. apply lookup_insert_eq.
Qed.

(** C4 (where the code departs from it). Constructing the object for
    a file that does not exist ends without an exception: the
    [FileNotFoundError] is caught and printed, and the caller receives
    an object whose header, metadata and data are empty. *)
Theorem missing_file_is_printed_not_raised :
  __init__ Files.disk (Some "missing.txt") =
    (Return tt,
     {| _filename := Some "missing.txt"; _metadata := ∅; _header := ∅;
        _data := empty_frame |},
     ["[Errno 2] No such file or directory: 'missing.txt'"]).
Proof. exact (read_missing_file Files.disk "m" "issing.txt" _ eq_refl). Qed.

End Claims.

(** ** The chained JSON encoder *)

Section EncoderClaims.
Import MultipleJsonEncoders.
Variables obj json kwargs other : Type.
Variable class_name : obj -> string.

Lemma try_each_declined (pre rest : list (encoder obj json kwargs other))
    (a : kwargs) (o : obj) :
  Forall (declines a o) pre ->
  try_each class_name (pre ++ rest) a o = try_each class_name rest a o.
Proof.
  induction 1 as [|enc pre [msg Hd] _ IH]; [reflexivity|].
  cbn. now rewrite Hd.
Qed.

Lemma try_each_Encoded (encs : list (encoder obj json kwargs other))
    (a : kwargs) (o : obj) (j : json) :
  try_each class_name encs a o = Encoded j ->
  exists pre enc post,
    encs = (pre ++ enc :: post)%list
    /\ Forall (declines a o) pre /\ enc a o = Encoded j.
Proof.
  induction encs as [|enc encs IH]; [discriminate|].
  cbn. destruct (enc a o) as [j'|msg|e] eqn:He.
  - intros [= ->]. exists [], enc, encs. repeat split; auto.
  - intros Hr. destruct (IH Hr) as (pre & enc' & post & -> & Hpre & Henc).
    exists (enc :: pre), enc', post. repeat split; [|exact Henc].
    constructor; [now exists msg|exact Hpre].
  - discriminate.
Qed.

(** C8. [default] tries the encoders in the order of the list: the
    first encoder that does not decline the object (does not raise
    [TypeError]) decides, so a value encoded by an encoder after
    decliners only is the output; when every encoder declines,
    [default] raises the [TypeError] "Object of type ... is not JSON
    serializable"; [default] returns a value only if an encoder of the
    list returned it for this object; and with two encoders that both
    accept the object the output is that of the one listed first,
    whichever comes first. *)
Theorem first_accepting_encoder_decides :
  forall (self : t obj json kwargs other) (o : obj),
    (forall pre enc post j,
       encoders self = (pre ++ enc :: post)%list ->
       Forall (declines (args self) o) pre ->
       enc (args self) o = Encoded j ->
       default class_name self o = Encoded j)
    /\ (Forall (declines (args self) o) (encoders self) ->
        default class_name self o =
          RaiseTypeError
            ("Object of type " +:+ class_name o
             +:+ " is not JSON serializable"))
    /\ (forall j, default class_name self o = Encoded j ->
          exists pre enc post,
            encoders self = (pre ++ enc :: post)%list
            /\ Forall (declines (args self) o) pre
            /\ enc (args self) o = Encoded j)
    /\ (forall (e1 e2 : encoder obj json kwargs other) (j1 j2 : json),
          e1 (args self) o = Encoded j1 ->
          e2 (args self) o = Encoded j2 ->
          default class_name
            {| encoders := [e1; e2]; args := args self |} o = Encoded j1
          /\ default class_name
               {| encoders := [e2; e1]; args := args self |} o = Encoded j2).
Proof.
  intros self o. unfold MultipleJsonEncoders.default.
  split; [|split; [|split]].
  - intros pre enc post j -> Hpre Henc.
    rewrite (try_each_declined _ _ _ _ Hpre). cbn. now rewrite Henc.
  - intros Hall.
    rewrite <- (app_nil_r (encoders self)).
    now rewrite (try_each_declined _ _ _ _ Hall).
  - intros j. apply try_each_Encoded.
  - intros e1 e2 j1 j2 H1 H2. cbn. now rewrite H1, H2.
Qed.

End EncoderClaims.

(** * The reader on the sample files *)

Section Runs.

(** C10, on the sample spectrum file: the blank line of its data block
    leaves the loop as it was, and with and without that line [read]
    ends in the same way. *)
Lemma blank_line_in_data_block_is_skipped_witness :
  Spec.is_blank Files.nl = true
  /\ read_line Files.block_locals Files.nl Files.fresh
     = (Return Files.block_locals, Files.fresh)
  /\ read Files.disk (Some "spectrum.txt") Files.fresh
     = read Files.disk_dense (Some "spectrum.txt") Files.fresh.
Proof.
  split; [reflexivity|].
  assert (Hpre : Files.before_blank <> []) by discriminate.
  destruct (blank_line_in_data_block_is_skipped
              Files.disk Files.disk_dense "s" "pectrum.txt" Files.fresh
              Files.before_blank Files.after_blank Files.nl
              eq_refl Hpre eq_refl eq_refl) as [Hline Hread].
  split; [exact (Hline Files.block_locals Files.fresh eq_refl eq_refl)|].
  exact Hread.
Defined.

(** C1, on a header line of the sample file: the line is stored as
    one key and one value. *)
Lemma header_line_is_split_at_every_separator_witness :
  in_header Files.header_locals
  /\ read_line Files.header_locals ("XAxis mode: Wavelengths" +:+ Files.nl)
       Files.fresh
     = (Return Files.header_locals,
        {| _filename := None; _metadata := ∅;
           _header := <["XAxis mode" := "Wavelengths"]> ∅;
           _data := empty_frame |}).
Proof.
  split; [split; reflexivity|].
  destruct (header_line_is_split_at_every_separator
              Files.header_locals ("XAxis mode: Wavelengths" +:+ Files.nl)
              Files.fresh (conj eq_refl eq_refl) eq_refl eq_refl)
    as (_ & _ & Hkv & _).
  destruct (Hkv "XAxis mode" "Wavelengths" eq_refl) as (_ & Hok & _).
  exact (Hok eq_refl eq_refl).
Defined.

(** C1 fails on a header line whose value holds ": ": cut at the first
    occurrence the line is the pair ("Note", "ratio: 2"), which the
    claim has stored; the code cuts it into three parts and raises. *)
Lemma header_value_with_separator_is_rejected :
  Spec.split_first ": " (PyStr.rstrip Files.note_line)
    = Some ("Note", "ratio: 2")
  /\ PyStr.split ": " (PyStr.rstrip Files.note_line) = ["Note"; "ratio"; "2"]
  /\ read_line Files.header_locals Files.note_line Files.fresh
     = (Raise (Exception "Something wrong here"), Files.fresh).
Proof. repeat split. Qed.

(** C2 fails on the sample file without a marker: no line is the
    marker, and [read] raises [IndexError]. *)
Lemma read_without_marker_raises_index_error :
  forallb (fun l => negb (Spec.is_marker l)) Files.no_marker = true
  /\ Files.no_marker_run.1.1 = Raise IndexError
  /\ rows (_data Files.no_marker_run.1.2) = [].
Proof. repeat split; vm_compute; reflexivity. Qed.

(** C2 (as the code has it), on the sample file without a marker. *)
Lemma read_without_marker_raises_witness :
  Forall (fun l => Spec.is_marker l = false) Files.no_marker
  /\ (exists e, Files.no_marker_run.1.1 = Raise e)
  /\ rows (_data Files.no_marker_run.1.2) = [].
Proof.
  assert (Hno : Forall (fun l => Spec.is_marker l = false) Files.no_marker)
    by (repeat constructor).
  split; [exact Hno|].
  destruct (read_without_marker_raises
              Files.disk "n" "o_marker.txt" Files.fresh
              Files.no_marker_run.1.2 Files.no_marker
              Files.no_marker_run.1.1 Files.no_marker_run.2
              eq_refl Hno) as (He & Hrows & _).
  - vm_compute. reflexivity.
  - split; assumption.
Defined.

(** C3 fails when the file with the bad header line is read into the
    loaded object: [read] raises, and the instance is neither as it
    was nor empty - its header holds the description of the new file,
    its metadata are empty. *)
Lemma failed_reread_is_neither_discarded_nor_intact :
  Files.reread_run.1.1 = Raise (Exception "Something wrong here")
  /\ _header Files.reread_run.1.2 !! "Description"
     = Some "Data from sample 9"
  /\ _header Files.loaded !! "Description" = Some "Data from sample 7"
  /\ _metadata Files.reread_run.1.2 = ∅
  /\ ~ (fully_discarded Files.reread_run.1.2
        \/ Files.reread_run.1.2 = Files.loaded).
Proof.
  assert (Hnew : _header Files.reread_run.1.2 !! "Description"
                 = Some "Data from sample 9") by (vm_compute; reflexivity).
  assert (Hold : _header Files.loaded !! "Description"
                 = Some "Data from sample 7") by (vm_compute; reflexivity).
  split; [vm_compute; reflexivity|]. split; [exact Hnew|].
  split; [exact Hold|]. split; [vm_compute; reflexivity|].
  intros [(Hh & _ & _) | Heq].
  - rewrite Hh in Hnew. discriminate.
  - rewrite Heq, Hold in Hnew. discriminate.
Qed.

(** C3 (as the code has it), on the same re-read. *)
Lemma structural_error_leaves_reset_instance_with_partial_header_witness :
  read_lines initial_locals Files.bad_header
    (blank_instance (Some "bad_header.txt"))
    = (Raise (Exception "Something wrong here"), Files.stopped)
  /\ read Files.disk (Some "bad_header.txt") Files.loaded
     = (Raise (Exception "Something wrong here"), Files.stopped, []).
Proof.
  assert (Hl : read_lines initial_locals Files.bad_header
                 (blank_instance (Some "bad_header.txt"))
               = (Raise (Exception "Something wrong here"), Files.stopped))
    by (vm_compute; reflexivity).
  split; [exact Hl|].
  exact (proj1 (proj2 (structural_error_leaves_reset_instance_with_partial_header
                         Files.disk "b" "ad_header.txt" Files.loaded
                         Files.stopped Files.bad_header _ eq_refl Hl))).
Defined.

(** C5 fails on the sample spectrum file: three lines follow the
    marker, one of them blank, and the series have two entries. *)
Lemma blank_line_is_not_counted :
  Files.spectrum_run.1.1 = Return tt
  /\ length (Spec.lines_after_marker Files.spectrum) = 3%nat
  /\ length (rows (_data Files.loaded)).*1 = 2%nat
  /\ length (rows (_data Files.loaded)).*2 = 2%nat.
Proof. repeat split; vm_compute; reflexivity. Qed.

(** C5 (as the code has it), on the sample spectrum file. *)
Lemma series_have_one_entry_per_sample_line_witness :
  Files.spectrum_run = (Return tt, Files.loaded, [])
  /\ length (rows (_data Files.loaded)).*1
     = length (List.filter Spec.is_sample
                 (Spec.lines_after_marker Files.spectrum)).
Proof.
  assert (Hr : Files.spectrum_run = (Return tt, Files.loaded, []))
    by (vm_compute; reflexivity).
  split; [exact Hr|].
  exact (proj1 (proj2 (series_have_one_entry_per_sample_line
                         Files.disk "s" "pectrum.txt" Files.fresh
                         Files.loaded Files.spectrum [] eq_refl Hr))).
Defined.

(** C6, on headers with [XAxis mode: Wavelengths], with
    [XAxis mode: Pixels] and without [XAxis mode]. *)
Lemma abscissa_label_follows_xaxis_mode_witness :
  _extract_metadata Files.with_axis = (Return tt, Files.with_axis_extracted)
  /\ (exists d,
        _metadata Files.with_axis_extracted !! "abscissa" = Some (MLabel d)
        /\ d !! "label" = Some (LStr "wavelength (nm)")
        /\ d !! "unit" = Some (LStr "nm"))
  /\ (exists d,
        _metadata Files.with_pixels_extracted !! "abscissa" = Some (MLabel d)
        /\ d !! "label" = Some (LStr "Pixels")
        /\ d !! "unit" = Some (LStr ""))
  /\ (exists d,
        _metadata Files.fresh_extracted !! "abscissa" = Some (MLabel d)
        /\ d !! "label" = Some (LStr "x")
        /\ d !! "unit" = Some (LStr "")).
Proof.
  assert (Hx : _extract_metadata Files.with_axis
               = (Return tt, Files.with_axis_extracted))
    by (vm_compute; reflexivity).
  assert (Hp : _extract_metadata Files.with_pixels
               = (Return tt, Files.with_pixels_extracted))
    by (vm_compute; reflexivity).
  assert (Hf : _extract_metadata Files.fresh
               = (Return tt, Files.fresh_extracted))
    by (vm_compute; reflexivity).
  split; [exact Hx|]. split; [|split].
  - exact (proj2 (abscissa_label_follows_xaxis_mode Files.with_axis) _ Hx).
  - exact (proj2 (abscissa_label_follows_xaxis_mode Files.with_pixels) _ Hp).
  - exact (proj2 (abscissa_label_follows_xaxis_mode Files.fresh) _ Hf).
Defined.

(** C7 (as the code has it), on the date of the sample file. *)
Lemma date_rule_witness :
  _header Files.dated !! "Date" = Some "Thu Feb 27 15:05:24 GMT 2020"
  /\ _date_to_isoformat Files.dated
     = (Return (Some "2020-02-27T15:05:24+00:00"), Files.dated).
Proof.
  split; [reflexivity|].
  exact (proj1 (proj1 (date_rule Files.dated _ eq_refl)
                  eq_refl eq_refl eq_refl)).
Defined.

(** C7 fails on a date that does not have the fixed shape: the first
    word is no weekday and two words follow the year, and the
    conversion returns a date all the same. *)
Lemma date_of_another_shape_is_accepted :
  _header Files.odd_dated !! "Date"
    = Some "Someday Feb 27 15:05:24 GMT 2020 and more"
  /\ length (PyStr.split_ws "Someday Feb 27 15:05:24 GMT 2020 and more") = 8%nat
  /\ _date_to_isoformat Files.odd_dated
     = (Return (Some "2020-02-27T15:05:24+00:00"), Files.odd_dated).
Proof. repeat split; vm_compute; reflexivity. Qed.

(** C8, on the chain of [metadata_as_json]: the date-time is declined
    by the first encoder and encoded by the second; and of two encoders
    that both accept a quantity, the one listed first gives the
    output. *)
Lemma first_accepting_encoder_decides_witness :
  MultipleJsonEncoders.default EncoderSample.class_name EncoderSample.chain
    (EncoderSample.Datetime "2020-02-27T15:05:24+00:00")
  = MultipleJsonEncoders.Encoded "2020-02-27T15:05:24+00:00"
  /\ MultipleJsonEncoders.default EncoderSample.class_name
       {| MultipleJsonEncoders.encoders :=
            [EncoderSample.JsonPintEncoder; EncoderSample.JsonMagnitudeEncoder];
          MultipleJsonEncoders.args := tt |}
       (EncoderSample.Quantity 5 "s")
     = MultipleJsonEncoders.Encoded "5 s"
  /\ MultipleJsonEncoders.default EncoderSample.class_name
       {| MultipleJsonEncoders.encoders :=
            [EncoderSample.JsonMagnitudeEncoder; EncoderSample.JsonPintEncoder];
          MultipleJsonEncoders.args := tt |}
       (EncoderSample.Quantity 5 "s")
     = MultipleJsonEncoders.Encoded "5".
Proof.
  split.
  - refine (proj1 (first_accepting_encoder_decides _ _ _ _
                     EncoderSample.class_name EncoderSample.chain
                     (EncoderSample.Datetime "2020-02-27T15:05:24+00:00"))
              [EncoderSample.JsonPintEncoder] EncoderSample.JsonDatetimeEncoder
              [] _ eq_refl _ eq_refl).
    constructor; [|constructor]. eexists. reflexivity.
  - exact (proj2 (proj2 (proj2
             (first_accepting_encoder_decides _ _ _ _
                EncoderSample.class_name EncoderSample.chain
                (EncoderSample.Quantity 5 "s"))))
             EncoderSample.JsonPintEncoder EncoderSample.JsonMagnitudeEncoder
             "5 s" "5" eq_refl eq_refl).
Defined.

End Runs.


(** * More of the reader, the label builder and the encoder chain *)

Section MoreReadFacts.
Context {float : Type} `{!Runtime float}.
Local Abbreviation UVVisSpectrum := (@UVVisSpectrum float).
Local Abbreviation locals := (@locals float).
Local Abbreviation M := (@M float).
Local Abbreviation mvalue := (@mvalue float).
Implicit Types (s self : UVVisSpectrum) (loc : locals).

(** [read_body] without a file name, or with the empty one: the stored
    name is used, and without a stored name [Path(None)] raises before
    anything is reset. *)
Lemma read_body_stored_name fs filename self :
  filename = None \/ filename = Some "" ->
  read_body fs filename self =
    match _filename self with
    | None => (Raise TypeError, self)
    | Some path =>
        match fs path with
        | Missing => (Raise (FileNotFoundError path), blank_instance (Some path))
        | Unreadable => (Raise (PermissionError path), blank_instance (Some path))
        | Lines lines =>
            (read_lines initial_locals lines ≫= read_epilogue)
              (blank_instance (Some path))
        end
    end.
Proof.
  intros [-> | ->]; destruct self as [[path|] md hd dt];
    unfold read_body, open, blank_instance, mbind, M_bind, bind; cbn;
    try reflexivity; destruct (fs path); reflexivity.
Qed.

(** X1. [read] with a non-empty file name takes nothing from the instance
    it is called on: the way it ends, the instance it leaves and what it
    prints are the same for every earlier instance.  Reading the same
    file again therefore gives the same result once more. *)
Theorem read_discards_previous_instance :
  forall (fs : filesystem) (c : ascii) (p : string) (s1 s2 : UVVisSpectrum),
    read fs (Some (String c p)) s1 = read fs (Some (String c p)) s2
    /\ read fs (Some (String c p)) (read fs (Some (String c p)) s1).1.2
       = read fs (Some (String c p)) s1.
Proof.
  intros fs c p s1 s2.
  assert (Hind : forall a b : UVVisSpectrum,
            read fs (Some (String c p)) a = read fs (Some (String c p)) b)
    by (intros a b; unfold read; now rewrite !read_body_run).
  split; apply Hind.
Qed.

(** X2. Called without a file name (or with the empty one), [read] uses
    the name stored in the instance and behaves as if it had been given
    that name; when no name is stored it raises [TypeError] - not the
    [FileNotFoundError] of its docstring - and leaves the instance
    untouched, so constructing an object without a file name raises
    [TypeError]. *)
Theorem read_without_name_uses_stored_name :
  forall (fs : filesystem) (filename : option string) (self : UVVisSpectrum),
    filename = None \/ filename = Some "" ->
    (forall c p, _filename self = Some (String c p) ->
       read fs filename self = read fs (Some (String c p)) self)
    /\ (_filename self = None ->
        read fs filename self = (Raise TypeError, self, []))
    /\ __init__ fs None = (Raise TypeError, blank_instance None, []).
Proof.
  intros fs filename self Hf. split; [|split].
  - intros c p Hs. unfold read.
    rewrite (read_body_stored_name _ _ _ Hf), Hs, read_body_run. reflexivity.
  - intros Hs. unfold read.
    rewrite (read_body_stored_name _ _ _ Hf), Hs. reflexivity.
  - reflexivity.
Qed.

(** X3. After [read] with a non-empty file name the instance carries
    that name however the call ended - also when the file is missing or
    malformed - and a line is printed exactly when the file is
    missing. *)
Theorem read_always_stores_the_name :
  forall (fs : filesystem) (c : ascii) (p : string) (self self' : UVVisSpectrum)
         (r : outcome unit) (out : list string),
    read fs (Some (String c p)) self = (r, self', out) ->
    _filename self' = Some (String c p)
    /\ (out <> [] <-> fs (String c p) = Missing).
Proof.
  intros fs c p self self' r out Hr.
  destruct (fs (String c p)) as [| |lines] eqn:Hfs.
  - rewrite (read_missing_file _ _ _ _ Hfs) in Hr. injection Hr as <- <- <-.
    split; [reflexivity|]. split; [reflexivity|discriminate].
  - rewrite (read_unreadable_file _ _ _ _ Hfs) in Hr. injection Hr as <- <- <-.
    split; [reflexivity|]. split; [congruence|discriminate].
  - destruct (read_stages _ _ _ _ _ _ _ _ Hfs Hr)
      as [-> [(e & Hl & _)|(loc & s1 & Hl & He)]].
    + destruct (read_lines_outcome _ _ _ _ _ Hl) as [(Hf & _) _].
      split; [exact Hf|]. split; [congruence|discriminate].
    + destruct (read_lines_outcome _ _ _ _ _ Hl) as [(Hf & _) _].
      destruct (read_epilogue_outcome _ _ _ _ He) as (Hf' & _).
      split; [now rewrite Hf', Hf|]. split; [congruence|discriminate].
Qed.

(** A sample line inside the data block. *)
Lemma read_line_sample loc line s :
  first_line loc = false -> data_block loc = true ->
  Spec.is_sample line = true ->
  read_line loc line s =
    match parse_sample line with
    | Some (x', y') =>
        (Return {| x_values := x_values loc ++ [x'];
                   y_values := y_values loc ++ [y'];
                   first_line := first_line loc;
                   data_block := data_block loc |}, s)
    | None => (Raise ValueError, s)
    end.
Proof.
  intros Hf Hd Hs. rewrite read_line_data by assumption. unfold parse_sample.
  destruct (PyStr.split _ (PyStr.rstrip line)) as [|x [|y [|]]]; try reflexivity.
  destruct (py_float x), (py_float y); reflexivity.
Qed.

(** The loop inside the data block: every sample line is parsed, in
    order; the first that is no sample ends the loop with [ValueError]. *)
Lemma data_block_run lines : forall loc s,
  first_line loc = false -> data_block loc = true ->
  read_lines loc lines s =
    match mapM parse_sample (List.filter Spec.is_sample lines) with
    | Some ps =>
        (Return {| x_values := x_values loc ++ ps.*1;
                   y_values := y_values loc ++ ps.*2;
                   first_line := false; data_block := true |}, s)
    | None => (Raise ValueError, s)
    end.
Proof.
  induction lines as [|l lines IH]; intros loc s Hf Hd.
  - cbn. destruct loc as [xs ys fl db]; cbn in *; subst.
    now rewrite !app_nil_r.
  - rewrite read_lines_cons.
    destruct (line_cases l) as [Hb|[[Hb Hm]|(Hb & Hm & Hs)]].
    + rewrite read_line_blank by assumption.
      assert (Hs : Spec.is_sample l = false)
        by (unfold Spec.is_sample; now rewrite Hb).
      cbn [List.filter]. rewrite Hs. now apply IH.
    + rewrite read_line_marker by assumption.
      assert (Hs : Spec.is_sample l = false)
        by (unfold Spec.is_sample; rewrite Hm; apply andb_false_r).
      cbn [List.filter]. rewrite Hs. now rewrite IH by (cbn; auto).
    + rewrite read_line_sample by assumption.
      cbn [List.filter]. rewrite Hs. cbn [mapM].
      destruct (parse_sample l) as [[x' y']|]; [|reflexivity].
      rewrite IH by assumption. cbn [x_values y_values].
      destruct (mapM parse_sample (List.filter Spec.is_sample lines)) as [ps|];
        [|reflexivity].
      cbn. now rewrite <- !app_assoc.
Qed.

(** The loop from the header on: the values it collects are the samples
    of the lines after the marker, in order. *)
Lemma header_phase_samples lines : forall loc s loc' s',
  first_line loc = false -> data_block loc = false ->
  read_lines loc lines s = (Return loc', s') ->
  exists ps,
    mapM parse_sample (List.filter Spec.is_sample (Spec.after_marker lines))
      = Some ps
    /\ x_values loc' = (x_values loc ++ ps.*1)%list
    /\ y_values loc' = (y_values loc ++ ps.*2)%list.
Proof.
  induction lines as [|l lines IH]; intros loc s loc' s' Hf Hd.
  - intros [= <- <-]. exists []. cbn. now rewrite !app_nil_r.
  - rewrite read_lines_cons.
    destruct (line_cases l) as [Hb|[[Hb Hm]|(Hb & Hm & Hs)]].
    + rewrite read_line_blank by assumption. intros Hr.
      cbn [Spec.after_marker]. rewrite (blank_not_marker _ Hb). eauto.
    + rewrite read_line_marker by assumption.
      rewrite data_block_run by (cbn; auto).
      cbn [Spec.after_marker]. rewrite Hm. cbn [x_values y_values].
      destruct (mapM parse_sample (List.filter Spec.is_sample lines)) as [ps|];
        [|discriminate].
      intros [= <- <-]. exists ps. now repeat split.
    + rewrite read_line_header by (try split; assumption).
      destruct (PyStr.split _ _) as [|k [|v [|]]]; try discriminate.
      intros Hr. cbn [Spec.after_marker]. rewrite Hm. eauto.
Qed.

(** The part of [read] after the loop, when it returns. *)
Lemma read_epilogue_Return loc s s' :
  read_epilogue loc s = (Return tt, s') ->
  exists s1 xl yl x0 xn,
    _extract_metadata s = (Return tt, s1)
    /\ axis_label "abscissa" s1 = (Return xl, s1)
    /\ axis_label "ordinate" s1 = (Return yl, s1)
    /\ head (x_values loc) = Some x0 /\ last (x_values loc) = Some xn
    /\ s' = {| _filename := _filename s1;
               _metadata :=
                 <["highest-observed-wavelength" := MFloat xn]>
                   (<["lowest-observed-wavelength" := MFloat x0]> (_metadata s1));
               _header := _header s1;
               _data := {| columns := [xl; yl];
                           rows := zip (x_values loc) (y_values loc) |} |}.
Proof.
  unfold read_epilogue. rewrite bind_run.
  destruct (_extract_metadata s) as [[[]|e] s1] eqn:Ex; [|discriminate].
  rewrite bind_run.
  destruct (axis_label "abscissa" s1) as [[xl|e] s2] eqn:Ea; [|discriminate].
  destruct (axis_label_run _ _ _ _ Ea) as [-> _].
  rewrite bind_run.
  destruct (axis_label "ordinate" s1) as [[yl|e] s2] eqn:Eo; [|discriminate].
  destruct (axis_label_run _ _ _ _ Eo) as [-> _].
  rewrite bind_run. cbn [set_data modify]. rewrite bind_run.
  destruct (head (x_values loc)) as [x0|] eqn:Hh; [|discriminate].
  cbn [orelse ret]. rewrite bind_run, metadata_setitem_run, bind_run.
  destruct (last (x_values loc)) as [xn|] eqn:Hl; [|discriminate].
  cbn [orelse ret]. rewrite metadata_setitem_run. cbn.
  intros [= <-]. exists s1, xl, yl, x0, xn. now repeat split.
Qed.

(** [read] that returns, in stages. *)
Lemma read_Return_stages fs c p self self' lines out :
  fs (String c p) = Lines lines ->
  read fs (Some (String c p)) self = (Return tt, self', out) ->
  exists loc s1,
    read_lines initial_locals lines (blank_instance (Some (String c p)))
      = (Return loc, s1)
    /\ read_epilogue loc s1 = (Return tt, self')
    /\ exists ps,
         mapM parse_sample
           (List.filter Spec.is_sample (Spec.lines_after_marker lines)) = Some ps
         /\ x_values loc = ps.*1 /\ y_values loc = ps.*2.
Proof.
  intros Hfs Hr.
  destruct (read_stages _ _ _ _ _ _ _ _ Hfs Hr)
    as [_ [(e & _ & [=] & _)|(loc & s1 & Hl & He)]].
  exists loc, s1. split; [exact Hl|]. split; [exact He|].
  destruct lines as [|l lines].
  - injection Hl as <- <-. exists []. now repeat split.
  - rewrite read_lines_cons, read_line_first in Hl by reflexivity.
    apply header_phase_samples in Hl; [|reflexivity|reflexivity].
    exact Hl.
Qed.

(** X4. Inside the data block every line that is neither blank nor the
    marker must consist of two tab-separated tokens that [float] reads.
    When all of them do, the loop returns, still in the data block, with
    one x and one y value more per such line; as soon as one does not -
    a header-like line after the marker, say - the loop raises
    [ValueError].  In both cases the instance is left as it was: no line
    of the data block reaches the header. *)
Theorem data_block_lines_are_samples_or_errors :
  forall (loc : locals) (lines : list string) (s : UVVisSpectrum),
    first_line loc = false -> data_block loc = true ->
    (Forall (fun l => Spec.is_sample l = true -> is_Some (parse_sample l)) lines ->
     exists loc', read_lines loc lines s = (Return loc', s)
       /\ data_block loc' = true
       /\ length (x_values loc')
          = (length (x_values loc)
             + length (List.filter Spec.is_sample lines))%nat
       /\ length (y_values loc')
          = (length (y_values loc)
             + length (List.filter Spec.is_sample lines))%nat)
    /\ (Exists (fun l => Spec.is_sample l = true /\ parse_sample l = None) lines ->
        read_lines loc lines s = (Raise ValueError, s)).
Proof.
  intros loc lines s Hf Hd. rewrite (data_block_run lines loc s Hf Hd). split.
  - intros Hall.
    assert (Hsome : is_Some (mapM parse_sample (List.filter Spec.is_sample lines))).
    { apply mapM_is_Some. apply Forall_forall. intros l Hl.
      apply list_elem_of_In, filter_In in Hl as [Hin Hs].
      rewrite Forall_forall in Hall. apply Hall; [|exact Hs].
      now apply list_elem_of_In. }
    destruct Hsome as [ps Hps]. rewrite Hps. eexists. split; [reflexivity|].
    cbn. pose proof (length_mapM _ _ _ Hps) as Hlen.
    rewrite !length_app, !length_fmap. repeat split; lia.
  - intros Hex.
    destruct (mapM parse_sample (List.filter Spec.is_sample lines)) as [ps|] eqn:Hps;
      [|reflexivity].
    exfalso. assert (Hsome : is_Some (mapM parse_sample
                                (List.filter Spec.is_sample lines))) by eauto.
    apply mapM_is_Some in Hsome. rewrite Forall_forall in Hsome.
    apply Exists_exists in Hex as (l & Hin & Hs & Hnone).
    destruct (Hsome l) as [y Hy]; [|congruence].
    apply list_elem_of_In, filter_In. split; [now apply list_elem_of_In|exact Hs].
Qed.

(** X5. When [read] returns on a file that opens, the rows of the data
    frame are exactly the samples of the lines after the first marker
    line that are neither blank nor a marker line, in the order of the
    file: each row is the pair of floats read from the two tab-separated
    tokens of one such line. *)
Theorem rows_are_the_samples_in_file_order :
  forall (fs : filesystem) (c : ascii) (p : string)
         (self self' : UVVisSpectrum) (lines : list string) (out : list string),
    fs (String c p) = Lines lines ->
    read fs (Some (String c p)) self = (Return tt, self', out) ->
    mapM parse_sample
      (List.filter Spec.is_sample (Spec.lines_after_marker lines))
    = Some (rows (_data self')).
Proof.
  intros fs c p self self' lines out Hfs Hr.
  destruct (read_Return_stages _ _ _ _ _ _ _ Hfs Hr)
    as (loc & s1 & _ & He & ps & Hps & Hx & Hy).
  destruct (read_epilogue_Return _ _ _ He) as (s2 & xl & yl & x0 & xn & _ & _ & _ & _ & _ & ->).
  cbn. now rewrite Hx, Hy, zip_fst_snd.
Qed.

End MoreReadFacts.

(** One more step of a method body that returned, none of whose steps
    so far has set the entry [K]. *)
Ltac peel_keeping Hx Hacc K :=
  let a := fresh "a" in
  let t := fresh "t" in
  let Hs := fresh "Hs" in
  let Hn := fresh "Hn" in
  apply bind_Return_inv in Hx as (a & t & Hs & Hx);
  cbv beta in Hx;
  apply (respects_run (@keeps_entry _ K)) in Hs;
  [|respects_tac ltac:(first [apply respects_metadata_setitem_other; discriminate
                             |apply respects_date; tc_solve])];
  pose proof (PreOrder_Transitive _ _ _ Hacc Hs) as Hn;
  clear Hacc Hs; rename Hn into Hacc.

(** The step that sets [K], followed by steps that do not: [Hx] becomes
    the step itself, [Hrest] says that the entry is kept afterwards. *)
Ltac split_at_step Hx Hrest K :=
  let a := fresh "a" in
  let t := fresh "t" in
  let Hs := fresh "Hs" in
  apply bind_Return_inv in Hx as (a & t & Hs & Hx);
  try destruct a;
  cbv beta zeta in Hs, Hx;
  apply (respects_run (@keeps_entry _ K)) in Hx;
  [|respects_tac ltac:(first [apply respects_metadata_setitem_other; discriminate
                             |apply respects_date; tc_solve])];
  destruct Hx as [_ Hrest]; rename Hs into Hx.

Section FieldFacts.
Context {float : Type} `{!Runtime float}.
Local Abbreviation UVVisSpectrum := (@UVVisSpectrum float).
Local Abbreviation locals := (@locals float).
Local Abbreviation M := (@M float).
Local Abbreviation mvalue := (@mvalue float).
Implicit Types (s self t : UVVisSpectrum) (loc : locals).

Lemma if_in_header_run key (body : string -> M unit) s :
  if_in_header key body s =
    match _header s !! key with
    | Some v => body v s
    | None => (Return tt, s)
    end.
Proof.
  unfold if_in_header. rewrite bind_run. cbn [get].
  now destruct (_header s !! key).
Qed.

(** A converted field: [K] is set from the header entry [key] if there
    is one, through the conversion [conv]. *)
Lemma converted_step {A} key K (conv : string -> option A) (mk : A -> mvalue)
    s t :
  if_in_header key (fun v => n ← orelse (conv v) ValueError;
                             metadata_setitem K (mk n)) s = (Return tt, t) ->
  match _header s !! key with
  | Some v => exists n, conv v = Some n
                        /\ _metadata t !! K = Some (mk n)
  | None => _metadata t !! K = _metadata s !! K
  end.
Proof.
  rewrite if_in_header_run. destruct (_header s !! key) as [v|].
  - rewrite bind_run. destruct (conv v) as [n|]; [|discriminate].
    cbn [orelse ret]. rewrite metadata_setitem_run. intros [= <-].
    exists n. split; [reflexivity|]. cbn. apply lookup_insert_eq.
  - now intros [= <-].
Qed.

(** A truth-valued field: false exactly for the text "false", letter case
    ignored. *)
Lemma flag_step key s t :
  if_in_header key (fun v =>
    metadata_setitem key (MBool (negb (is_false_text v)))) s = (Return tt, t) ->
  _metadata t !! key =
    match _header s !! key with
    | Some v => Some (MBool (negb (Spec.eq_nocase v "false")))
    | None => _metadata s !! key
    end.
Proof.
  rewrite if_in_header_run. destruct (_header s !! key) as [v|].
  - rewrite metadata_setitem_run. intros [= <-]. cbn.
    rewrite <- (PyStrFacts.lower_eq_nocase v "false").
    apply lookup_insert_eq.
  - now intros [= <-].
Qed.

(** What a metadata extraction that returns has made of the header
    entries it converts. *)
Lemma extract_Return_fields s s' :
  _extract_metadata s = (Return tt, s') ->
  (match _header s !! "Trigger mode" with
   | Some v => exists n, PyNum.int v = Some n
                 /\ _metadata s' !! "Trigger mode" = Some (MInt n)
   | None => _metadata s' !! "Trigger mode" = _metadata s !! "Trigger mode"
   end)
  /\ (match _header s !! "Scans to average" with
      | Some v => exists n, PyNum.int v = Some n
                    /\ _metadata s' !! "scans" = Some (MInt n)
      | None => _metadata s' !! "scans" = _metadata s !! "scans"
      end)
  /\ (match _header s !! "Integration Time (sec)" with
      | Some v => exists x, py_float v = Some x
                    /\ _metadata s' !! "dwell-time" = Some (MQuantity x ureg_sec)
      | None => _metadata s' !! "dwell-time" = _metadata s !! "dwell-time"
      end)
  /\ (match _header s !! "Boxcar width" with
      | Some v => exists n, PyNum.int v = Some n
                    /\ _metadata s' !! "Boxcar width" = Some (MInt n)
      | None => _metadata s' !! "Boxcar width" = _metadata s !! "Boxcar width"
      end)
  /\ (match _header s !! "Number of Pixels in Spectrum" with
      | Some v => exists n, PyNum.int v = Some n
                    /\ _metadata s' !! "number-of-data-points" = Some (MInt n)
      | None => _metadata s' !! "number-of-data-points"
                = _metadata s !! "number-of-data-points"
      end)
  /\ _metadata s' !! "Nonlinearity correction enabled" =
       match _header s !! "Nonlinearity correction enabled" with
       | Some v => Some (MBool (negb (Spec.eq_nocase v "false")))
       | None => _metadata s !! "Nonlinearity correction enabled"
       end
  /\ _metadata s' !! "Storing dark spectrum" =
       match _header s !! "Storing dark spectrum" with
       | Some v => Some (MBool (negb (Spec.eq_nocase v "false")))
       | None => _metadata s !! "Storing dark spectrum"
       end.
Proof.
  intros Hx0. unfold _extract_metadata in Hx0.
  apply bind_Return_inv in Hx0 as (self & s0 & [= <- <-] & Hx0).
  cbv beta in Hx0.
  repeat split.
  - pose proof Hx0 as Hx.
    pose proof (reflexivity s : keeps_entry "Trigger mode" s s) as Hacc.
    do 4 peel_keeping Hx Hacc "Trigger mode".
    split_at_step Hx Hrest "Trigger mode".
    apply converted_step in Hx. destruct Hacc as [(_ & Hh & _) Hm].
    rewrite Hh, Hm in Hx. rewrite Hrest. exact Hx.
  - pose proof Hx0 as Hx.
    pose proof (reflexivity s : keeps_entry "scans" s s) as Hacc.
    do 5 peel_keeping Hx Hacc "scans".
    split_at_step Hx Hrest "scans".
    apply converted_step in Hx. destruct Hacc as [(_ & Hh & _) Hm].
    rewrite Hh, Hm in Hx. rewrite Hrest. exact Hx.
  - pose proof Hx0 as Hx.
    pose proof (reflexivity s : keeps_entry "dwell-time" s s) as Hacc.
    do 6 peel_keeping Hx Hacc "dwell-time".
    split_at_step Hx Hrest "dwell-time".
    apply (converted_step _ _ py_float (fun x => MQuantity x ureg_sec)) in Hx.
    destruct Hacc as [(_ & Hh & _) Hm].
    rewrite Hh, Hm in Hx. rewrite Hrest. exact Hx.
  - pose proof Hx0 as Hx.
    pose proof (reflexivity s : keeps_entry "Boxcar width" s s) as Hacc.
    do 8 peel_keeping Hx Hacc "Boxcar width".
    split_at_step Hx Hrest "Boxcar width".
    apply converted_step in Hx. destruct Hacc as [(_ & Hh & _) Hm].
    rewrite Hh, Hm in Hx. rewrite Hrest. exact Hx.
  - pose proof Hx0 as Hx.
    pose proof (reflexivity s : keeps_entry "number-of-data-points" s s) as Hacc.
    do 12 peel_keeping Hx Hacc "number-of-data-points".
    split_at_step Hx Hrest "number-of-data-points".
    apply converted_step in Hx. destruct Hacc as [(_ & Hh & _) Hm].
    rewrite Hh, Hm in Hx. rewrite Hrest. exact Hx.
  - pose proof Hx0 as Hx.
    pose proof (reflexivity s
                : keeps_entry "Nonlinearity correction enabled" s s) as Hacc.
    do 7 peel_keeping Hx Hacc "Nonlinearity correction enabled".
    split_at_step Hx Hrest "Nonlinearity correction enabled".
    apply flag_step in Hx. destruct Hacc as [(_ & Hh & _) Hm].
    rewrite Hh, Hm in Hx. rewrite Hrest. exact Hx.
  - pose proof Hx0 as Hx.
    pose proof (reflexivity s : keeps_entry "Storing dark spectrum" s s) as Hacc.
    do 9 peel_keeping Hx Hacc "Storing dark spectrum".
    split_at_step Hx Hrest "Storing dark spectrum".
    apply flag_step in Hx. destruct Hacc as [(_ & Hh & _) Hm].
    rewrite Hh, Hm in Hx. rewrite Hrest. exact Hx.
Qed.

End FieldFacts.

Section MetadataAfterRead.
Context {float : Type} `{!Runtime float}.
Local Abbreviation UVVisSpectrum := (@UVVisSpectrum float).
Local Abbreviation locals := (@locals float).
Local Abbreviation M := (@M float).
Local Abbreviation mvalue := (@mvalue float).
Implicit Types (s self t : UVVisSpectrum) (loc : locals).

(** The fixed entries, and the copy of the header. *)
Lemma extract_Return_fixed s s' :
  _extract_metadata s = (Return tt, s') ->
  _metadata s' !! "vendor_header" = Some (MDict (_header s))
  /\ _metadata s' !! "technique" = Some (MStr "UV-vis spectroscopy")
  /\ _metadata s' !! "technique-iri"
     = Some (MStr "http://purl.obolibrary.org/obo/CHMO_0000292")
  /\ exists d, _metadata s' !! "instrument" = Some (MDict d)
       /\ d !! "vendor" = Some "Ocean Insight"
       /\ d !! "spectrometer" = _header s !! "Spectrometer"
       /\ forall k, k <> "vendor" -> k <> "spectrometer" -> d !! k = None.
Proof.
  intros Hx0. unfold _extract_metadata in Hx0.
  apply bind_Return_inv in Hx0 as (self & s0 & [= <- <-] & Hx0).
  cbv beta in Hx0.
  split; [|split; [|split]].
  - pose proof Hx0 as Hx.
    split_at_step Hx Hrest "vendor_header".
    rewrite metadata_setitem_run in Hx. injection Hx as <-.
    rewrite Hrest. cbn. apply lookup_insert_eq.
  - pose proof Hx0 as Hx.
    pose proof (reflexivity s : keeps_entry "technique" s s) as Hacc.
    do 1 peel_keeping Hx Hacc "technique".
    split_at_step Hx Hrest "technique".
    rewrite metadata_setitem_run in Hx. injection Hx as <-.
    rewrite Hrest. cbn. apply lookup_insert_eq.
  - pose proof Hx0 as Hx.
    pose proof (reflexivity s : keeps_entry "technique-iri" s s) as Hacc.
    do 2 peel_keeping Hx Hacc "technique-iri".
    split_at_step Hx Hrest "technique-iri".
    rewrite metadata_setitem_run in Hx. injection Hx as <-.
    rewrite Hrest. cbn. apply lookup_insert_eq.
  - pose proof Hx0 as Hx.
    pose proof (reflexivity s : keeps_entry "instrument" s s) as Hacc.
    do 3 peel_keeping Hx Hacc "instrument".
    split_at_step Hx Hrest "instrument".
    rewrite metadata_setitem_run in Hx. injection Hx as <-.
    eexists. split; [rewrite Hrest; cbn; apply lookup_insert_eq|].
    destruct (_header s !! "Spectrometer") as [v|].
    + split; [now rewrite lookup_insert_ne, lookup_insert_eq by discriminate|].
      split; [apply lookup_insert_eq|].
      intros k Hk1 Hk2. now rewrite !lookup_insert_ne, lookup_empty by congruence.
    + split; [apply lookup_insert_eq|].
      split; [now rewrite lookup_insert_ne, lookup_empty by discriminate|].
      intros k Hk1 Hk2. now rewrite !lookup_insert_ne, lookup_empty by congruence.
Qed.

(** The date entry. *)
Lemma extract_Return_date s s' :
  _extract_metadata s = (Return tt, s') ->
  match _header s !! "Date" with
  | Some v => exists iso, date_outcome v = Return (Some iso)
                /\ _metadata s' !! "acquisition-date" = Some (MStr iso)
  | None => _metadata s' !! "acquisition-date"
            = _metadata s !! "acquisition-date"
  end.
Proof.
  intros Hx0.
  destruct (_header s !! "Date") as [v|] eqn:Hv.
  { destruct (extract_Return _ _ Hx0) as (_ & _ & _ & Hd). now apply Hd. }
  unfold _extract_metadata in Hx0.
  apply bind_Return_inv in Hx0 as (self & s0 & [= <- <-] & Hx).
  cbv beta in Hx.
  pose proof (reflexivity s : keeps_entry "acquisition-date" s s) as Hacc.
  do 13 peel_keeping Hx Hacc "acquisition-date".
  rewrite if_in_header_run in Hx. destruct Hacc as [(_ & Hh & _) Hm].
  rewrite Hh, Hv in Hx. injection Hx as <-. exact Hm.
Qed.

(** [read] that returns: the instance after the loop has no metadata,
    the extraction returned on it, and [read] added the two wavelength
    entries to what the extraction built. *)
Lemma read_Return_metadata fs c p self self' lines out :
  fs (String c p) = Lines lines ->
  read fs (Some (String c p)) self = (Return tt, self', out) ->
  exists s1 s2 x0 xn,
    _metadata s1 = ∅ /\ _header s1 = _header self'
    /\ _extract_metadata s1 = (Return tt, s2)
    /\ head (rows (_data self')).*1 = Some x0
    /\ last (rows (_data self')).*1 = Some xn
    /\ _metadata self' =
         <["highest-observed-wavelength" := MFloat xn]>
           (<["lowest-observed-wavelength" := MFloat x0]> (_metadata s2))
    /\ exists xl yl,
         axis_label "abscissa" s2 = (Return xl, s2)
         /\ axis_label "ordinate" s2 = (Return yl, s2)
         /\ columns (_data self') = [xl; yl].
Proof.
  intros Hfs Hr.
  destruct (read_Return_stages _ _ _ _ _ _ _ Hfs Hr)
    as (loc & s1 & Hl & He & ps & Hps & Hx & Hy).
  destruct (read_lines_outcome _ _ _ _ _ Hl) as [(_ & Hm & _) _].
  destruct (read_epilogue_Return _ _ _ He)
    as (s2 & xl & yl & x0 & xn & Hex & Hxl & Hyl & Hh & Hla & ->).
  destruct (respects_run _ _ _ _ _ respects_extract_metadata Hex)
    as (_ & Hhd & _).
  exists s1, s2, x0, xn. cbn.
  rewrite Hx, Hy, zip_fst_snd. rewrite Hx in Hh, Hla.
  repeat split; auto. exists xl, yl. now repeat split.
Qed.

(** X6. When [read] returns on a file that opens, the data frame has
    at least one row, and the metadata entries
    [lowest-observed-wavelength] and [highest-observed-wavelength] are
    the x value of the first row and the x value of the last row, in
    the order of the file - whatever the sizes of the values in
    between.  (On a missing file [read] returns too, with nothing
    read.) *)
Theorem observed_range_is_first_and_last_x :
  forall (fs : filesystem) (c : ascii) (p : string)
         (self self' : UVVisSpectrum) (lines : list string) (out : list string),
    fs (String c p) = Lines lines ->
    read fs (Some (String c p)) self = (Return tt, self', out) ->
    exists x0 xn,
      head (rows (_data self')).*1 = Some x0
      /\ last (rows (_data self')).*1 = Some xn
      /\ _metadata self' !! "lowest-observed-wavelength" = Some (MFloat x0)
      /\ _metadata self' !! "highest-observed-wavelength" = Some (MFloat xn).
Proof.
  intros fs c p self self' lines out Hfs Hr.
  destruct (read_Return_metadata _ _ _ _ _ _ _ Hfs Hr)
    as (s1 & s2 & x0 & xn & _ & _ & _ & Hh & Hl & Hm & _).
  exists x0, xn. rewrite Hm. repeat split; auto.
  - now rewrite lookup_insert_ne, lookup_insert_eq by discriminate.
  - apply lookup_insert_eq.
Qed.

(** X7. When [read] returns on a file that opens, the data frame has
    two columns: the first is labelled with the abscissa label -
    "wavelength (nm)" for an [XAxis mode] that is "wavelengths" up to
    letter case, the raw [XAxis mode] value otherwise, "x" without such
    a header entry - and the second is always labelled "absorbance".
    (On a missing file [read] returns too, with an empty data
    frame.) *)
Theorem data_frame_columns_are_the_axis_labels :
  forall (fs : filesystem) (c : ascii) (p : string)
         (self self' : UVVisSpectrum) (lines : list string) (out : list string),
    fs (String c p) = Lines lines ->
    read fs (Some (String c p)) self = (Return tt, self', out) ->
    columns (_data self') =
      [ match _header self' !! "XAxis mode" with
        | Some v => if Spec.eq_nocase v "wavelengths"
                    then "wavelength (nm)" else v
        | None => "x"
        end;
        "absorbance" ].
Proof.
  intros fs c p self self' lines out Hfs Hr.
  destruct (read_Return_metadata _ _ _ _ _ _ _ Hfs Hr)
    as (s1 & s2 & x0 & xn & _ & Hhd & Hex & _ & _ & _ & xl & yl & Hxl & Hyl & ->).
  destruct (extract_Return _ _ Hex) as (_ & Hab & Hor & _).
  rewrite <- Hhd.
  assert (Hy : axis_label "ordinate" s2 = (Return "absorbance", s2)).
  { eapply axis_label_Return; [exact Hor|]. apply unitmanager_label. }
  assert (Hx : axis_label "abscissa" s2 =
    (Return match _header s1 !! "XAxis mode" with
            | Some v => if Spec.eq_nocase v "wavelengths"
                        then "wavelength (nm)" else v
            | None => "x"
            end, s2)).
  { eapply axis_label_Return; [exact Hab|].
    destruct (_header s1 !! "XAxis mode") as [v|]; [|apply unitmanager_label].
    rewrite <- (PyStrFacts.lower_eq_nocase v "wavelengths").
    change (PyStr.lower "wavelengths") with "wavelengths".
    destruct (String.eqb (PyStr.lower v) "wavelengths");
      apply unitmanager_label. }
  congruence.
Qed.

(** X8. When [read] returns, each of the two flags
    [Nonlinearity correction enabled] and [Storing dark spectrum] is in
    the metadata exactly when it is in the header; its value is false
    when the header text is "false" up to letter case, and true for
    every other text. *)
Theorem flags_are_false_only_for_the_text_false :
  forall (fs : filesystem) (c : ascii) (p : string)
         (self self' : UVVisSpectrum) (lines : list string) (out : list string)
         (key : string),
    fs (String c p) = Lines lines ->
    read fs (Some (String c p)) self = (Return tt, self', out) ->
    key = "Nonlinearity correction enabled" \/ key = "Storing dark spectrum" ->
    _metadata self' !! key =
      match _header self' !! key with
      | Some v => Some (MBool (negb (Spec.eq_nocase v "false")))
      | None => None
      end.
Proof.
  intros fs c p self self' lines out key Hfs Hr Hkey.
  destruct (read_Return_metadata _ _ _ _ _ _ _ Hfs Hr)
    as (s1 & s2 & x0 & xn & Hm1 & Hhd & Hex & _ & _ & Hm & _).
  destruct (extract_Return_fields _ _ Hex) as (_ & _ & _ & _ & _ & Hn & Hd).
  rewrite Hm1, lookup_empty, Hhd in Hn, Hd.
  destruct Hkey as [-> | ->];
    now rewrite Hm, !lookup_insert_ne by discriminate.
Qed.

(** X9. When [read] returns, each converted entry of the metadata is
    there exactly when its header entry is: [Trigger mode], [scans]
    (from [Scans to average]), [Boxcar width] and
    [number-of-data-points] (from [Number of Pixels in Spectrum]) hold
    the integer that [int] reads from the header text, [dwell-time] (from
    [Integration Time (sec)]) holds the float that [float] reads, with
    the unit of seconds, and [acquisition-date] holds the text that the
    date conversion returns for [Date]. *)
Theorem converted_fields_follow_the_header :
  forall (fs : filesystem) (c : ascii) (p : string)
         (self self' : UVVisSpectrum) (lines : list string) (out : list string),
    fs (String c p) = Lines lines ->
    read fs (Some (String c p)) self = (Return tt, self', out) ->
    (forall key field,
       (key, field) ∈ [("Trigger mode", "Trigger mode");
                       ("Scans to average", "scans");
                       ("Boxcar width", "Boxcar width");
                       ("Number of Pixels in Spectrum", "number-of-data-points")] ->
       match _header self' !! key with
       | Some v => exists n, PyNum.int v = Some n
                     /\ _metadata self' !! field = Some (MInt n)
       | None => _metadata self' !! field = None
       end)
    /\ match _header self' !! "Integration Time (sec)" with
       | Some v => exists x, py_float v = Some x
                     /\ _metadata self' !! "dwell-time"
                        = Some (MQuantity x ureg_sec)
       | None => _metadata self' !! "dwell-time" = None
       end
    /\ match _header self' !! "Date" with
       | Some v => exists iso, date_outcome v = Return (Some iso)
                     /\ _metadata self' !! "acquisition-date" = Some (MStr iso)
       | None => _metadata self' !! "acquisition-date" = None
       end.
Proof.
  intros fs c p self self' lines out Hfs Hr.
  destruct (read_Return_metadata _ _ _ _ _ _ _ Hfs Hr)
    as (s1 & s2 & x0 & xn & Hm1 & Hhd & Hex & _ & _ & Hm & _).
  destruct (extract_Return_fields _ _ Hex) as (Ht & Hs & Hi & Hb & Hn & _).
  pose proof (extract_Return_date _ _ Hex) as Hd.
  rewrite Hm1, lookup_empty, Hhd in Ht, Hs, Hi, Hb, Hn, Hd.
  split; [|split].
  - intros key field Hin.
    repeat (apply elem_of_cons in Hin as [[= -> ->]|Hin];
            [rewrite Hm, !lookup_insert_ne by discriminate; assumption|]).
    now apply elem_of_nil in Hin.
  - now rewrite Hm, !lookup_insert_ne by discriminate.
  - now rewrite Hm, !lookup_insert_ne by discriminate.
Qed.

(** X10. When [read] returns on a file that opens, the metadata hold
    the fixed entries [technique] and [technique-iri], under
    [vendor_header] a dict equal to the header of the instance, and
    under [instrument] a dict with the vendor "Ocean Insight" and,
    exactly when the header names a [Spectrometer], that name as
    [spectrometer] - and nothing else.  (On a missing file [read]
    returns too, with empty metadata.) *)
Theorem fixed_entries_and_vendor_header :
  forall (fs : filesystem) (c : ascii) (p : string)
         (self self' : UVVisSpectrum) (lines : list string) (out : list string),
    fs (String c p) = Lines lines ->
    read fs (Some (String c p)) self = (Return tt, self', out) ->
    _metadata self' !! "vendor_header" = Some (MDict (_header self'))
    /\ _metadata self' !! "technique" = Some (MStr "UV-vis spectroscopy")
    /\ _metadata self' !! "technique-iri"
       = Some (MStr "http://purl.obolibrary.org/obo/CHMO_0000292")
    /\ exists d, _metadata self' !! "instrument" = Some (MDict d)
         /\ d !! "vendor" = Some "Ocean Insight"
         /\ d !! "spectrometer" = _header self' !! "Spectrometer"
         /\ forall k, k <> "vendor" -> k <> "spectrometer" -> d !! k = None.
Proof.
  intros fs c p self self' lines out Hfs Hr.
  destruct (read_Return_metadata _ _ _ _ _ _ _ Hfs Hr)
    as (s1 & s2 & x0 & xn & _ & Hhd & Hex & _ & _ & Hm & _).
  destruct (extract_Return_fixed _ _ Hex) as (Hv & Ht & Hi & d & Hd & Hrest).
  rewrite Hhd in Hv, Hrest.
  rewrite Hm, !lookup_insert_ne by discriminate.
  repeat split; auto. exists d. now split.
Qed.

(** X11. The metadata extraction returns exactly when every header
    entry it converts is convertible: the four integer entries are read
    by [int], the integration time by [float], and the date conversion
    returns.  With any of them unreadable the extraction raises. *)
Theorem extraction_returns_iff_fields_parse :
  forall (s : UVVisSpectrum),
    (exists s', _extract_metadata s = (Return tt, s'))
    <-> fields_parse (_header s).
Proof.
  intros s. split; [|apply extract_returns].
  intros [s' Hx].
  destruct (extract_Return_fields _ _ Hx) as (Ht & Hs & Hi & Hb & Hn & _).
  pose proof (extract_Return_date _ _ Hx) as Hd.
  unfold fields_parse.
  repeat split; intros v Hv;
    rewrite Hv in *;
    match goal with
    | |- is_Some (PyNum.int _) => idtac
    | |- is_Some (py_float _) => idtac
    | |- _ => destruct Hd as (iso & -> & _); eauto
    end.
  - now destruct Ht as (n & -> & _).
  - now destruct Hs as (n & -> & _).
  - now destruct Hi as (n & -> & _).
  - now destruct Hb as (n & -> & _).
  - now destruct Hn as (n & -> & _).
Qed.

End MetadataAfterRead.

Section MoreStringFacts.
Import PyStr PyStrFacts.

Lemma rstrip_all_space ws : Spec.all_space ws = true -> rstrip ws = "".
Proof.
  induction ws as [|c ws IH]; [reflexivity|].
  cbn. intros [Hc Hws]%andb_true_iff. now rewrite (IH Hws), Hc.
Qed.

Lemma rstrip_app_space a ws :
  Spec.all_space ws = true -> rstrip (a +:+ ws) = rstrip a.
Proof.
  intros Hws. induction a as [|c a IH]; [now apply rstrip_all_space|].
  rewrite app_cons. cbn. now rewrite IH.
Qed.

Lemma rstrip_colon k : rstrip (k +:+ ":") = k +:+ ":".
Proof.
  induction k as [|c k IH]; [reflexivity|].
  rewrite app_cons. cbn [rstrip]. rewrite IH.
  now destruct k.
Qed.

Lemma contains_colon k :
  contains ": " k = false -> contains ": " (k +:+ ":") = false.
Proof.
  induction k as [|c k IH]; [reflexivity|].
  rewrite app_cons, !contains_cons.
  intros [Hp Hc]%orb_false_iff. rewrite (IH Hc), orb_false_r.
  rewrite prefix_cons in Hp |- *.
  destruct (ascii_dec ":" c); [|reflexivity].
  destruct k as [|d k]; [reflexivity|].
  rewrite app_cons. rewrite prefix_cons in Hp |- *.
  destruct (ascii_dec " " d); [now destruct k|reflexivity].
Qed.

Lemma last_char_colon k : Spec.last_char (k +:+ ":") = Some ":"%char.
Proof.
  induction k as [|c k IH]; [reflexivity|].
  rewrite app_cons. cbn [Spec.last_char]. rewrite IH. now destruct k.
Qed.

End MoreStringFacts.

Section MoreProperties.
Context {float : Type} `{!Runtime float}.
Local Abbreviation UVVisSpectrum := (@UVVisSpectrum float).
Local Abbreviation locals := (@locals float).
Implicit Types (s self : UVVisSpectrum) (loc : locals).

(** X12. A header line whose value is empty - the key, ": " and then
    nothing but whitespace up to the end of the line - is not stored
    with an empty value: trimming the line removes the blank of the
    separator, no separator is left, and the line raises the exception
    of a malformed header line, leaving the instance as it was. *)
Theorem header_entry_without_value_is_rejected :
  forall (loc : locals) (s : UVVisSpectrum) (k ws : string),
    in_header loc ->
    PyStr.contains ": " k = false ->
    Spec.all_space ws = true ->
    read_line loc (k +:+ ": " +:+ ws) s
      = (Raise (Exception "Something wrong here"), s).
Proof.
  intros loc s k ws Hloc Hk Hws.
  assert (Hr : PyStr.rstrip (k +:+ ": " +:+ ws) = k +:+ ":").
  { change (k +:+ ": " +:+ ws) with (k +:+ ":" +:+ String " " ws).
    rewrite <- PyStrFacts.app_assoc, rstrip_app_space; [apply rstrip_colon|].
    cbn. exact Hws. }
  assert (Hb : Spec.is_blank (k +:+ ": " +:+ ws) = false).
  { unfold Spec.is_blank. rewrite Hr. now destruct k. }
  assert (Hm : Spec.is_marker (k +:+ ": " +:+ ws) = false).
  { unfold Spec.is_marker. rewrite Hr. apply String.eqb_neq. intros Heq.
    pose proof (last_char_colon k) as Hl. rewrite Heq in Hl. discriminate. }
  rewrite (read_line_header _ _ _ Hloc Hb Hm), Hr.
  now rewrite (PyStrFacts.split_no_occurrence _ _ (contains_colon _ Hk)).
Qed.

(** X13. The dict that [unitmanager] returns always has the entries
    [name] (the label given), [unit] (the abbreviation of the unit,
    empty without a unit) and [label] (the name alone for an empty
    abbreviation, otherwise the name followed by the abbreviation in
    parentheses).  It has the two further entries [value] and
    [quantity] exactly when a value is given whose truth value is true,
    and never any other entry. *)
Theorem unitmanager_entries :
  forall (label : string) (unit : option Unit) (value : option number),
    unitmanager label unit value !! "name" = Some (LStr label)
    /\ unitmanager label unit value !! "unit"
       = Some (LStr (abbreviated (default ureg_dimensionless unit)))
    /\ unitmanager label unit value !! "label"
       = Some (LStr
           (if String.eqb (abbreviated (default ureg_dimensionless unit)) ""
            then label
            else label +:+ " ("
                 +:+ abbreviated (default ureg_dimensionless unit) +:+ ")"))
    /\ dom (unitmanager label unit value)
       = if match value with Some v => truth v | None => false end
         then ({["name"; "unit"; "label"; "value"; "quantity"]} : gset string)
         else {["name"; "unit"; "label"]}.
Proof.
  intros label unit value. unfold unitmanager.
  replace (match unit with Some u => u | None => ureg_dimensionless end)
    with (default ureg_dimensionless unit) by now destruct unit.
  set (u := default ureg_dimensionless unit).
  destruct value as [v|]; [destruct (truth v)|];
    destruct (String.eqb (abbreviated u) "");
    repeat split;
    try (rewrite ?lookup_insert_ne by discriminate; apply lookup_insert_eq);
    rewrite !dom_insert_L, dom_empty_L; set_solver.
Qed.

End MoreProperties.

Section MoreEncoderProperties.
Import MultipleJsonEncoders.
Variables obj json kwargs other : Type.
Variable class_name : obj -> string.

Lemma try_each_app (l1 l2 : list (encoder obj json kwargs other))
    (a : kwargs) (o : obj) :
  try_each class_name (l1 ++ l2) a o =
    match try_each class_name l1 a o with
    | RaiseTypeError _ => try_each class_name l2 a o
    | r => r
    end.
Proof.
  induction l1 as [|enc l1 IH]; [reflexivity|].
  cbn. destruct (enc a o); [reflexivity|exact IH|reflexivity].
Qed.

(** X14. Chains compose: a chain whose encoder list is the list of one
    chain followed by the list of another gives what the first chain
    gives, unless the first chain ends with [TypeError] - then it gives
    what the second chain gives. *)
Theorem chains_compose :
  forall (l1 l2 : list (encoder obj json kwargs other)) (a : kwargs) (o : obj),
    default class_name {| encoders := l1 ++ l2; args := a |} o =
      match default class_name {| encoders := l1; args := a |} o with
      | RaiseTypeError _ =>
          default class_name {| encoders := l2; args := a |} o
      | r => r
      end.
Proof. intros l1 l2 a o. apply try_each_app. Qed.

(** X15. Only [TypeError] is caught.  When the encoders before it have
    all declined and an encoder raises another exception, [default]
    raises that exception and the encoders after it are not tried - not
    even one that would accept the object. *)
Theorem other_exception_ends_the_chain :
  forall (self : t obj json kwargs other) (o : obj)
         (pre post : list (encoder obj json kwargs other))
         (enc : encoder obj json kwargs other) (e : other),
    encoders self = (pre ++ enc :: post)%list ->
    Forall (declines (args self) o) pre ->
    enc (args self) o = RaiseOther e ->
    default class_name self o = RaiseOther e.
Proof.
  intros self o pre post enc e Hencs Hpre He.
  unfold MultipleJsonEncoders.default.
  rewrite Hencs.
  rewrite (try_each_declined obj json kwargs other class_name pre _ _ _ Hpre).
  cbn.
  now rewrite He.
Qed.

End MoreEncoderProperties.

Section HeaderProvenance.
Context {float : Type} `{!Runtime float}.
Local Abbreviation UVVisSpectrum := (@UVVisSpectrum float).
Local Abbreviation locals := (@locals float).
Implicit Types (s self : UVVisSpectrum) (loc : locals).

(** Two parts: the text is the first part, the separator and the second
    part, and neither part holds the separator. *)
Lemma split_two_parts l k v :
  PyStr.split ": " l = [k; v] ->
  l = k +:+ ": " +:+ v
  /\ PyStr.contains ": " k = false /\ PyStr.contains ": " v = false.
Proof.
  intros Hsp.
  assert (Hne : ": " <> "") by discriminate.
  assert (Hl : l = k +:+ ": " +:+ v).
  { rewrite <- (PyStrFacts.join_split ": " l Hne), Hsp. reflexivity. }
  split; [exact Hl|].
  rewrite Hl, PyStrFacts.split_colon_app in Hsp.
  pose proof (PyStrFacts.split_not_nil ": " k) as Hk.
  pose proof (PyStrFacts.split_not_nil ": " v) as Hv.
  destruct (PyStr.split ": " k) as [|k0 [|k1 ks]] eqn:Ek; [congruence| |].
  - destruct (PyStr.split ": " v) as [|v0 [|v1 vs]] eqn:Ev;
      [congruence| |discriminate].
    split; apply (PyStrFacts.split_one_part _ _ Hne).
    + now rewrite Ek.
    + now rewrite Ev.
  - destruct (PyStr.split ": " v) as [|v0 vs]; [congruence|].
    destruct ks; discriminate.
Qed.

(** Where an entry of the header after one line comes from. *)
Lemma read_line_entry loc l s r s1 k v :
  read_line loc l s = (r, s1) ->
  _header s1 !! k = Some v ->
  _header s !! k = Some v
  \/ (first_line loc = true /\ k = "Description" /\ v = PyStr.rstrip l)
  \/ (first_line loc = false /\ PyStr.rstrip l = k +:+ ": " +:+ v
      /\ PyStr.contains ": " k = false /\ PyStr.contains ": " v = false).
Proof.
  destruct (first_line loc) eqn:Hf.
  { rewrite read_line_first by assumption. intros [= <- <-]. cbn.
    intros [[<- <-]|[_ Hk]]%lookup_insert_Some; auto. }
  destruct (line_cases l) as [Hb|[[Hb Hm]|(Hb & Hm & Hs)]].
  - rewrite read_line_blank by assumption. intros [= <- <-]. auto.
  - rewrite read_line_marker by assumption. intros [= <- <-]. auto.
  - destruct (data_block loc) eqn:Hd.
    + rewrite read_line_sample by assumption.
      destruct (parse_sample l) as [[x y]|]; intros [= <- <-]; auto.
    + rewrite read_line_header by (try split; assumption).
      destruct (PyStr.split ": " (PyStr.rstrip l)) as [|k0 [|v0 [|]]] eqn:Hsp;
        try (intros [= <- <-]; auto).
      cbn. intros [[<- <-]|[_ Hk]]%lookup_insert_Some; [|auto].
      right. right. split; [reflexivity|]. now apply split_two_parts.
Qed.

Lemma read_lines_entry lines : forall loc s r s' k v,
  read_lines loc lines s = (r, s') ->
  _header s' !! k = Some v ->
  _header s !! k = Some v
  \/ (first_line loc = true /\ k = "Description"
      /\ exists l, head lines = Some l /\ v = PyStr.rstrip l)
  \/ (exists l, l ∈ (if first_line loc then tail lines else lines)
        /\ PyStr.rstrip l = k +:+ ": " +:+ v
        /\ PyStr.contains ": " k = false /\ PyStr.contains ": " v = false).
Proof.
  induction lines as [|l lines IH]; intros loc s r s' k v.
  - intros [= <- <-]. auto.
  - rewrite read_lines_cons.
    destruct (read_line loc l s) as [[loc1|e] s1] eqn:El.
    + intros Hr Hk.
      pose proof (read_line_Return _ _ _ _ _ El) as (Hf1 & _).
      destruct (IH _ _ _ _ _ _ Hr Hk) as [H1|[(Hc & _)|(l' & Hin & Hl')]];
        [|congruence|].
      * destruct (read_line_entry _ _ _ _ _ _ _ El H1)
          as [?|[(? & ? & ?)|(Hf & ?)]]; auto.
        -- right. left. repeat split; auto. exists l. now split.
        -- right. right. exists l. rewrite Hf. split; [left|assumption].
      * rewrite Hf1 in Hin. right. right. exists l'. split; [|exact Hl'].
        destruct (first_line loc); [exact Hin|now right].
    + intros [= <- <-] Hk.
      apply read_line_raises in El as [_ ->]. auto.
Qed.

(** X16. Whatever way [read] ends on a file that opens, every entry of
    the header it leaves comes from the file: it is either the
    description, holding the first line without its trailing whitespace,
    or a key and a value that, joined by ": ", are a later line of the
    file without its trailing whitespace - and then neither the key nor
    the value holds ": ". *)
Theorem header_entries_come_from_lines :
  forall (fs : filesystem) (c : ascii) (p : string)
         (self self' : UVVisSpectrum) (lines : list string)
         (r : outcome unit) (out : list string) (k v : string),
    fs (String c p) = Lines lines ->
    read fs (Some (String c p)) self = (r, self', out) ->
    _header self' !! k = Some v ->
    (k = "Description" /\ exists l, head lines = Some l /\ v = PyStr.rstrip l)
    \/ (exists l, l ∈ tail lines
          /\ PyStr.rstrip l = k +:+ ": " +:+ v
          /\ PyStr.contains ": " k = false /\ PyStr.contains ": " v = false).
Proof.
  intros fs c p self self' lines r out k v Hfs Hr Hk.
  assert (Hloop : exists r1 s1,
    read_lines initial_locals lines (blank_instance (Some (String c p)))
      = (r1, s1) /\ _header self' = _header s1).
  { destruct (read_stages _ _ _ _ _ _ _ _ Hfs Hr)
      as [_ [(e & Hl & _)|(loc & s1 & Hl & He)]]; [eauto|].
    destruct (read_epilogue_outcome _ _ _ _ He) as (_ & Hh & _). eauto. }
  destruct Hloop as (r1 & s1 & Hl & Hh). rewrite Hh in Hk.
  destruct (read_lines_entry _ _ _ _ _ _ _ Hl Hk) as [H0|[(_ & ? & ?)|?]]; auto.
  cbn in H0. now rewrite lookup_empty in H0.
Qed.

(** The extraction that returns has found its fields convertible. *)
Lemma extract_Return_parses s s' :
  _extract_metadata s = (Return tt, s') -> fields_parse (_header s).
Proof.
  intros Hx.
  destruct (extract_Return_fields _ _ Hx) as (Ht & Hs & Hi & Hb & Hn & _).
  pose proof (extract_Return_date _ _ Hx) as Hd.
  unfold fields_parse.
  repeat split; intros v Hv; rewrite Hv in *.
  - now destruct Ht as (n & -> & _).
  - now destruct Hs as (n & -> & _).
  - now destruct Hi as (n & -> & _).
  - now destruct Hb as (n & -> & _).
  - now destruct Hn as (n & -> & _).
  - destruct Hd as (iso & -> & _). eauto.
Qed.

(** X17. One header entry that cannot be converted costs the whole
    spectrum: when the loop over the lines has returned but an integer
    entry, the integration time or the date of the header is unreadable,
    [read] raises, and the instance it leaves has the complete header of
    the file but an empty data frame - the samples that were read are
    dropped. *)
Theorem unreadable_field_drops_the_samples :
  forall (fs : filesystem) (c : ascii) (p : string)
         (self s1 : UVVisSpectrum) (lines : list string) (loc : locals),
    fs (String c p) = Lines lines ->
    read_lines initial_locals lines (blank_instance (Some (String c p)))
      = (Return loc, s1) ->
    ~ fields_parse (_header s1) ->
    exists e self',
      read fs (Some (String c p)) self = (Raise e, self', [])
      /\ _header self' = _header s1
      /\ _data self' = empty_frame.
Proof.
  intros fs c p self s1 lines loc Hfs Hl Hbad.
  destruct (read fs (Some (String c p)) self) as [[r self'] out] eqn:Hr.
  destruct (read_stages _ _ _ _ _ _ _ _ Hfs Hr)
    as [-> [(e & Hl' & _)|(loc' & s1' & Hl' & He)]]; [congruence|].
  rewrite Hl in Hl'. injection Hl' as <- <-.
  destruct (read_lines_outcome _ _ _ _ _ Hl) as [(_ & _ & Hd1) _].
  revert He. unfold read_epilogue. rewrite bind_run.
  destruct (_extract_metadata s1) as [[[]|e] s2] eqn:Hx.
  - destruct Hbad. eapply extract_Return_parses; eauto.
  - intros [= <- <-].
    destruct (respects_run _ _ _ _ _ respects_extract_metadata Hx)
      as (_ & Hh & Hd).
    exists e, s2. repeat split; [exact Hh|]. now rewrite Hd, Hd1.
Qed.

End HeaderProvenance.

(** ** The keys of the metadata *)

Section MetadataKeys.
Context {float : Type} `{!Runtime float}.
Local Abbreviation UVVisSpectrum := (@UVVisSpectrum float).
Local Abbreviation locals := (@locals float).
Local Abbreviation M := (@M float).
Local Abbreviation mvalue := (@mvalue float).
Implicit Types (s self : UVVisSpectrum) (loc : locals).

#[local] Instance only_entries_preorder K : PreOrder (@only_entries float K).
Proof.
  split.
  - intros s. split; [reflexivity|auto].
  - intros s1 s2 s3 [Ha Hb] [Hc Hd]. split; [now transitivity s2|].
    intros k Hk. now rewrite Hd, Hb.
Qed.

Lemma respects_entries_setitem K k (v : mvalue) :
  k ∈ K -> respects (only_entries K) (metadata_setitem k v).
Proof.
  intros Hin s r s'. rewrite metadata_setitem_run. intros [= <- <-].
  split; [|discriminate]. split; [now repeat split|].
  intros k' Hk'. cbn. apply lookup_insert_ne. now intros ->.
Qed.

Lemma respects_entries_extract_metadata :
  respects (only_entries metadata_keys) _extract_metadata.
Proof.
  unfold _extract_metadata.
  respects_tac ltac:(first [apply respects_entries_setitem;
                              unfold metadata_keys; repeat constructor
                           |apply respects_date; tc_solve]).
Qed.

Lemma axis_label_present k s l :
  axis_label k s = (Return l, s) -> is_Some (_metadata s !! k).
Proof.
  unfold axis_label. rewrite bind_run. cbn [get].
  destruct (_metadata s !! k); [eauto|discriminate].
Qed.

(** X18. When [read] returns on a file that opens, the metadata hold
    entries under the sixteen keys of the code and under no other key,
    and the eight entries that do not depend on the header - the vendor
    header, the technique and its IRI, the instrument, the two axes and
    the two observed wavelengths - are all there.  (On a missing file
    [read] returns too, with empty metadata.) *)
Theorem metadata_keys_after_read :
  forall (fs : filesystem) (c : ascii) (p : string)
         (self self' : UVVisSpectrum) (lines : list string) (out : list string),
    fs (String c p) = Lines lines ->
    read fs (Some (String c p)) self = (Return tt, self', out) ->
    (forall k, is_Some (_metadata self' !! k) -> k ∈ metadata_keys)
    /\ (forall k,
          k ∈ [ "vendor_header"; "technique"; "technique-iri"; "instrument";
                "abscissa"; "ordinate"; "lowest-observed-wavelength";
                "highest-observed-wavelength" ] ->
          is_Some (_metadata self' !! k)).
Proof.
  intros fs c p self self' lines out Hfs Hr.
  destruct (read_Return_metadata _ _ _ _ _ _ _ Hfs Hr)
    as (s1 & s2 & x0 & xn & Hm1 & Hhd & Hex & _ & _ & Hm
        & xl & yl & Hxl & Hyl & _).
  destruct (respects_run _ _ _ _ _ respects_entries_extract_metadata Hex)
    as [_ Hout].
  destruct (extract_Return_fixed _ _ Hex) as (Hv & Ht & Hi & d & Hd & _).
  apply axis_label_present in Hxl, Hyl.
  split.
  - intros k Hk.
    destruct (decide (k ∈ metadata_keys)) as [Hin|Hnin]; [exact Hin|].
    exfalso. rewrite Hm in Hk.
    rewrite !lookup_insert_ne in Hk.
    + rewrite (Hout k Hnin), Hm1, lookup_empty in Hk. now destruct Hk.
    + intros <-. apply Hnin. unfold metadata_keys. repeat constructor.
    + intros <-. apply Hnin. unfold metadata_keys. repeat constructor.
  - intros k Hin. rewrite Hm.
    repeat (apply elem_of_cons in Hin as [->|Hin];
            [first [ rewrite lookup_insert_eq; eauto
                   | rewrite lookup_insert_ne, lookup_insert_eq by discriminate;
                     eauto
                   | rewrite !lookup_insert_ne by discriminate; eauto ]|]).
    now apply elem_of_nil in Hin.
Qed.

End MetadataKeys.

Section ChainTypeError.
Import MultipleJsonEncoders.
Variables obj json kwargs other : Type.
Variable class_name : obj -> string.

Lemma try_each_TypeError (encs : list (encoder obj json kwargs other))
    (a : kwargs) (o : obj) (msg : string) :
  try_each class_name encs a o = RaiseTypeError msg ->
  msg = "Object of type " +:+ class_name o +:+ " is not JSON serializable"
  /\ Forall (declines a o) encs.
Proof.
  induction encs as [|enc encs IH]; cbn.
  - intros [= <-]. split; [reflexivity|constructor].
  - destruct (enc a o) as [j|m|e] eqn:He; try discriminate.
    intros Hr. destruct (IH Hr) as [-> Hall].
    split; [reflexivity|]. constructor; [now exists m|exact Hall].
Qed.

(** X19. A [TypeError] that leaves [default] is the chain's own: its
    message is "Object of type ... is not JSON serializable" with the
    class name of the object, every encoder of the chain has declined
    the object, and the messages of the encoders' own [TypeError]s are
    not in it. *)
Theorem type_error_is_the_chains_own :
  forall (self : t obj json kwargs other) (o : obj) (msg : string),
    default class_name self o = RaiseTypeError msg ->
    msg = "Object of type " +:+ class_name o +:+ " is not JSON serializable"
    /\ Forall (declines (args self) o) (encoders self).
Proof.
  intros self o msg. unfold MultipleJsonEncoders.default.
  apply try_each_TypeError.
Qed.

End ChainTypeError.

(** * More runs on the sample files *)

Section MoreRuns.

Lemma triple_eta {A B C : Type} (x : A * B * C) : x = (x.1.1, x.1.2, x.2).
Proof. now destruct x as [[a b] c]. Qed.

Lemma full_read_returns :
  read Files.disk_full (Some "full.txt") Files.fresh
  = (Return tt, Files.full_loaded, []).
Proof. vm_compute. reflexivity. Qed.

(** X2, on an object that remembers the spectrum file. *)
Lemma read_without_name_uses_stored_name_witness :
  _filename Files.named = Some "spectrum.txt"
  /\ read Files.disk None Files.named
     = read Files.disk (Some "spectrum.txt") Files.named.
Proof.
  split; [reflexivity|].
  exact (proj1 (read_without_name_uses_stored_name
                  Files.disk None Files.named (or_introl eq_refl))
           "s"%char "pectrum.txt" eq_refl).
Defined.

(** X3, on a file that is missing. *)
Lemma read_always_stores_the_name_witness :
  _filename (read Files.disk (Some "missing.txt") Files.fresh).1.2
  = Some "missing.txt".
Proof.
  exact (proj1 (read_always_stores_the_name
                  Files.disk "m"%char "issing.txt" Files.fresh _ _ _
                  (triple_eta (read Files.disk (Some "missing.txt") Files.fresh)))).
Defined.

(** X4, on a data block that holds a header-like line. *)
Lemma data_block_lines_are_samples_or_errors_witness :
  data_block Files.block_locals = true
  /\ read_lines Files.block_locals Files.mixed_block Files.fresh
     = (Raise ValueError, Files.fresh).
Proof.
  split; [reflexivity|].
  apply (proj2 (data_block_lines_are_samples_or_errors
                  Files.block_locals Files.mixed_block Files.fresh
                  eq_refl eq_refl)).
  apply Exists_cons_tl, Exists_cons_hd. split; vm_compute; reflexivity.
Defined.

(** X5, on the full sample file. *)
Lemma rows_are_the_samples_in_file_order_witness :
  mapM parse_sample
    (List.filter Spec.is_sample (Spec.lines_after_marker Files.full))
  = Some (rows (_data Files.full_loaded)).
Proof.
  exact (rows_are_the_samples_in_file_order
           Files.disk_full "f"%char "ull.txt" Files.fresh Files.full_loaded
           Files.full [] eq_refl full_read_returns).
Defined.

(** X6, on the full sample file, whose first x value is the larger
    one. *)
Lemma observed_range_is_first_and_last_x_witness :
  (exists x0 xn,
     head (rows (_data Files.full_loaded)).*1 = Some x0
     /\ last (rows (_data Files.full_loaded)).*1 = Some xn
     /\ _metadata Files.full_loaded !! "lowest-observed-wavelength"
        = Some (MFloat x0)
     /\ _metadata Files.full_loaded !! "highest-observed-wavelength"
        = Some (MFloat xn))
  /\ _metadata Files.full_loaded !! "lowest-observed-wavelength"
     = Some (MFloat "850.0")
  /\ _metadata Files.full_loaded !! "highest-observed-wavelength"
     = Some (MFloat "200.1").
Proof.
  split.
  - exact (observed_range_is_first_and_last_x
             Files.disk_full "f"%char "ull.txt" Files.fresh Files.full_loaded
             Files.full [] eq_refl full_read_returns).
  - split; vm_compute; reflexivity.
Defined.

Lemma by_pixel_read_returns :
  read Files.disk_axes (Some "by_pixel.txt") Files.fresh
  = (Return tt, Files.by_pixel_loaded, []).
Proof. vm_compute. reflexivity. Qed.

Lemma plain_read_returns :
  read Files.disk_axes (Some "plain.txt") Files.fresh
  = (Return tt, Files.plain_loaded, []).
Proof. vm_compute. reflexivity. Qed.

(** X7, on the full sample file, on a file whose x axis counts pixels
    and on a file that does not name its x axis. *)
Lemma data_frame_columns_are_the_axis_labels_witness :
  columns (_data Files.full_loaded) = ["wavelength (nm)"; "absorbance"]
  /\ columns (_data Files.by_pixel_loaded) = ["Pixels"; "absorbance"]
  /\ columns (_data Files.plain_loaded) = ["x"; "absorbance"].
Proof.
  split; [|split].
  - etransitivity.
    + exact (data_frame_columns_are_the_axis_labels
               Files.disk_full "f"%char "ull.txt" Files.fresh
               Files.full_loaded Files.full [] eq_refl full_read_returns).
    + vm_compute. reflexivity.
  - etransitivity.
    + exact (data_frame_columns_are_the_axis_labels
               Files.disk_axes "b"%char "y_pixel.txt" Files.fresh
               Files.by_pixel_loaded Files.by_pixel [] eq_refl
               by_pixel_read_returns).
    + vm_compute. reflexivity.
  - etransitivity.
    + exact (data_frame_columns_are_the_axis_labels
               Files.disk_axes "p"%char "lain.txt" Files.fresh
               Files.plain_loaded Files.plain [] eq_refl plain_read_returns).
    + vm_compute. reflexivity.
Defined.

(** X8, on the full sample file: "FALSE" is false, "no" is true. *)
Lemma flags_are_false_only_for_the_text_false_witness :
  _metadata Files.full_loaded !! "Nonlinearity correction enabled"
    = Some (MBool false)
  /\ _metadata Files.full_loaded !! "Storing dark spectrum"
     = Some (MBool true).
Proof.
  split.
  - etransitivity.
    + exact (flags_are_false_only_for_the_text_false
               Files.disk_full "f"%char "ull.txt" Files.fresh Files.full_loaded
               Files.full [] _ eq_refl full_read_returns (or_introl eq_refl)).
    + vm_compute. reflexivity.
  - vm_compute. reflexivity.
Defined.

(** X9, on the full sample file: the integration time. *)
Lemma converted_fields_follow_the_header_witness :
  match _header Files.full_loaded !! "Integration Time (sec)" with
  | Some v => exists x, py_float v = Some x
                /\ _metadata Files.full_loaded !! "dwell-time"
                   = Some (MQuantity x ureg_sec)
  | None => _metadata Files.full_loaded !! "dwell-time" = None
  end.
Proof.
  exact (proj1 (proj2 (converted_fields_follow_the_header
                         Files.disk_full "f"%char "ull.txt" Files.fresh
                         Files.full_loaded Files.full [] eq_refl
                         full_read_returns))).
Defined.

(** X10, on the full sample file. *)
Lemma fixed_entries_and_vendor_header_witness :
  _metadata Files.full_loaded !! "vendor_header"
  = Some (MDict (_header Files.full_loaded)).
Proof.
  exact (proj1 (fixed_entries_and_vendor_header
                  Files.disk_full "f"%char "ull.txt" Files.fresh
                  Files.full_loaded Files.full [] eq_refl full_read_returns)).
Defined.

(** X12, on a comment line without a comment. *)
Lemma header_entry_without_value_is_rejected_witness :
  Spec.all_space Files.nl = true
  /\ read_line Files.header_locals ("Comment" +:+ ": " +:+ Files.nl) Files.fresh
     = (Raise (Exception "Something wrong here"), Files.fresh).
Proof.
  split; [reflexivity|].
  exact (header_entry_without_value_is_rejected
           Files.header_locals Files.fresh "Comment" Files.nl
           (conj eq_refl eq_refl) eq_refl eq_refl).
Defined.

(** X15, on a chain whose second encoder fails with a [KeyError] and
    whose third encoder would accept the object. *)
Lemma other_exception_ends_the_chain_witness :
  MultipleJsonEncoders.default EncoderSample.class_name
    {| MultipleJsonEncoders.encoders :=
         [EncoderSample.JsonDecliningEncoder; EncoderSample.JsonFailingEncoder;
          EncoderSample.JsonReprEncoder];
       MultipleJsonEncoders.args := tt |}
    (EncoderSample.SetOf [1%Z])
  = MultipleJsonEncoders.RaiseOther "KeyError".
Proof.
  refine (other_exception_ends_the_chain _ _ _ _ EncoderSample.class_name
            {| MultipleJsonEncoders.encoders :=
                 [EncoderSample.JsonDecliningEncoder;
                  EncoderSample.JsonFailingEncoder;
                  EncoderSample.JsonReprEncoder];
               MultipleJsonEncoders.args := tt |}
            (EncoderSample.SetOf [1%Z])
            [EncoderSample.JsonDecliningEncoder]
            [EncoderSample.JsonReprEncoder]
            EncoderSample.JsonFailingEncoder "KeyError" eq_refl _ eq_refl).
  constructor; [|constructor]. eexists. reflexivity.
Defined.

(** X16, on the full sample file: the spectrometer entry. *)
Lemma header_entries_come_from_lines_witness :
  _header Files.full_loaded !! "Spectrometer" = Some "USB4000"
  /\ (("Spectrometer" = "Description"
       /\ exists l, head Files.full = Some l /\ "USB4000" = PyStr.rstrip l)
      \/ (exists l, l ∈ tail Files.full
            /\ PyStr.rstrip l = "Spectrometer" +:+ ": " +:+ "USB4000"
            /\ PyStr.contains ": " "Spectrometer" = false
            /\ PyStr.contains ": " "USB4000" = false)).
Proof.
  assert (Hk : _header Files.full_loaded !! "Spectrometer" = Some "USB4000")
    by (vm_compute; reflexivity).
  split; [exact Hk|].
  exact (header_entries_come_from_lines
           Files.disk_full "f"%char "ull.txt" Files.fresh Files.full_loaded
           Files.full (Return tt) [] "Spectrometer" "USB4000"
           eq_refl full_read_returns Hk).
Defined.

(** X17, on the file whose trigger mode is no integer. *)
Lemma unreadable_field_drops_the_samples_witness :
  Files.bad_field_loop = (Return Files.bad_field_locals, Files.bad_field_loop.2)
  /\ exists e self',
       read Files.disk_bad_field (Some "bad_field.txt") Files.fresh
         = (Raise e, self', [])
       /\ _header self' = _header Files.bad_field_loop.2
       /\ _data self' = empty_frame.
Proof.
  assert (Hl : Files.bad_field_loop
               = (Return Files.bad_field_locals, Files.bad_field_loop.2))
    by (vm_compute; reflexivity).
  split; [exact Hl|].
  refine (unreadable_field_drops_the_samples
            Files.disk_bad_field "b"%char "ad_field.txt" Files.fresh
            Files.bad_field_loop.2 Files.bad_field Files.bad_field_locals
            eq_refl Hl _).
  intros (Ht & _).
  assert (Hv : _header Files.bad_field_loop.2 !! "Trigger mode" = Some "fast")
    by (vm_compute; reflexivity).
  destruct (Ht _ Hv) as [n Hn]. vm_compute in Hn. discriminate Hn.
Defined.

(** X18, on the full sample file: the date is stored under a key of
    the list. *)
Lemma metadata_keys_after_read_witness :
  is_Some (_metadata Files.full_loaded !! "acquisition-date")
  /\ "acquisition-date" ∈ metadata_keys
  /\ is_Some (_metadata Files.full_loaded !! "ordinate").
Proof.
  assert (Hk : is_Some (_metadata Files.full_loaded !! "acquisition-date"))
    by (vm_compute; eauto).
  split; [exact Hk|]. split.
  - exact (proj1 (metadata_keys_after_read
                    Files.disk_full "f"%char "ull.txt" Files.fresh
                    Files.full_loaded Files.full [] eq_refl full_read_returns)
             "acquisition-date" Hk).
  - apply (proj2 (metadata_keys_after_read
                    Files.disk_full "f"%char "ull.txt" Files.fresh
                    Files.full_loaded Files.full [] eq_refl full_read_returns)).
    repeat constructor.
Defined.

(** X19, on the chain of [metadata_as_json] and a set: the message
    names the class of the object. *)
Lemma type_error_is_the_chains_own_witness :
  MultipleJsonEncoders.default EncoderSample.class_name EncoderSample.chain
    (EncoderSample.SetOf [1%Z])
  = MultipleJsonEncoders.RaiseTypeError
      "Object of type set is not JSON serializable"
  /\ Forall (MultipleJsonEncoders.declines tt (EncoderSample.SetOf [1%Z]))
       (MultipleJsonEncoders.encoders EncoderSample.chain).
Proof.
  assert (Hd : MultipleJsonEncoders.default EncoderSample.class_name
                 EncoderSample.chain (EncoderSample.SetOf [1%Z])
               = MultipleJsonEncoders.RaiseTypeError
                   "Object of type set is not JSON serializable")
    by reflexivity.
  split; [exact Hd|].
  exact (proj2 (type_error_is_the_chains_own _ _ _ _ EncoderSample.class_name
                  EncoderSample.chain (EncoderSample.SetOf [1%Z]) _ Hd)).
Defined.

End MoreRuns.
